(** * cs-ranking: pairwise-decomposition learners

    A shallow embedding of the pairwise learners of the [csrank] package
    (RankNet, CmpNet and FETA cores, the choice-function wrappers and the
    [Learner] base class), together with the properties their description
    states about them.

    Numbers.  Scores, weights and activations are modelled over the real
    numbers [R]; the threshold tuner, which only compares scores, is
    modelled over any decidable strict total order.  Arrays are lists:
    a feature vector is a [list R], a query set a list of feature vectors
    and a batch a list of query sets.

    Effects.  Python exceptions are values of [exn] carried by [result];
    methods that mutate the learner thread an explicit state record and,
    where the order of library calls matters, a trace of events. *)

From Stdlib Require Import String Ascii.
From Stdlib Require Import DecimalString.
From Stdlib Require Import List Arith Lia Bool Sorted.
From Stdlib Require Import Permutation.
From Stdlib Require Import QArith.
From Stdlib Require Import Reals Lra.
Import ListNotations.

Close Scope Q_scope.
Close Scope R_scope.
Open Scope string_scope.
Open Scope nat_scope.
Open Scope list_scope.

Set Implicit Arguments.

(* ================================================================== *)
(** * Part I: the embedding                                            *)
(* ================================================================== *)

(** ** Python results and exceptions *)

Module Py.

Inductive exn : Type :=
| TypeError (msg : string)
| UnexpectedKeyword (key : string) (allowed : list string)
    (* TypeError: __init__() got an unexpected keyword argument *)
| NotImplementedError
| AttributeError (attr : string)
| IndexError
| ValueError (msg : string)
| LibraryError (code : nat).

(** The keyword-argument values the learners are configured with. *)
Inductive value : Type :=
| Int (n : nat)
| Float (q : Q)
| Bool (b : bool)
| Str (s : string).

Inductive result (A : Type) : Type :=
| Ok (a : A)
| Raise (e : exn).

Arguments Ok {A} a.
Arguments Raise {A} e.

Definition bind {A B} (r : result A) (k : A -> result B) : result B :=
  match r with
  | Ok a => k a
  | Raise e => Raise e
  end.

Fixpoint mapM {A B} (f : A -> result B) (l : list A) : result (list B) :=
  match l with
  | [] => Ok []
  | a :: l' => bind (f a) (fun b => bind (mapM f l') (fun bs => Ok (b :: bs)))
  end.

End Py.

Import Py.

(** ** Real-valued vectors and activations *)

Module Numeric.

Definition vec := list R.

(** [csrank.numpy_util.sigmoid] and the Keras ["sigmoid"] activation. *)
Definition sigmoid (x : R) : R := (/ (1 + exp (- x)))%R.

Definition relu (x : R) : R := Rmax 0 x.

Fixpoint dot (w x : vec) : R :=
  match w, x with
  | a :: w', b :: x' => (a * b + dot w' x')%R
  | _, _ => 0%R
  end.

(** Keras [add([u, v])]: element-wise sum of two tensors of one shape. *)
Fixpoint vadd (u v : vec) : vec :=
  match u, v with
  | a :: u', b :: v' => (a + b)%R :: vadd u' v'
  | _, _ => []
  end.

(** [Lambda(lambda x: -x)]. *)
Definition vneg (u : vec) : vec := map Ropp u.

(** [concatenate([u, v])] on the feature axis. *)
Definition concatenate (u v : vec) : vec := u ++ v.

Fixpoint sum (l : list R) : R :=
  match l with
  | [] => 0%R
  | a :: l' => (a + sum l')%R
  end.

(** numpy's [mean] along a row.  The mean of an empty row is numpy's
    [nan], which is no real number: the model has no value there. *)
Definition mean (l : list R) : option R :=
  match l with
  | [] => None
  | _ :: _ => Some (sum l / INR (length l))%R
  end.

End Numeric.

Import Numeric.

(** ** The slice of Keras the learners use *)

Module Keras.

(** A layer object is called on a tensor and returns a tensor.  Hidden
    layers ([Dense], [NormalizedDense] with any activation, initializer
    and regularizer) are kept abstract: whatever function their current
    weights compute. *)
Definition layer := vec -> vec.

(** [for hidden in layers: x = hidden(x)]. *)
Definition through (layers : list layer) (x : vec) : vec :=
  fold_left (fun acc (hidden : layer) => hidden acc) layers x.

(** [Dense(1, ...)]: one unit with a kernel and a bias (Keras'
    [use_bias] defaults to [True]). *)
Record Dense1 : Type := mkDense1 { kernel : vec; bias : R }.

(** [Dense(1, activation="linear")]. *)
Definition linear_unit (d : Dense1) (x : vec) : R :=
  (dot (kernel d) x + bias d)%R.

(** [Dense(1, activation="sigmoid")]. *)
Definition sigmoid_unit (d : Dense1) (x : vec) : R :=
  sigmoid (linear_unit d x).

(** A concrete [Dense(len(units), activation=act)] hidden layer. *)
Definition dense (units : list Dense1) (act : R -> R) : layer :=
  fun x => map (fun u => act (linear_unit u x)) units.

End Keras.

Import Keras.

(** ** itertools and numpy helpers *)

Module Itertools.

(** [itertools.product(range(n), repeat=2)], in lexicographic order. *)
Definition product2 (n : nat) : list (nat * nat) :=
  list_prod (seq 0 n) (seq 0 n).

(** [itertools.permutations(range(n), 2)]: the tuples of [product] whose
    positions are pairwise distinct, in the order of [product]. *)
Definition permutations (n : nat) : list (nat * nat) :=
  filter (fun ij => negb (Nat.eqb (fst ij) (snd ij))) (product2 n).

(** [itertools.combinations(range(n), 2)]: the tuples of [permutations]
    whose positions are sorted, in the order of [permutations]. *)
Definition combinations (n : nat) : list (nat * nat) :=
  filter (fun ij => Nat.leb (fst ij) (snd ij)) (permutations n).

End Itertools.

Module Numpy.

(** [a.reshape(rows, cols)] for a flat array of [rows * cols] entries:
    consecutive runs of [cols] entries become the rows. *)
Fixpoint reshape {A} (rows cols : nat) (a : list A) : list (list A) :=
  match rows with
  | 0 => []
  | S rows' => firstn cols a :: reshape rows' cols (skipn cols a)
  end.

(** [m.mean(axis=1)]: one mean per row; no value if a row is empty. *)
Fixpoint mean_axis1 (m : list (list R)) : option (list R) :=
  match m with
  | [] => Some []
  | row :: m' =>
      match mean row, mean_axis1 m' with
      | Some s, Some ss => Some (s :: ss)
      | _, _ => None
      end
  end.

(** A batch [X] of shape (n_instances, n_objects, n_features). *)
Definition batch := list (list vec).

(** [X[n, i]] for an instance [x = X[n]]. *)
Definition obj (x : list vec) (i : nat) : vec := nth i x [].

End Numpy.

Import Numpy.

(** ** [csrank/cmpnet_core.py] *)

Module CmpNetCore.

Record t : Type := mk {
  hidden_layers : list layer;
  output_node : Dense1          (* Dense(1, activation='sigmoid') *)
}.

(** [construct_model] on one pair [(x1, x2)]: the two outputs
    [concatenate([N_g, N_l])]. *)
Definition construct_model (self : t) (x1 x2 : vec) : R * R :=
  let x1x2 := through (hidden_layers self) (concatenate x1 x2) in
  let x2x1 := through (hidden_layers self) (concatenate x2 x1) in
  let merged_left := concatenate x1x2 x2x1 in
  let merged_right := concatenate x2x1 x1x2 in
  let N_g := sigmoid_unit (output_node self) merged_left in
  let N_l := sigmoid_unit (output_node self) merged_right in
  (N_g, N_l).

(** The part of [__init__] that treats [**kwargs]: every key outside
    [allowed_dense_kwargs] is deleted, the rest is kept. *)
Definition init_kwargs {V} (allowed_dense_kwargs : list string)
    (kwargs : list (string * V)) : list (string * V) :=
  filter (fun kv => existsb (String.eqb (fst kv)) allowed_dense_kwargs)
         kwargs.

Section Init.

(** The layer classes [Dense] and [NormalizedDense], called on [units]
    and the keyword arguments they receive: the new layer object, or
    the exception of the library on arguments it rejects. *)
Variable layer_object : Type.
Variable Dense : nat -> list (string * value) -> result layer_object.
Variable NormalizedDense
  : nat -> list (string * value) -> result layer_object.

(** A call [f(k=v, ..., **kwargs)] passes [f] the explicit keywords and
    those of [kwargs]; Python raises a [TypeError] at the call when
    [kwargs] repeats an explicit keyword. *)
Definition keyword_arguments (explicit kwargs : list (string * value))
  : result (list (string * value)) :=
  match find (fun kv => existsb (String.eqb (fst kv)) (map fst explicit))
             kwargs with
  | Some kv =>
      Raise (TypeError ("got multiple values for keyword argument '"
                        ++ fst kv ++ "'"))
  | None => Ok (explicit ++ kwargs)
  end.

(** ["hidden_{}".format(x)]. *)
Definition hidden_name (x : nat) : string :=
  "hidden_" ++ NilEmpty.string_of_uint (Nat.to_uint x).

(** [_construct_layers]: the output node, then one hidden
    layer per [x] in [range(n_hidden)], each constructed with its name
    and [**kwargs]. *)
Definition _construct_layers (batch_normalization : bool)
    (n_hidden n_units : nat) (kernel_regularizer : value)
    (kwargs : list (string * value))
  : result (layer_object * list layer_object) :=
  bind (Dense 1 [("activation", Str "sigmoid");
                 ("kernel_regularizer", kernel_regularizer)])
       (fun output_node =>
  bind (mapM (fun x =>
                bind (keyword_arguments [("name", Str (hidden_name x))]
                                        kwargs)
                     (fun kw =>
                        if batch_normalization
                        then NormalizedDense n_units kw
                        else Dense n_units kw))
             (seq 0 n_hidden))
       (fun hidden_layers => Ok (output_node, hidden_layers))).

(** The learner [__init__] leaves: the keywords it kept and the layers
    it constructed. *)
Record learner : Type := mkLearner {
  kwargs_of : list (string * value);
  hidden_layers_of : list layer_object;
  output_node_of : layer_object
}.

(** [__init__], as far as [**kwargs] is concerned (the optimizer and
    the random state are taken to be valid): the keys outside
    [allowed_dense_kwargs] are deleted, and the layers are constructed
    with the regularizer, the initializer, the activation and the
    keywords kept. *)
Definition __init__ (allowed_dense_kwargs : list string)
    (batch_normalization : bool) (n_hidden n_units : nat)
    (kernel_regularizer kernel_initializer activation : value)
    (kwargs : list (string * value)) : result learner :=
  let kwargs := init_kwargs allowed_dense_kwargs kwargs in
  bind (keyword_arguments
          [("kernel_regularizer", kernel_regularizer);
           ("kernel_initializer", kernel_initializer);
           ("activation", activation)]
          kwargs)
       (fun layer_kwargs =>
  bind (_construct_layers batch_normalization n_hidden n_units
                          kernel_regularizer layer_kwargs)
       (fun layers => Ok (mkLearner kwargs (snd layers) (fst layers)))).

End Init.

(** [predict_pair(a, b)]: the fitted model on a batch of pairs. *)
Definition predict_pair (self : t) (a b : list vec) : list (R * R) :=
  map (fun ab => construct_model self (fst ab) (snd ab)) (combine a b).

(** The body of the loop over instances in [_predict_scores_fixed].
    [pairs[k] = (X[n, i], X[n, j])] for the k-th tuple of
    [permutations(range(n_objects), 2)]. *)
Definition pairs (x : list vec) : list (vec * vec) :=
  map (fun ij => (obj x (fst ij), obj x (snd ij)))
      (Itertools.permutations (length x)).

(** [predict_pair(pairs[:, 0], pairs[:, 1])[:, 0]] reshaped to
    (n_objects, n_objects - 1). *)
Definition score_matrix (self : t) (x : list vec) : list (list R) :=
  let n_objects := length x in
  let result := map fst (predict_pair self (map fst (pairs x))
                                           (map snd (pairs x))) in
  reshape n_objects (n_objects - 1) result.

(** [scores[n] = result.reshape(...).mean(axis=1)].  With fewer than
    two objects there is no pair and no mean: no score is produced and
    the call fails. *)
Definition scores_of_instance (self : t) (x : list vec) : result (list R) :=
  match length x with
  | 0 => Raise (ValueError "empty query set")
  | S _ =>
      match mean_axis1 (score_matrix self x) with
      | Some s => Ok s
      | None => Raise (ValueError "mean of empty slice")
      end
  end.

Definition _predict_scores_fixed (self : t) (X : batch)
  : result (list (list R)) :=
  mapM (scores_of_instance self) X.

End CmpNetCore.

(** ** [csrank/discretechoice/feta_discrete_choice.py] *)

Module FETADiscreteChoiceFunction.

(** The layers [_construct_layers] creates, with their trained weights,
    and the attributes [construct_model] reads. *)
Record t : Type := mk {
  add_zeroth_order_model : bool;
  n_objects_fit_ : nat;
  hidden_layers : list layer;
  output_node : Dense1;             (* Dense(1, activation="linear") *)
  hidden_layers_zeroth : list layer;
  output_node_zeroth : Dense1;      (* Dense(1, activation="linear") *)
  weighted_sum : Dense1             (* Dense(1, activation="sigmoid") *)
}.

(** Keras' [concatenate], as in the Keras releases up to 2.3: a list of
    fewer than two tensors is refused. *)
Definition keras_concatenate {A} (xs : list A) : result (list A) :=
  match xs with
  | _ :: _ :: _ => Ok xs
  | _ => Raise (ValueError "A Concatenate layer should be called on a list of at least 2 inputs")
  end.

(** [outputs[i].append(v)]. *)
Fixpoint append_at {A} (i : nat) (v : A) (outputs : list (list A))
  : list (list A) :=
  match outputs, i with
  | [], _ => []
  | row :: rest, 0 => (row ++ [v]) :: rest
  | row :: rest, S i' => row :: append_at i' v rest
  end.

(** The two outputs of the shared pairwise sub-network on [(x1, x2)]. *)
Definition pairwise_outputs (self : t) (x1 x2 : vec) : R * R :=
  let x1x2 := through (hidden_layers self) (concatenate x1 x2) in
  let x2x1 := through (hidden_layers self) (concatenate x2 x1) in
  let merged_left := concatenate x1x2 x2x1 in
  let merged_right := concatenate x2x1 x1x2 in
  let N_g := linear_unit (output_node self) merged_left in
  let N_l := linear_unit (output_node self) merged_right in
  (N_g, N_l).

(** The loop over [combinations(range(n_objects_fit_), 2)] of
    [construct_model], filling the rows of the pairwise matrix. *)
Definition first_order_rows (self : t) (x : list vec) : list (list R) :=
  fold_left
    (fun outputs ij =>
       let i := fst ij in
       let j := snd ij in
       let N := pairwise_outputs self (obj x i) (obj x j) in
       append_at j (snd N) (append_at i (fst N) outputs))
    (Itertools.combinations (n_objects_fit_ self))
    (repeat [] (n_objects_fit_ self)).

(** [output_node_zeroth] after the zeroth-order tower, on object [i]. *)
Definition zeroth_order_output (self : t) (xi : vec) : R :=
  linear_unit (output_node_zeroth self)
              (through (hidden_layers_zeroth self) xi).

(** [K.mean(s, axis=1, keepdims=True)] on a concatenated row; the rows
    here have passed [keras_concatenate] and are not empty. *)
Definition K_mean (row : list R) : R :=
  (sum row / INR (length row))%R.

(** [construct_model]: the scores the compiled training graph produces
    for one instance [x] of [n_objects_fit_] objects. *)
Definition construct_model (self : t) (x : list vec) : result (list R) :=
  let n := n_objects_fit_ self in
  bind (if add_zeroth_order_model self
        then keras_concatenate
               (map (fun i => zeroth_order_output self (obj x i)) (seq 0 n))
        else Ok [])
       (fun zeroth_order_scores =>
  bind (mapM keras_concatenate (first_order_rows self x)) (fun outputs =>
  bind (keras_concatenate (map K_mean outputs)) (fun scores =>
  if add_zeroth_order_model self then
    keras_concatenate
      (map (fun i =>
              sigmoid_unit (weighted_sum self)
                (concatenate [nth i scores 0%R]
                             [nth i zeroth_order_scores 0%R]))
           (seq 0 n))
  else Ok (map sigmoid scores)))).

(** [self.model_.predict(X)]: the training graph on a batch. *)
Definition model_predict (self : t) (X : batch) : result (list (list R)) :=
  mapM (construct_model self) X.

(** Modelled from the spec: [FETANetwork._predict_pair] with
    [only_pairwise=True] ([csrank/core/feta_network.py] is not among the
    sources): the pairwise sub-network rebuilt from the shared
    [hidden_layers] and [output_node], evaluated on a batch of pairs;
    the caller keeps its first column. *)
Definition _predict_pair (self : t) (a b : list vec) : list (R * R) :=
  map (fun ab => pairwise_outputs self (fst ab) (snd ab)) (combine a b).

(** [_create_zeroth_order_model]: the zeroth-order tower followed by
    [Activation("sigmoid")]. *)
Definition _create_zeroth_order_model (self : t) (inp : vec) : R :=
  let zeroth_output := zeroth_order_output self inp in
  sigmoid zeroth_output.

(** [_create_weighted_model(n_objects)] on the two score vectors. *)
Definition _create_weighted_model (self : t) (n_objects : nat)
    (s1 s2 : list R) : result (list R) :=
  keras_concatenate
    (map (fun i =>
            sigmoid_unit (weighted_sum self)
              (concatenate [nth i s1 0%R] [nth i s2 0%R]))
         (seq 0 n_objects)).

Definition pairs (x : list vec) : list (vec * vec) :=
  map (fun ij => (obj x (fst ij), obj x (snd ij)))
      (Itertools.permutations (length x)).

Definition score_matrix (self : t) (x : list vec) : list (list R) :=
  let n_objects := length x in
  let result := map fst (_predict_pair self (map fst (pairs x))
                                            (map snd (pairs x))) in
  reshape n_objects (n_objects - 1) result.

(** [scores[n] += result.reshape(...).mean(axis=1)] on the zero row. *)
Definition first_order_scores (self : t) (x : list vec) : result (list R) :=
  match length x with
  | 0 => Raise (ValueError "empty query set")
  | S _ =>
      match mean_axis1 (score_matrix self x) with
      | Some s => Ok (map (fun m => (0 + m)%R) s)
      | None => Raise (ValueError "mean of empty slice")
      end
  end.

(** Modelled from the spec: the [zero_order_model] property of
    [FETANetwork] ([csrank/core/feta_network.py] is not among the
    sources): the zeroth-order part of the training-time model, rebuilt
    from the trained shared weights, on one object: the zeroth-order
    tower up to its linear output node, as [construct_model] uses it.
    No method of this class calls [_create_zeroth_order_model]. *)
Definition zero_order_model (self : t) (inp : vec) : R :=
  let x := through (hidden_layers_zeroth self) inp in
  linear_unit (output_node_zeroth self) x.

(** [_predict_scores_using_pairs], instance by instance. *)
Definition scores_of_instance (self : t) (x : list vec) : result (list R) :=
  bind (first_order_scores self x) (fun scores =>
  if add_zeroth_order_model self then
    let scores_zero := map (zero_order_model self) x in
    _create_weighted_model self (length x) scores scores_zero
  else Ok (map sigmoid scores)).

Definition _predict_scores_using_pairs (self : t) (X : batch)
  : result (list (list R)) :=
  mapM (scores_of_instance self) X.

End FETADiscreteChoiceFunction.

(** ** [csrank/learner.py] *)

Module Learner.

(** [filter_dict_by_prefix(source, prefix)]; a dict is an association
    list in insertion order. *)
Definition filter_dict_by_prefix {V} (source : list (string * V))
    (prefix : string) : list (string * V) :=
  flat_map
    (fun kv =>
       if String.prefix prefix (fst kv)
       then [(substring (String.length prefix)
                        (String.length (fst kv) - String.length prefix)
                        (fst kv), snd kv)]
       else [])
    source.

(** The inner function of [_store_kwargs]. *)
Definition starts_with_legal_prefix (allowed_prefixes : list string)
    (key : string) : bool :=
  existsb (fun prefix => String.prefix prefix key) allowed_prefixes.

(** [d[key] = value] on an association list. *)
Fixpoint setitem {V} (d : list (string * V)) (key : string) (value : V)
  : list (string * V) :=
  match d with
  | [] => [(key, value)]
  | (k, v) :: d' =>
      if String.eqb k key then (k, value) :: d'
      else (k, v) :: setitem d' key value
  end.

(** [d.update(other)]. *)
Definition update {V} (d other : list (string * V)) : list (string * V) :=
  fold_left (fun acc kv => setitem acc (fst kv) (snd kv)) other d.

(** The loop of [_store_kwargs] that rejects a key. *)
Fixpoint check_kwargs {V} (allowed_prefixes : list string)
    (kwargs : list (string * V)) : result unit :=
  match kwargs with
  | [] => Ok tt
  | (key, _) :: rest =>
      if negb (starts_with_legal_prefix allowed_prefixes key)
      then Raise (UnexpectedKeyword key allowed_prefixes)
      else check_kwargs allowed_prefixes rest
  end.

(** [_store_kwargs(kwargs, allowed_prefixes)] on [vars(self)]: the
    [TypeError] names the key and the allowed prefixes. *)
Definition _store_kwargs {V} (vars : list (string * V))
    (kwargs : list (string * V)) (allowed_prefixes : list string)
  : result (list (string * V)) :=
  bind (check_kwargs allowed_prefixes kwargs)
       (fun _ => Ok (update vars kwargs)).

(** [_get_prefix_attributes(prefix)]. *)
Definition _get_prefix_attributes {V} (vars : list (string * V))
    (prefix : string) : list (string * V) :=
  filter_dict_by_prefix vars prefix.

(** The argument of [predict_scores]: one array, or a dict from query
    set size to array; and the scores it returns, of the same form. *)
Inductive input : Type :=
| Array (X : batch)
| Dict (X : list (nat * batch)).

Inductive scores : Type :=
| ScoresArray (s : list (list R))
| ScoresDict (s : list (nat * list (list R))).

(** [d[key] = value] for integer keys. *)
Fixpoint setitem_nat {V} (d : list (nat * V)) (key : nat) (value : V)
  : list (nat * V) :=
  match d with
  | [] => [(key, value)]
  | (k, v) :: d' =>
      if Nat.eqb k key then (k, value) :: d'
      else (k, v) :: setitem_nat d' key value
  end.

Section Methods.

(** The instance state, and the methods a subclass supplies. *)
Variable self : Type.
Variable prediction : Type.
Variable _predict_scores_fixed
  : batch -> self -> result (list (list R)) * self.
Variable predict_for_scores_impl : scores -> self -> result prediction.

(** The loop of the dict branch of [predict_scores]. *)
Fixpoint predict_scores_items (items : list (nat * batch))
    (acc : list (nat * list (list R))) (s : self)
  : result (list (nat * list (list R))) * self :=
  match items with
  | [] => (Ok acc, s)
  | (ranking_size, x) :: rest =>
      match _predict_scores_fixed x s with
      | (Ok sc, s') =>
          predict_scores_items rest (setitem_nat acc ranking_size sc) s'
      | (Raise e, s') => (Raise e, s')
      end
  end.

Definition predict_scores (X : input) (s : self) : result scores * self :=
  match X with
  | Dict d =>
      match predict_scores_items d [] s with
      | (Ok sc, s') => (Ok (ScoresDict sc), s')
      | (Raise e, s') => (Raise e, s')
      end
  | Array x =>
      match _predict_scores_fixed x s with
      | (Ok sc, s') => (Ok (ScoresArray sc), s')
      | (Raise e, s') => (Raise e, s')
      end
  end.

(** [Learner.predict]. *)
Definition predict (X : input) (s : self) : result prediction * self :=
  match predict_scores X s with
  | (Ok sc, s') => (predict_for_scores_impl sc s', s')
  | (Raise e, s') => (Raise e, s')
  end.

End Methods.

(** [Learner.predict_for_scores], unless a subclass overrides it. *)
Definition predict_for_scores {self prediction : Type}
    (sc : scores) (s : self) : result prediction :=
  Raise NotImplementedError.

End Learner.

(** ** [csrank/core/ranknet_core.py] *)

Module RankNetCore.

(** *** The two graphs, as functions of the layers' current weights *)

(** [construct_model]: the pairwise network on [(x1, x2)].  The first
    hidden layer encodes both objects, the second encoding is negated,
    the remaining hidden layers are applied to both, the results are
    added and fed to the sigmoid [output_node]. *)
Definition pairwise_output (hidden_layers : list layer)
    (output_node : Dense1) (x1 x2 : vec) : result R :=
  match hidden_layers with
  | [] => Raise IndexError
  | first :: later =>
      let enc_x1 := first x1 in
      let enc_x2 := first x2 in
      let neg_x2 := vneg enc_x2 in
      let enc_x1 := through later enc_x1 in
      let neg_x2 := through later neg_x2 in
      let merged_inputs := vadd enc_x1 neg_x2 in
      Ok (sigmoid_unit output_node merged_inputs)
  end.

(** [scoring_model]: all hidden layers, then [output_node]. *)
Definition utility (hidden_layers : list layer) (output_node : Dense1)
    (x : vec) : R :=
  sigmoid_unit output_node (through hidden_layers x).

(** *** The learner object *)

(** Keras layer objects live on a heap and are shared by reference: a
    [Model] keeps references to the layers it was built from, and
    training a model updates those layer objects in place. *)
Inductive object : Type :=
| HiddenLayer (f : layer)
| OutputNode (d : Dense1).

Definition ref := nat.

Record Model : Type := mkModel { model_hidden : list ref; model_output : ref }.

Record t : Type := mk {
  n_hidden : nat;
  kwargs : list (string * value);
  heap : list object;
  n_object_features_fit_ : option nat;
  hidden_layers : option (list ref);
  output_node : option ref;
  model_ : option Model;
  _scoring_model : option Model
}.

(** The part of [__init__] that treats [**kwargs]: every key outside
    [allowed_dense_kwargs] is deleted, the rest is kept. *)
Definition init_kwargs {V} (allowed_dense_kwargs : list string)
    (kwargs : list (string * V)) : list (string * V) :=
  filter (fun kv => existsb (String.eqb (fst kv)) allowed_dense_kwargs)
         kwargs.

Definition __init__ (allowed_dense_kwargs : list string) (n_hidden : nat)
    (kwargs : list (string * value)) : result t :=
  Ok {| n_hidden := n_hidden;
        kwargs := init_kwargs allowed_dense_kwargs kwargs;
        heap := [];
        n_object_features_fit_ := None;
        hidden_layers := None;
        output_node := None;
        model_ := None;
        _scoring_model := None |}.

Definition deref_hidden (h : list object) (r : ref) : layer :=
  match nth_error h r with
  | Some (HiddenLayer f) => f
  | _ => fun x => x
  end.

Definition deref_output (h : list object) (r : ref) : Dense1 :=
  match nth_error h r with
  | Some (OutputNode d) => d
  | _ => mkDense1 [] 0
  end.

(** [h[r] = o]. *)
Fixpoint store (h : list object) (r : ref) (o : object) : list object :=
  match h, r with
  | [], _ => []
  | _ :: h', 0 => o :: h'
  | x :: h', S r' => x :: store h' r' o
  end.

Fixpoint store_hidden (h : list object) (rs : list ref) (fs : list layer)
  : list object :=
  match rs, fs with
  | r :: rs', f :: fs' => store_hidden (store h r (HiddenLayer f)) rs' fs'
  | _, _ => h
  end.

Section Fit.

(** What the numerical library and the subclass contribute: the freshly
    initialised layers, the conversion of a batch to pairwise examples
    and the effect of [Model.fit] on the weights of the layers of the
    model (left in the layers also when it raises). *)
Variable labels : Type.
Variable pairwise_data : Type.
Variable initial_hidden : nat -> layer.
Variable initial_output : Dense1.
Variable _convert_instances_ : batch -> labels -> result pairwise_data.
Variable keras_fit
  : pairwise_data -> list layer -> Dense1 ->
    (list layer * Dense1) * result unit.

(** [_construct_layers]: a new [output_node] and [n_hidden] new hidden
    layers; [_scoring_model] is not touched. *)
Definition _construct_layers (self : t) : t :=
  let out := length (heap self) in
  let hidden := seq (S out) (n_hidden self) in
  {| n_hidden := n_hidden self;
     kwargs := kwargs self;
     heap := heap self ++ OutputNode initial_output
                       :: map (fun x => HiddenLayer (initial_hidden x))
                              (seq 0 (n_hidden self));
     n_object_features_fit_ := n_object_features_fit_ self;
     hidden_layers := Some hidden;
     output_node := Some out;
     model_ := model_ self;
     _scoring_model := _scoring_model self |}.

(** [construct_model]: [self.hidden_layers[0]] needs a first layer. *)
Definition construct_model (self : t) : result Model :=
  match hidden_layers self, output_node self with
  | Some [], _ => Raise IndexError
  | Some hidden, Some out => Ok (mkModel hidden out)
  | None, _ => Raise (AttributeError "hidden_layers")
  | _, None => Raise (AttributeError "output_node")
  end.

Definition set_features (self : t) (n_features : nat) : t :=
  {| n_hidden := n_hidden self;
     kwargs := kwargs self;
     heap := heap self;
     n_object_features_fit_ := Some n_features;
     hidden_layers := hidden_layers self;
     output_node := output_node self;
     model_ := model_ self;
     _scoring_model := _scoring_model self |}.

Definition set_model (self : t) (m : Model) (h : list object) : t :=
  {| n_hidden := n_hidden self;
     kwargs := kwargs self;
     heap := h;
     n_object_features_fit_ := n_object_features_fit_ self;
     hidden_layers := hidden_layers self;
     output_node := output_node self;
     model_ := Some m;
     _scoring_model := _scoring_model self |}.

(** [X.shape[2]]. *)
Definition n_features_of (X : batch) : nat :=
  match X with
  | (x :: _) :: _ => length x
  | _ => 0
  end.

(** [RankNetCore.fit]. *)
Definition fit (X : batch) (Y : labels) (self : t) : result unit * t :=
  let self := set_features self (n_features_of X) in
  match _convert_instances_ X Y with
  | Raise e => (Raise e, self)
  | Ok data =>
      let self := _construct_layers self in
      match construct_model self with
      | Raise e => (Raise e, self)
      | Ok m =>
          let hidden := map (deref_hidden (heap self)) (model_hidden m) in
          let out := deref_output (heap self) (model_output m) in
          let '((hidden', out'), r) := keras_fit data hidden out in
          let h := store (store_hidden (heap self) (model_hidden m) hidden')
                         (model_output m) (OutputNode out') in
          (r, set_model self m h)
      end
  end.

End Fit.

(** [RankNetCore._convert_instances_], which the variants override. *)
Definition _convert_instances_ {labels pairwise_data : Type}
    (X : batch) (Y : labels) : result pairwise_data :=
  Raise NotImplementedError.

Definition set_scoring_model (self : t) (m : Model) : t :=
  {| n_hidden := n_hidden self;
     kwargs := kwargs self;
     heap := heap self;
     n_object_features_fit_ := n_object_features_fit_ self;
     hidden_layers := hidden_layers self;
     output_node := output_node self;
     model_ := model_ self;
     _scoring_model := Some m |}.

(** The [scoring_model] property: built from the current layers on first
    use, then returned from [_scoring_model]. *)
Definition scoring_model (self : t) : result Model * t :=
  match _scoring_model self with
  | Some m => (Ok m, self)
  | None =>
      match n_object_features_fit_ self, hidden_layers self,
            output_node self with
      | None, _, _ => (Raise (AttributeError "n_object_features_fit_"), self)
      | _, None, _ => (Raise (AttributeError "hidden_layers"), self)
      | _, _, None => (Raise (AttributeError "output_node"), self)
      | Some _, Some hidden, Some out =>
          let m := mkModel hidden out in
          (Ok m, set_scoring_model self m)
      end
  end.

(** [Model.predict] of a scoring model on one object. *)
Definition model_score (h : list object) (m : Model) (x : vec) : R :=
  utility (map (deref_hidden h) (model_hidden m))
          (deref_output h (model_output m)) x.

(** [_predict_scores_fixed]: the batch is flattened to objects, scored
    and reshaped back. *)
Definition _predict_scores_fixed (X : batch) (self : t)
  : result (list (list R)) * t :=
  match scoring_model self with
  | (Ok m, self') => (Ok (map (map (model_score (heap self') m)) X), self')
  | (Raise e, self') => (Raise e, self')
  end.

(** The fitted pairwise model [model_] on one pair. *)
Definition model_pairwise (h : list object) (m : Model) (x1 x2 : vec)
  : result R :=
  pairwise_output (map (deref_hidden h) (model_hidden m))
                  (deref_output h (model_output m)) x1 x2.

End RankNetCore.

(** ** The libraries the threshold tuner calls *)

Module Sklearn.

Definition count_true (l : list bool) : nat := length (filter (fun b : bool => b) l).

(** F1 of one sample: [2 tp / (|true| + |pred|)], and 0 when both
    label sets are empty. *)
Definition f1_sample (y_true y_pred : list bool) : Q :=
  let tp := count_true (map (fun yp => andb (fst yp) (snd yp))
                            (combine y_true y_pred)) in
  let denom := (count_true y_true + count_true y_pred)%nat in
  match denom with
  | O => 0%Q
  | S _ => (inject_Z (Z.of_nat (2 * tp)) / inject_Z (Z.of_nat denom))%Q
  end.

(** [f1_score(Y_true, Y_pred, average='samples')]. *)
Definition f1_score (Y_true Y_pred : list (list bool)) : Q :=
  (fold_right Qplus 0%Q
     (map (fun yp => f1_sample (fst yp) (snd yp)) (combine Y_true Y_pred))
   / inject_Z (Z.of_nat (length Y_true)))%Q.

End Sklearn.

(** ** [csrank/feta_choice.py]: the threshold tuner and the fit wrapper *)

Module ThresholdTuner.

(** The strict comparison [a > b] of two F1 values. *)
Definition Qgtb (a b : Q) : bool := negb (Qle_bool a b).

Section Tune.

(** Scores are compared, never computed with: any type with a
    decidable order [ltb] and a zero. *)
Variable score : Type.
Variable ltb : score -> score -> bool.
Variable zero : score.
Variable labels : Type.
Variable f1_score : labels -> list (list bool) -> Q.

(** [scores > p], element-wise. *)
Definition greater (scores : list (list score)) (p : score)
  : list (list bool) :=
  map (map (fun s => ltb p s)) scores.

(** [np.unique]: the sorted distinct entries of the flattened array. *)
Fixpoint insert_unique (x : score) (l : list score) : list score :=
  match l with
  | [] => [x]
  | y :: l' =>
      if ltb x y then x :: y :: l'
      else if ltb y x then y :: insert_unique x l'
      else y :: l'
  end.

Definition unique (scores : list (list score)) : list score :=
  fold_right insert_unique [] (concat scores).

(** [a[::step]] for a positive step: positions 0, step, 2 step, ... *)
Fixpoint every (step skip : nat) (a : list score) : list score :=
  match a with
  | [] => []
  | x :: a' =>
      match skip with
      | 0 => x :: every step (step - 1) a'
      | S skip' => every step skip' a'
      end
  end.

Definition slice_step (a : list score) (step : nat) : result (list score) :=
  match step with
  | 0 => Raise (ValueError "slice step cannot be zero")
  | S _ => Ok (every step 0 a)
  end.

(** One round of the loop: [best] is replaced on strict improvement. *)
Definition tune_step (Y_val : labels) (scores : list (list score))
    (acc : score * Q) (p : score) : score * Q :=
  let '(threshold, best) := acc in
  let pred := greater scores p in
  let f1 := f1_score Y_val pred in
  if Qgtb f1 best then (p, f1) else (threshold, best).

(** [_tune_threshold] once the scores of [X_val] are known: the
    threshold and the F1 it achieves. *)
Definition tune (scores : list (list score)) (Y_val : labels)
    (thin_thresholds : nat) : result (score * Q) :=
  bind (slice_step (unique scores) thin_thresholds) (fun probs =>
  let threshold := zero in
  let best := f1_score Y_val (greater scores threshold) in
  Ok (fold_left (tune_step Y_val scores) probs (threshold, best))).

End Tune.

End ThresholdTuner.

Module ChoiceFunction.

(** [a < b] on real scores. *)
Definition Rltb (a b : R) : bool := if Rlt_dec a b then true else false.

(** The calls [fit] makes to its collaborators, in order. *)
Inductive event : Type :=
| TrainTestSplit
| SuperFit
| TuneThreshold.

(** A choice-function learner: the wrapped core learner, the threshold
    attribute (absent until set) and the calls made so far. *)
Record t (net : Type) : Type := mk {
  core : net;
  threshold : option R;
  calls : list event
}.

Arguments mk {net} _ _ _.
Arguments core {net} _.
Arguments threshold {net} _.
Arguments calls {net} _.

Definition set_core {net} (s : t net) (c : net) : t net :=
  mk c (threshold s) (calls s).

Definition set_threshold {net} (s : t net) (p : R) : t net :=
  mk (core s) (Some p) (calls s).

Definition record {net} (s : t net) (e : event) : t net :=
  mk (core s) (threshold s) (calls s ++ [e]).

(** A prediction: boolean choices for one array, or per size. *)
Inductive choices : Type :=
| ChoicesArray (c : list (list bool))
| ChoicesDict (c : list (nat * list (list bool))).

Section Methods.

Variable net : Type.
Variable labels : Type.

(** Supplied by the core learner and the libraries. *)
Variable _predict_scores_fixed
  : batch -> net -> result (list (list R)) * net.
Variable super_fit : batch -> labels -> net -> result unit * net.
Variable train_test_split
  : batch -> labels -> Q -> result (batch * batch * labels * labels).
Variable f1_score : labels -> list (list bool) -> Q.

Definition lifted_predict_scores_fixed (X : batch) (s : t net)
  : result (list (list R)) * t net :=
  let '(r, c) := _predict_scores_fixed X (core s) in (r, set_core s c).

(** [predict_scores]: the inherited [Learner.predict_scores]. *)
Definition predict_scores (X : Learner.input) (s : t net)
  : result Learner.scores * t net :=
  Learner.predict_scores lifted_predict_scores_fixed X s.

(** [FETAChoiceFunction._tune_threshold]. *)
Definition _tune_threshold (X_val : batch) (Y_val : labels)
    (thin_thresholds : nat) (s : t net) : result R * t net :=
  match predict_scores (Learner.Array X_val) s with
  | (Ok (Learner.ScoresArray scores), s') =>
      (bind (ThresholdTuner.tune Rltb 0%R f1_score scores Y_val
                                 thin_thresholds)
            (fun tb => Ok (fst tb)), s')
  | (Ok (Learner.ScoresDict _), s') =>
      (Raise (TypeError "scores of an array are an array"), s')
  | (Raise e, s') => (Raise e, s')
  end.

(** [FETAChoiceFunction.fit] and [RankNetChoiceFunction.fit], which
    share their body: with [tune_size > 0] the core is fitted on the
    training split inside [try], and the threshold is tuned on the
    tuning split in [finally]; otherwise the core is fitted on all the
    data and the threshold is set to 0.5. *)
Definition fit (X : batch) (Y : labels) (tune_size : Q)
    (thin_thresholds : nat) (s : t net) : result unit * t net :=
  if ThresholdTuner.Qgtb tune_size 0 then
    match train_test_split X Y tune_size with
    | Raise e => (Raise e, record s TrainTestSplit)
    | Ok (X_train, X_val, Y_train, Y_val) =>
        let s := record s TrainTestSplit in
        (* try *)
        let '(r, c) := super_fit X_train Y_train (core s) in
        let s := record (set_core s c) SuperFit in
        (* finally *)
        match _tune_threshold X_val Y_val thin_thresholds
                              (record s TuneThreshold) with
        | (Ok p, s') => (r, set_threshold s' p)
        | (Raise e, s') => (Raise e, s')
        end
    end
  else
    let '(r, c) := super_fit X Y (core s) in
    let s := record (set_core s c) SuperFit in
    match r with
    | Ok _ => (Ok tt, set_threshold s (1 / 2)%R)
    | Raise e => (Raise e, s)
    end.

(** [FETAChoiceFunction.predict]: the scores are compared with the
    threshold directly; a dict of scores cannot be compared. *)
Definition predict (X : Learner.input) (s : t net)
  : result choices * t net :=
  match predict_scores X s with
  | (Ok (Learner.ScoresArray scores), s') =>
      match threshold s' with
      | Some p => (Ok (ChoicesArray (map (map (fun v => Rltb p v)) scores)), s')
      | None => (Raise (AttributeError "threshold"), s')
      end
  | (Ok (Learner.ScoresDict _), s') =>
      (Raise (TypeError "'>' not supported between instances of 'dict' and 'float'"), s')
  | (Raise e, s') => (Raise e, s')
  end.

(** Modelled from the spec: [ChoiceFunctions.predict_for_scores]
    ([csrank/choicefunction/choice_functions.py] is not among the
    sources), the choice-function decision layer: the boolean vector
    [score > threshold] per object, for an array and for each size of a
    dict; 0.5 is used when no threshold is set. *)
Definition predict_for_scores (sc : Learner.scores) (s : t net)
  : result choices :=
  let p := match threshold s with Some p => p | None => (1 / 2)%R end in
  match sc with
  | Learner.ScoresArray scores =>
      Ok (ChoicesArray (map (map (fun v => Rltb p v)) scores))
  | Learner.ScoresDict d =>
      Ok (ChoicesDict
            (map (fun kv => (fst kv, map (map (fun v => Rltb p v)) (snd kv)))
                 d))
  end.

End Methods.

End ChoiceFunction.

(** ** The concrete variants *)

Module RankNetChoiceFunction.

Section Variant.

Variable labels : Type.
Variable pairwise_data : Type.
Variable initial_hidden : nat -> layer.
Variable initial_output : Dense1.
Variable _convert_instances_ : batch -> labels -> result pairwise_data.
Variable keras_fit
  : pairwise_data -> list layer -> Dense1 ->
    (list layer * Dense1) * result unit.
Variable train_test_split
  : batch -> labels -> Q -> result (batch * batch * labels * labels).
Variable f1_score : labels -> list (list bool) -> Q.

(** [__init__]: [threshold_] does not exist before [fit]. *)
Definition __init__ (allowed_dense_kwargs : list string) (n_hidden : nat)
    (kwargs : list (string * value))
  : result (ChoiceFunction.t RankNetCore.t) :=
  bind (RankNetCore.__init__ allowed_dense_kwargs n_hidden kwargs)
       (fun c => Ok (ChoiceFunction.mk c None [])).

(** Modelled from the spec: [ChoiceFunctions._tune_threshold]
    ([csrank/choicefunction/choice_functions.py] is not among the
    sources), the ThresholdTuner of the description: the scores of
    [X_val] are computed, then the candidates are scanned; it is the
    algorithm of [FETAChoiceFunction._tune_threshold]. *)
Definition _tune_threshold :=
  ChoiceFunction._tune_threshold RankNetCore._predict_scores_fixed f1_score.

(** [fit]: [super().fit] is [RankNetCore.fit], and the tuner called in
    [finally] is [_tune_threshold]. *)
Definition fit :=
  ChoiceFunction.fit RankNetCore._predict_scores_fixed
    (RankNetCore.fit initial_hidden initial_output _convert_instances_
                     keras_fit)
    train_test_split f1_score.

(** [predict] is [Learner.predict], with the choice decision layer. *)
Definition predict :=
  Learner.predict
    (ChoiceFunction.lifted_predict_scores_fixed
       RankNetCore._predict_scores_fixed)
    (@ChoiceFunction.predict_for_scores RankNetCore.t).

End Variant.

End RankNetChoiceFunction.

Module FETAChoiceFunction.

Section Variant.

(** The wrapped [FETANetwork] ([csrank/core/feta_network.py] is not
    among the sources) contributes its state, [fit] and
    [_predict_scores_fixed]. *)
Variable net : Type.
Variable labels : Type.
Variable _predict_scores_fixed
  : batch -> net -> result (list (list R)) * net.
Variable super_fit : batch -> labels -> net -> result unit * net.
Variable train_test_split
  : batch -> labels -> Q -> result (batch * batch * labels * labels).
Variable f1_score : labels -> list (list bool) -> Q.

(** [__init__] ends with [self.threshold = 0.5]. *)
Definition __init__ (c : net) : ChoiceFunction.t net :=
  ChoiceFunction.mk c (Some (1 / 2)%R) [].

Definition fit :=
  ChoiceFunction.fit _predict_scores_fixed super_fit train_test_split
                     f1_score.

Definition predict := ChoiceFunction.predict _predict_scores_fixed.

Definition predict_scores := ChoiceFunction.predict_scores _predict_scores_fixed.

End Variant.

End FETAChoiceFunction.

(** ** [csrank/discretechoice/feta_discrete_choice.py]: keyword arguments *)

Module FETADiscreteChoiceLayers.

(** The prefixes [__init__] passes to [_store_kwargs]. *)
Definition allowed_prefixes : list string :=
  ["optimizer__"; "kernel_regularizer__"; "hidden_dense_layer__"].

(** The part of [__init__] that treats [**kwargs]. *)
Definition __init__ {V} (vars kwargs : list (string * V))
  : result (list (string * V)) :=
  Learner._store_kwargs vars kwargs allowed_prefixes.

(** [hidden_dense_kwargs] of [_construct_layers]: the three defaults,
    updated with the attributes stored under [hidden_dense_layer__]. *)
Definition hidden_dense_kwargs {V} (vars : list (string * V))
    (kernel_regularizer_ kernel_initializer activation : V)
  : list (string * V) :=
  Learner.update
    [("kernel_regularizer", kernel_regularizer_);
     ("kernel_initializer", kernel_initializer);
     ("activation", activation)]
    (Learner._get_prefix_attributes vars "hidden_dense_layer__").

End FETADiscreteChoiceLayers.

(** ** [experiments/dbconnection.py] *)

Module DBConnector.

(** The database, as far as the connector reads and writes it: the
    rows of [avail_jobs] (alias [row] in the statements) and of
    [running_jobs] (alias [r]).  Times are seconds; [row_duration] is
    [get_duration_seconds(job['duration'])]; [row_columns] holds the
    remaining columns of an [avail_jobs] row, each with the [str] of its
    value, in the order of the cursor; a column without a value is
    [None].  The statements are executed by one connector at a time on
    a reachable database. *)
Record avail_row : Type := mkAvail {
  row_job_id : nat;
  row_is_gpu : bool;
  row_job_allocated_time : Z;
  row_duration : Z;
  row_hash_value : option string;
  row_columns : list (string * string)
}.

Record running_row : Type := mkRunning {
  r_job_id : nat;
  r_cluster_id : nat;
  r_finished : bool;
  r_interrupted : bool;
  r_error_history : option string
}.

Record database : Type := mkDatabase {
  avail_jobs : list avail_row;
  running_jobs : list running_row
}.

(** The connector object. *)
Record t : Type := mk {
  is_gpu : bool;
  job_description : option (list (string * string))
}.

(** How a call ends: it returns, or raises an exception of [exn], or
    raises [UnboundLocalError] for a local variable. *)
Inductive outcome : Type :=
| Done
| Raised (e : exn)
| RaisedUnboundLocalError (name : string).

Definition newline : string := String (Ascii.ascii_of_nat 10) EmptyString.

(** [str] of a non-negative integer. *)
Definition str (n : nat) : string := NilEmpty.string_of_uint (Nat.to_uint n).

Definition keys : list string :=
  ["learner"; "dataset_params"; "fit_params"; "learner_params"; "hp_ranges";
   "hp_fit_params"; "inner_folds"; "validation_loss"; "fold_id"].

(** The loop of [create_hash_value]. *)
Definition hash_string (job_description : list (string * string)) : string :=
  fold_left
    (fun hash_string kv =>
       if existsb (String.eqb (fst kv)) keys
       then (hash_string ++ fst kv ++ ":" ++ snd kv)%string
       else hash_string)
    job_description "".

Section Connector.

(** [hashlib.sha1(s.encode()).hexdigest()], and the value the schema
    gives [error_history] in a row inserted without it. *)
Variable sha1 : string -> string.
Variable default_error_history : option string.

Definition create_hash_value (self : t) : result string :=
  match job_description self with
  | None => Raise (AttributeError "items")
  | Some d => Ok (sha1 (hash_string d))
  end.

(** [UPDATE running_jobs SET error_history = .., interrupted = True
    WHERE job_id = ..]. *)
Definition set_error (job_id : nat) (error_message : string) (r : running_row)
  : running_row :=
  if Nat.eqb (r_job_id r) job_id
  then mkRunning (r_job_id r) (r_cluster_id r) (r_finished r) true
                 (Some error_message)
  else r.

Definition append_error_string_in_running_job (job_id : nat)
    (error_message : string) (d : database) : result unit * database :=
  match find (fun r => Nat.eqb (r_job_id r) job_id) (running_jobs d) with
  | None => (Raise (TypeError "'NoneType' object is not subscriptable"), d)
  | Some cur_message =>
      let error_message :=
        ("cluster" ++ str (r_cluster_id cur_message) ++ error_message)%string
      in
      match r_error_history cur_message with
      | None => (Raise (TypeError "can only concatenate str (not NoneType) to str"), d)
      | Some history =>
          let error_message :=
            if negb (String.eqb history "NA")
            then (error_message ++ ";" ++ newline ++ history)%string
            else error_message in
          (Ok tt,
           mkDatabase (avail_jobs d)
                      (map (set_error job_id error_message) (running_jobs d)))
      end
  end.

(** [UPDATE running_jobs set finished = TRUE, interrupted = FALSE where
    job_id = ..]. *)
Definition set_finished (job_id : nat) (r : running_row) : running_row :=
  if Nat.eqb (r_job_id r) job_id
  then mkRunning (r_job_id r) (r_cluster_id r) true false (r_error_history r)
  else r.

Definition mark_running_job_finished (job_id : nat) (d : database)
  : database :=
  mkDatabase (avail_jobs d) (map (set_finished job_id) (running_jobs d)).

(** The rows [add_jobs_in_avail_which_failed] selects: those with a
    running row that is neither interrupted nor finished. *)
Definition all_jobs (d : database) : list avail_row :=
  filter
    (fun row =>
       existsb (fun r => negb (r_interrupted r) && negb (r_finished r)
                         && Nat.eqb (r_job_id r) (row_job_id row))
               (running_jobs d))
    (avail_jobs d).

(** Its loop; [now i] is the clock read in round [i]. *)
Fixpoint mark_expired (now : nat -> Z) (i : nat) (jobs : list avail_row)
    (d : database) : result unit * database :=
  match jobs with
  | [] => (Ok tt, d)
  | job :: rest =>
      let date_time := row_job_allocated_time job in
      let duration := row_duration job in
      let new_date := (date_time + duration)%Z in
      if (new_date <? now i)%Z then
        match append_error_string_in_running_job
                (row_job_id job) "exceptionInterruptedDueToSomeError" d with
        | (Ok _, d') => mark_expired now (S i) rest d'
        | (Raise e, d') => (Raise e, d')
        end
      else mark_expired now (S i) rest d
  end.

Definition add_jobs_in_avail_which_failed (now : nat -> Z) (d : database)
  : result unit * database :=
  mark_expired now 0 (all_jobs d) d.

(** The [job_ids] of [fetch_job_arguments]: the jobs of the connector's
    kind without a running row that is not interrupted. *)
Definition job_ids (is_gpu : bool) (d : database) : list nat :=
  map row_job_id
    (filter
       (fun row =>
          Bool.eqb (row_is_gpu row) is_gpu
          && negb (existsb (fun r => negb (r_interrupted r)
                                     && Nat.eqb (r_job_id r) (row_job_id row))
                           (running_jobs d)))
       (avail_jobs d)).




End Connector.

End DBConnector.

(** ** [csrank/cmpnet_core.py]: the learner object *)

Module CmpNetCoreLearner.

(** The Keras layer objects, shared by reference between the learner
    and the models built from them; a hidden layer has the number of
    units it was created with. *)
Inductive object : Type :=
| HiddenLayer (units : nat) (f : layer)
| OutputNode (d : Dense1).

Definition ref := nat.

Record Model : Type := mkModel { model_hidden : list ref; model_output : ref }.

(** What [save_weights] writes: the weights of the layers of a model,
    in the order of the layers. *)
Record weights : Type := mkWeights {
  saved_hidden : list (nat * layer);
  saved_output : Dense1
}.

Record t : Type := mk {
  n_hidden : nat;
  n_units : nat;
  heap : list object;
  hidden_layers : list ref;
  output_node : ref;
  model : option Model;
  hash_file : option weights
}.

Definition deref_hidden (h : list object) (r : ref) : nat * layer :=
  match nth_error h r with
  | Some (HiddenLayer units f) => (units, f)
  | _ => (0, fun x => x)
  end.

Definition deref_output (h : list object) (r : ref) : Dense1 :=
  match nth_error h r with
  | Some (OutputNode d) => d
  | _ => mkDense1 [] 0
  end.

(** [h[r] = o]. *)
Fixpoint store (h : list object) (r : ref) (o : object) : list object :=
  match h, r with
  | [], _ => []
  | _ :: h', 0 => o :: h'
  | x :: h', S r' => x :: store h' r' o
  end.

(** Training replaces the weights of a layer and keeps its shape. *)
Fixpoint store_trained (h : list object) (rs : list ref) (fs : list layer)
  : list object :=
  match rs, fs with
  | r :: rs', f :: fs' =>
      store_trained (store h r (HiddenLayer (fst (deref_hidden h r)) f))
                    rs' fs'
  | _, _ => h
  end.

Fixpoint store_loaded (h : list object) (rs : list ref)
    (ws : list (nat * layer)) : list object :=
  match rs, ws with
  | r :: rs', (units, f) :: ws' =>
      store_loaded (store h r (HiddenLayer units f)) rs' ws'
  | _, _ => h
  end.

(** The network a model computes with the current weights of its
    layers. *)
Definition network (h : list object) (m : Model) : CmpNetCore.t :=
  CmpNetCore.mk (map (fun r => snd (deref_hidden h r)) (model_hidden m))
                (deref_output h (model_output m)).

(** [Model.load_weights]: Keras refuses a file whose number of layers
    or whose weight shapes differ from those of the model. *)
Definition load_weights (h : list object) (m : Model) (file : weights)
  : result (list object) :=
  if negb (Nat.eqb (length (saved_hidden file)) (length (model_hidden m)))
  then Raise (ValueError "You are trying to load a weight file with a different number of layers")
  else if negb (forallb (fun rw => Nat.eqb (fst (deref_hidden h (fst rw)))
                                           (fst (snd rw)))
                        (combine (model_hidden m) (saved_hidden file)))
  then Raise (ValueError "Layer weight shape not compatible with provided weight shape")
  else Ok (store (store_loaded h (model_hidden m) (saved_hidden file))
                 (model_output m) (OutputNode (saved_output file))).

Section Learner.

(** What the numerical library and the subclass contribute: the freshly
    initialised layers for a number of units, the conversion of a batch
    to pairwise examples and the effect of [Model.fit] on the weights
    of the layers of the model. *)
Variable labels : Type.
Variable pairwise_data : Type.
Variable initial_hidden : nat -> nat -> layer.
Variable initial_output : nat -> nat -> Dense1.
Variable convert_instances : batch -> labels -> result pairwise_data.
Variable keras_fit
  : pairwise_data -> list layer -> Dense1 ->
    (list layer * Dense1) * result unit.

(** [_construct_layers]: a new [output_node] and [n_hidden] new hidden
    layers of [n_units] units; [model] is not touched. *)
Definition _construct_layers (self : t) : t :=
  let out := length (heap self) in
  {| n_hidden := n_hidden self;
     n_units := n_units self;
     heap := heap self
             ++ OutputNode (initial_output (n_hidden self) (n_units self))
             :: map (fun x => HiddenLayer (n_units self)
                                          (initial_hidden (n_units self) x))
                    (seq 0 (n_hidden self));
     hidden_layers := seq (S out) (n_hidden self);
     output_node := out;
     model := model self;
     hash_file := hash_file self |}.

(** [__init__] on keywords its layer constructors accept (the keywords
    are the subject of [CmpNetCore.__init__]): it ends with
    [self.model = None] and [_construct_layers]. *)
Definition __init__ (n_hidden n_units : nat) : t :=
  _construct_layers (mk n_hidden n_units [] [] 0 None None).

Definition construct_model (self : t) : Model :=
  mkModel (hidden_layers self) (output_node self).

Definition set_model (self : t) (m : Model) (h : list object) : t :=
  {| n_hidden := n_hidden self;
     n_units := n_units self;
     heap := h;
     hidden_layers := hidden_layers self;
     output_node := output_node self;
     model := Some m;
     hash_file := hash_file self |}.

(** [fit]: the model is built from the layers the learner holds, which
    no [fit] creates anew, and training updates them in place. *)
Definition fit (X : batch) (Y : labels) (self : t) : result unit * t :=
  match convert_instances X Y with
  | Raise e => (Raise e, self)
  | Ok data =>
      let m := construct_model self in
      let net := network (heap self) m in
      let '((hidden', out'), r) :=
        keras_fit data (CmpNetCore.hidden_layers net)
                  (CmpNetCore.output_node net) in
      let h := store (store_trained (heap self) (model_hidden m) hidden')
                     (model_output m) (OutputNode out') in
      (r, set_model self m h)
  end.

(** [_predict_scores_fixed]: [predict_pair] is called once for every
    instance, on [self.model]. *)
Definition _predict_scores_fixed (X : batch) (self : t)
  : result (list (list R)) :=
  match X with
  | [] => Ok []
  | _ :: _ =>
      match model self with
      | None => Raise (AttributeError "predict")
      | Some m => CmpNetCore._predict_scores_fixed (network (heap self) m) X
      end
  end.

(** [clear_memory]: the weights of the model are saved, new layers and
    a new model are constructed with the current [n_hidden] and
    [n_units], and the saved weights are loaded into the new model. *)
Definition clear_memory (self : t) : result unit * t :=
  match model self with
  | None => (Raise (AttributeError "save_weights"), self)
  | Some m =>
      let file :=
        mkWeights (map (deref_hidden (heap self)) (model_hidden m))
                  (deref_output (heap self) (model_output m)) in
      let self :=
        {| n_hidden := n_hidden self;
           n_units := n_units self;
           heap := heap self;
           hidden_layers := hidden_layers self;
           output_node := output_node self;
           model := model self;
           hash_file := Some file |} in
      let self := _construct_layers self in
      let m' := construct_model self in
      match load_weights (heap self) m' file with
      | Ok h => (Ok tt, set_model self m' h)
      | Raise e => (Raise e, set_model self m' (heap self))
      end
  end.

(** [set_tunable_parameters]: the new [n_hidden] and [n_units] are
    stored and new layers are constructed; [model] is not touched. *)
Definition set_tunable_parameters (n_hidden n_units : nat) (self : t) : t :=
  _construct_layers
    {| n_hidden := n_hidden;
       n_units := n_units;
       heap := heap self;
       hidden_layers := hidden_layers self;
       output_node := output_node self;
       model := model self;
       hash_file := hash_file self |}.

End Learner.

(** [CmpNetCore.convert_instances], which the variants override:
    [raise NotImplemented] raises a [TypeError], as [NotImplemented] is
    no exception. *)
Definition convert_instances {labels pairwise_data : Type}
    (X : batch) (Y : labels) : result pairwise_data :=
  Raise (TypeError "exceptions must derive from BaseException").

End CmpNetCoreLearner.

(* ================================================================== *)
(** * Part II: the vocabulary of the statements, and instances         *)
(* ================================================================== *)

(** ** Score matrices *)

(** The competitors of object [i] among [n] objects, in index order. *)
Definition competitors (n i : nat) : list nat :=
  filter (fun j => negb (Nat.eqb i j)) (seq 0 n).

(** The first-order score of [x_i] against [x_j] in the two cores. *)
Definition cmpnet_pair_score (self : CmpNetCore.t) (x : list vec) (i j : nat)
  : R :=
  fst (CmpNetCore.construct_model self (obj x i) (obj x j)).

Definition feta_pair_score (self : FETADiscreteChoiceFunction.t)
    (x : list vec) (i j : nat) : R :=
  fst (FETADiscreteChoiceFunction.pairwise_outputs self (obj x i) (obj x j)).

(** The arithmetic mean of a row of scores. *)
Definition arithmetic_mean (row : list R) : R :=
  (sum row / INR (length row))%R.

Definition unit_interval (s : R) : Prop := (0 <= s <= 1)%R.

Definition scores_in_unit_interval (scores : list (list R)) : Prop :=
  Forall (Forall unit_interval) scores.

(** ** RankNet *)

(** The pre-activation of the output unit on the encoding of [x],
    without the bias. *)
Definition logit (first : layer) (later : list layer) (out : Dense1)
    (x : vec) : R :=
  dot (kernel out) (through later (first x)).

(** Two heaps agree on the references below [n]. *)
Definition agree_below (n : nat) (h h' : list RankNetCore.object) : Prop :=
  forall r, r < n -> nth_error h' r = nth_error h r.

(** The references a learner holds point into its heap. *)
Definition valid_model (h : list RankNetCore.object) (m : RankNetCore.Model)
  : Prop :=
  (forall r, In r (RankNetCore.model_hidden m) -> r < length h)
  /\ RankNetCore.model_output m < length h.

Definition well_formed (self : RankNetCore.t) : Prop :=
  (forall hs, RankNetCore.hidden_layers self = Some hs ->
              forall r, In r hs -> r < length (RankNetCore.heap self))
  /\ (forall o, RankNetCore.output_node self = Some o ->
                o < length (RankNetCore.heap self))
  /\ (forall m, RankNetCore._scoring_model self = Some m ->
                valid_model (RankNetCore.heap self) m).

(** ** FETA: the rows of the training graph *)

(** The loop of [construct_model] on row functions: the row of [i]
    receives [N_g], the row of [j] receives [N_l]. *)
Definition row_step {A} (N : nat -> nat -> A * A) (f : nat -> list A)
    (ij : nat * nat) : nat -> list A :=
  fun r =>
    let g := fun r' => if Nat.eqb r' (fst ij)
                       then f r' ++ [fst (N (fst ij) (snd ij))] else f r' in
    if Nat.eqb r (snd ij) then g r ++ [snd (N (fst ij) (snd ij))] else g r.

(** What a pair contributes to row [r], if it involves [r]. *)
Definition involves (r : nat) (ij : nat * nat) : bool :=
  Nat.eqb (fst ij) r || Nat.eqb (snd ij) r.

Definition entry {A} (N : nat -> nat -> A * A) (r : nat) (ij : nat * nat)
  : A :=
  if Nat.eqb (fst ij) r then fst (N (fst ij) (snd ij))
  else snd (N (fst ij) (snd ij)).

(** The first-order score of object [i]: the mean of its row. *)
Definition first_order_score (self : FETADiscreteChoiceFunction.t)
    (x : list vec) (i : nat) : R :=
  arithmetic_mean (map (feta_pair_score self x i)
                       (competitors (length x) i)).

(** ** The threshold tuner *)

Section TunerVocabulary.

Variable score : Type.
Variable ltb : score -> score -> bool.
Variable labels : Type.
Variable f1_score : labels -> list (list bool) -> Q.

(** The order [ltb] decides. *)
Definition lt (a b : score) : Prop := ltb a b = true.

(** The F1 a candidate threshold achieves on the validation data. *)
Definition F1_at (Y_val : labels) (scores : list (list score)) (p : score)
  : Q :=
  f1_score Y_val (ThresholdTuner.greater ltb scores p).

(** The running best of the loop: a candidate seen so far, with its F1,
    that no earlier candidate equals or beats and no later one beats. *)
Definition first_maximum (Y_val : labels) (scores : list (list score))
    (candidates : list score) (t : score) : Prop :=
  exists earlier later,
    candidates = earlier ++ t :: later
    /\ (forall c, In c earlier ->
                  (F1_at Y_val scores c < F1_at Y_val scores t)%Q)
    /\ (forall c, In c later ->
                  (F1_at Y_val scores c <= F1_at Y_val scores t)%Q).

End TunerVocabulary.

(** The prediction [scores > candidate] on real scores, element by
    element. *)
Definition scores_above (candidate : R) (scores : list (list R))
  : list (list bool) :=
  map (map (fun s => if Rgt_dec s candidate then true else false)) scores.

(** ** [fit] of the choice functions *)

(** What [fit] with [tune_size = 0] does, for a choice-function [fit]
    wrapped around the core's [super_fit]: the core is fitted on all
    the data; when that returns, the threshold is exactly 0.5; the only
    call recorded is the fit of the core. *)
Definition fits_without_tuning {net labels : Type}
    (fit : batch -> labels -> Q -> nat -> ChoiceFunction.t net ->
           result unit * ChoiceFunction.t net)
    (super_fit : batch -> labels -> net -> result unit * net) : Prop :=
  forall (X : batch) (Y : labels) (thin_thresholds : nat)
         (s : ChoiceFunction.t net),
    fit X Y 0%Q thin_thresholds s
    = match super_fit X Y (ChoiceFunction.core s) with
      | (Ok _, c) =>
          (Ok tt,
           ChoiceFunction.mk c (Some (1 / 2)%R)
                             (ChoiceFunction.calls s
                              ++ [ChoiceFunction.SuperFit]))
      | (Raise e, c) =>
          (Raise e,
           ChoiceFunction.mk c (ChoiceFunction.threshold s)
                             (ChoiceFunction.calls s
                              ++ [ChoiceFunction.SuperFit]))
      end.

(** What [fit] with [tune_size > 0] does when the fit of the core
    raises [e]: the tuner is called on the tuning split, after the split
    and the core fit; if it returns a threshold, that threshold is
    stored and [e] leaves [fit]; if it raises, its own exception leaves
    [fit] and the threshold is as before. *)
Definition tunes_before_raising {net labels : Type}
    (fit : batch -> labels -> Q -> nat -> ChoiceFunction.t net ->
           result unit * ChoiceFunction.t net)
    (super_fit : batch -> labels -> net -> result unit * net)
    (train_test_split
     : batch -> labels -> Q -> result (batch * batch * labels * labels))
    (_tune_threshold : batch -> labels -> nat -> ChoiceFunction.t net ->
                       result R * ChoiceFunction.t net) : Prop :=
  forall (X : batch) (Y : labels) (tune_size : Q) (thin_thresholds : nat)
         (s : ChoiceFunction.t net) (X_train X_val : batch)
         (Y_train Y_val : labels) (e : exn) (c : net),
    (0 < tune_size)%Q ->
    train_test_split X Y tune_size = Ok (X_train, X_val, Y_train, Y_val) ->
    super_fit X_train Y_train (ChoiceFunction.core s) = (Raise e, c) ->
    let attempt :=
      _tune_threshold X_val Y_val thin_thresholds
        (ChoiceFunction.mk c (ChoiceFunction.threshold s)
           (ChoiceFunction.calls s
            ++ [ChoiceFunction.TrainTestSplit; ChoiceFunction.SuperFit;
                ChoiceFunction.TuneThreshold])) in
    let outcome := fit X Y tune_size thin_thresholds s in
    ChoiceFunction.calls (snd outcome)
    = ChoiceFunction.calls s
      ++ [ChoiceFunction.TrainTestSplit; ChoiceFunction.SuperFit;
          ChoiceFunction.TuneThreshold]
    /\ (forall p s', attempt = (Ok p, s') ->
                     outcome = (Raise e, ChoiceFunction.set_threshold s' p))
    /\ (forall e' s', attempt = (Raise e', s') ->
                      outcome = (Raise e', s')
                      /\ ChoiceFunction.threshold s'
                         = ChoiceFunction.threshold s).

(** ** Instances *)

(** Three objects with one feature; a batch of ten such query sets with
    the first object chosen in each; a batch of one query set of one
    object. *)
Definition three_objects : list vec := [[2%R]; [1%R]; [0%R]].

Definition ten_queries : batch := repeat three_objects 10.

Definition ten_choices : list (list bool) := repeat [true; false; false] 10.

Definition one_object : batch := [[[1%R]]].

(** Two fitted RankNets on objects with one feature.  The first has one
    hidden ReLU unit and output bias -10; the second has two hidden
    layers with ReLU activations and no bias at all. *)
Definition biased_hidden : list layer := [dense [mkDense1 [1%R] 0%R] relu].
Definition biased_output : Dense1 := mkDense1 [1%R] (-10)%R.

Definition relu_hidden : list layer :=
  [dense [mkDense1 [1%R] 0%R] relu;
   dense [mkDense1 [1%R] 0%R; mkDense1 [(-1)%R] 0%R] relu].
Definition relu_output : Dense1 := mkDense1 [1%R; (-5)%R] 0%R.

(** A fitted RankNet with one hidden ReLU unit and no bias, and a
    learner object holding it, no scoring model built yet. *)
Definition plain_hidden : layer := dense [mkDense1 [1%R] 0%R] relu.
Definition plain_output : Dense1 := mkDense1 [1%R] 0%R.

Definition fitted_ranknet : RankNetCore.t :=
  RankNetCore.mk 1 []
    [RankNetCore.OutputNode plain_output; RankNetCore.HiddenLayer plain_hidden]
    (Some 1) (Some [1]) (Some 0) (Some (RankNetCore.mkModel [1] 0)) None.

(** A fitted CmpNet without hidden layers on objects with one feature. *)
Definition cmpnet_example : CmpNetCore.t :=
  CmpNetCore.mk [] (mkDense1 [1%R; 0%R; 0%R; 0%R] 0%R).

(** A fitted FETA chooser for three objects with one feature, with a
    zeroth-order model.  The pairwise network returns the ReLU of the
    first object's feature, the zeroth-order tower the ReLU of the
    object's feature, and the learned weighted sum adds the two. *)
Definition feta_zeroth : FETADiscreteChoiceFunction.t :=
  FETADiscreteChoiceFunction.mk
    true 3
    [dense [mkDense1 [1%R; 0%R] 0%R] relu]
    (mkDense1 [1%R; 0%R] 0%R)
    [dense [mkDense1 [1%R] 0%R] relu]
    (mkDense1 [1%R] 0%R)
    (mkDense1 [1%R; 1%R] 0%R).

(** The same chooser without a zeroth-order model. *)
Definition feta_first_order : FETADiscreteChoiceFunction.t :=
  FETADiscreteChoiceFunction.mk
    false 3
    [dense [mkDense1 [1%R; 0%R] 0%R] relu]
    (mkDense1 [1%R; 0%R] 0%R)
    []
    (mkDense1 [] 0%R)
    (mkDense1 [] 0%R).


(** One outcome of [train_test_split]: the last instance is held out
    (a tenth of a batch of ten). *)
Definition hold_out_last (X : batch) (Y : list (list bool)) (tune_size : Q)
  : result (batch * batch * list (list bool) * list (list bool)) :=
  Ok (removelast X, [last X []], removelast Y, [last Y []]).

(** A RankNet choice function, fresh from [__init__], whose conversion
    to pairwise examples fails; its training, were it reached, would
    leave the weights as they are. *)
Definition failing_convert (X : batch) (Y : list (list bool))
  : result unit :=
  Raise (ValueError "cannot convert the instances").

Definition toy_keras_fit (data : unit) (hidden : list layer) (out : Dense1)
  : (list layer * Dense1) * result unit :=
  ((hidden, out), Ok tt).

Definition fresh_ranknet_choice : ChoiceFunction.t RankNetCore.t :=
  ChoiceFunction.mk
    (RankNetCore.mk 2 [] [] None None None None None) None [].

(** A stand-in core learner whose score of an object is its first
    feature, with a fit that succeeds and one that fails. *)
Definition first_feature_scores (X : batch) (c : unit)
  : result (list (list R)) * unit :=
  (Ok (map (map (fun x : vec => nth 0 x 0%R)) X), c).

Definition fit_succeeds (X : batch) (Y : list (list bool)) (c : unit)
  : result unit * unit :=
  (Ok tt, c).

Definition fit_fails (X : batch) (Y : list (list bool)) (c : unit)
  : result unit * unit :=
  (Raise (ValueError "training failed"), c).

Definition fresh_feta_choice : ChoiceFunction.t unit :=
  FETAChoiceFunction.__init__ tt.

(** A stand-in for the numerical library: identity hidden layers, an
    output unit with kernel 1, and a training that moves the bias of
    the output unit to the label it is given. *)
Definition toy_initial_hidden (x : nat) : layer := fun v => v.
Definition toy_initial_output : Dense1 := mkDense1 [1%R] 0%R.
Definition toy_convert (X : batch) (Y : R) : result R := Ok Y.
Definition toy_training (data : R) (hidden : list layer) (out : Dense1)
  : (list layer * Dense1) * result unit :=
  ((hidden, mkDense1 (kernel out) data), Ok tt).

Definition toy_fit :=
  RankNetCore.fit toy_initial_hidden toy_initial_output toy_convert
                  toy_training.

Definition fresh_ranknet : RankNetCore.t :=
  RankNetCore.mk 1 [] [] None None None None None.

(** The learner after a first fit with label 0, after the prediction
    that follows it, and after a second fit with label 5. *)
Definition fitted_once : RankNetCore.t :=
  snd (toy_fit one_object 0%R fresh_ranknet).
Definition predicted_once : RankNetCore.t :=
  snd (RankNetCore._predict_scores_fixed one_object fitted_once).
Definition fitted_twice : RankNetCore.t :=
  snd (toy_fit one_object 5%R predicted_once).

(** ** Dicts *)

(** [d.get(key)]: the value a dict holds for a key, if any. *)
Definition lookup {V} (d : list (string * V)) (key : string) : option V :=
  option_map snd (find (fun kv => String.eqb (fst kv) key) d).

(** A learner whose attributes say how its hidden layers are to be
    configured. *)
Definition configured_vars : list (string * value) :=
  [("n_hidden", Int 2);
   ("hidden_dense_layer__activation", Str "relu");
   ("hidden_dense_layer__use_bias", Bool false);
   ("optimizer__lr", Float (1 # 100))].

(** Two objects with one positive feature each. *)
Definition two_objects : list vec := [[2%R]; [1%R]].

(** A RankNet learner constructed with [n_hidden = 0]. *)
Definition ranknet_without_hidden : RankNetCore.t :=
  RankNetCore.mk 0 [] [] None None None None None.

(** ** [predict_scores] on a dict *)

(** The scores a loop over the items of a dict collects when the batch
    under each key is scored in turn, each call of
    [_predict_scores_fixed] starting from the learner the call before
    left: [out] holds the keys in order, each with the scores its call
    returned, and [s'] is the learner after the last call. *)
Fixpoint scored_in_turn {self : Type}
    (_predict_scores_fixed : batch -> self -> result (list (list R)) * self)
    (items : list (nat * batch)) (s : self)
    (out : list (nat * list (list R))) (s' : self) : Prop :=
  match items, out with
  | [], [] => s' = s
  | (ranking_size, x) :: items', (key, sc) :: out' =>
      key = ranking_size
      /\ exists s1,
          _predict_scores_fixed x s = (Ok sc, s1)
          /\ scored_in_turn _predict_scores_fixed items' s1 out' s'
  | _, _ => False
  end.

(** ** The job queue *)

(** The columns of a job description that enter its hash. *)
Definition listed_columns (job_description : list (string * string))
  : list (string * string) :=
  filter (fun kv => existsb (String.eqb (fst kv)) DBConnector.keys)
         job_description.

(** A job has a row in [running_jobs]. *)
Definition has_running_row (d : DBConnector.database) (job_id : nat) : Prop :=
  exists r, In r (DBConnector.running_jobs d) /\ DBConnector.r_job_id r = job_id.

(** A job of the given kind is listed in [avail_jobs]. *)
Definition is_listed (d : DBConnector.database) (is_gpu : bool) (job_id : nat)
  : Prop :=
  exists row, In row (DBConnector.avail_jobs d)
              /\ DBConnector.row_job_id row = job_id
              /\ DBConnector.row_is_gpu row = is_gpu.

(** A queue with two jobs: job 1 was handed to cluster 7 and is still
    running, job 2 has not been handed out. *)
Definition job_1 : DBConnector.avail_row :=
  DBConnector.mkAvail 1 false 100 50 (Some "abc")
    [("learner", "ranknet"); ("fold_id", "0"); ("comment", "first")].

Definition job_2 : DBConnector.avail_row :=
  DBConnector.mkAvail 2 false 0 50 None
    [("learner", "cmpnet"); ("fold_id", "0"); ("comment", "second")].

Definition running_1 : DBConnector.running_row :=
  DBConnector.mkRunning 1 7 false false (Some "NA").

Definition queue : DBConnector.database :=
  DBConnector.mkDatabase [job_1; job_2] [running_1].

(** A stand-in for SHA-1. *)
Definition toy_sha1 (s : string) : string := s.

(** ** The CmpNet learner *)

(** The learner holds, at consecutive references above its output
    node, hidden layers of [n_units] units with the weights [hidden],
    and an output node with the weights [out]. *)
Definition cmpnet_holds (self : CmpNetCoreLearner.t) (hidden : list layer)
    (out : Dense1) : Prop :=
  CmpNetCoreLearner.n_hidden self = length hidden
  /\ CmpNetCoreLearner.hidden_layers self
     = seq (S (CmpNetCoreLearner.output_node self)) (length hidden)
  /\ S (CmpNetCoreLearner.output_node self) + length hidden
     <= length (CmpNetCoreLearner.heap self)
  /\ (forall i f,
         nth_error hidden i = Some f ->
         nth_error (CmpNetCoreLearner.heap self)
                   (S (CmpNetCoreLearner.output_node self) + i)
         = Some (CmpNetCoreLearner.HiddenLayer
                   (CmpNetCoreLearner.n_units self) f))
  /\ nth_error (CmpNetCoreLearner.heap self)
               (CmpNetCoreLearner.output_node self)
     = Some (CmpNetCoreLearner.OutputNode out).

(** A stand-in for the numerical library: hidden layers that double
    their input, an output unit with kernel 1, and a training that
    moves the bias of the output unit to the label it is given. *)
Definition cmp_initial_hidden (units x : nat) : layer :=
  fun v => map (fun a => (2 * a)%R) v.
Definition cmp_initial_output (n_hidden units : nat) : Dense1 :=
  mkDense1 [1%R] 0%R.

(* ================================================================== *)
(** * Part III: properties                                             *)
(* ================================================================== *)

(** ** The sigmoid *)

Lemma sigmoid_denominator_pos (x : R) : (0 < 1 + exp (- x))%R.
Proof.
  pose proof (exp_pos (- x)); lra.
Qed.

Lemma sigmoid_pos (x : R) : (0 < sigmoid x)%R.
Proof.
  unfold sigmoid. apply Rinv_0_lt_compat, sigmoid_denominator_pos.
Qed.

Lemma sigmoid_lt_1 (x : R) : (sigmoid x < 1)%R.
Proof.
  unfold sigmoid. rewrite <- Rinv_1 at 2.
  apply Rinv_lt_contravar.
  - pose proof (exp_pos (- x)); nra.
  - pose proof (exp_pos (- x)); lra.
Qed.

Lemma sigmoid_unit_interval (x : R) : (0 <= sigmoid x <= 1)%R.
Proof.
  pose proof (sigmoid_pos x); pose proof (sigmoid_lt_1 x); lra.
Qed.

Lemma sigmoid_increasing (x y : R) : (x < y -> sigmoid x < sigmoid y)%R.
Proof.
  intros Hxy. unfold sigmoid.
  apply Rinv_lt_contravar.
  - pose proof (sigmoid_denominator_pos x);
      pose proof (sigmoid_denominator_pos y); nra.
  - apply Rplus_lt_compat_l, exp_increasing; lra.
Qed.

Lemma sigmoid_0 : sigmoid 0 = (1 / 2)%R.
Proof.
  unfold sigmoid. rewrite Ropp_0, exp_0. lra.
Qed.

Lemma sigmoid_gt_half (x : R) : (0 < x -> 1 / 2 < sigmoid x)%R.
Proof.
  intros Hx. rewrite <- sigmoid_0. now apply sigmoid_increasing.
Qed.

Lemma sigmoid_lt_half (x : R) : (x < 0 -> sigmoid x < 1 / 2)%R.
Proof.
  intros Hx. rewrite <- sigmoid_0. now apply sigmoid_increasing.
Qed.

Lemma sigmoid_lt_reflect (x y : R) : (sigmoid x < sigmoid y -> x < y)%R.
Proof.
  intros H. destruct (Rtotal_order x y) as [Hlt | [Heq | Hgt]]; trivial.
  - subst. lra.
  - apply sigmoid_increasing in Hgt. lra.
Qed.

Lemma sigmoid_injective (x y : R) : sigmoid x = sigmoid y -> x = y.
Proof.
  intros H. destruct (Rtotal_order x y) as [Hlt | [Heq | Hgt]]; trivial.
  - apply sigmoid_increasing in Hlt. lra.
  - apply sigmoid_increasing in Hgt. lra.
Qed.

(** ** The enumeration of ordered pairs and the score matrix *)

Lemma filter_list_prod {A B} (f : A * B -> bool) (l : list A) (l' : list B) :
  filter f (list_prod l l')
  = flat_map (fun a => map (pair a) (filter (fun b => f (a, b)) l')) l.
Proof.
  induction l as [| a l IH]; simpl; trivial.
  rewrite filter_app, IH. f_equal.
  clear IH. induction l' as [| b l' IH']; simpl; trivial.
  destruct (f (a, b)); simpl; now rewrite IH'.
Qed.

Lemma permutations_by_rows (n : nat) :
  Itertools.permutations n
  = flat_map (fun i => map (pair i) (competitors n i)) (seq 0 n).
Proof.
  unfold Itertools.permutations, Itertools.product2.
  now rewrite filter_list_prod.
Qed.

Lemma filter_all_true {A} (f : A -> bool) (l : list A) :
  (forall a, In a l -> f a = true) -> filter f l = l.
Proof.
  induction l as [| a l IH]; simpl; intros H; trivial.
  rewrite (H a) by now left. f_equal. apply IH. intros; apply H; now right.
Qed.

Lemma competitors_split (n i : nat) :
  i < n -> competitors n i = seq 0 i ++ seq (S i) (n - S i).
Proof.
  intros Hi. unfold competitors.
  replace n with (i + S (n - S i)) at 1 by lia.
  rewrite seq_app, filter_app. simpl seq. simpl filter.
  rewrite Nat.eqb_refl. simpl. f_equal.
  - apply filter_all_true. intros a Ha. apply in_seq in Ha.
    apply negb_true_iff, Nat.eqb_neq. lia.
  - apply filter_all_true. intros a Ha. apply in_seq in Ha.
    apply negb_true_iff, Nat.eqb_neq. lia.
Qed.

Lemma competitors_length (n i : nat) :
  i < n -> length (competitors n i) = n - 1.
Proof.
  intros Hi. rewrite competitors_split by trivial.
  rewrite length_app, !length_seq. lia.
Qed.

Lemma competitors_In (n i j : nat) :
  In j (competitors n i) <-> j < n /\ i <> j.
Proof.
  unfold competitors. rewrite filter_In, in_seq, negb_true_iff, Nat.eqb_neq.
  lia.
Qed.

Lemma competitors_NoDup (n i : nat) : NoDup (competitors n i).
Proof.
  apply NoDup_filter, seq_NoDup.
Qed.

Lemma permutations_In (n i j : nat) :
  In (i, j) (Itertools.permutations n) <-> i < n /\ j < n /\ i <> j.
Proof.
  unfold Itertools.permutations, Itertools.product2.
  rewrite filter_In, in_prod_iff, !in_seq. simpl.
  rewrite negb_true_iff, Nat.eqb_neq. lia.
Qed.

Lemma list_prod_NoDup {A B} (l : list A) (l' : list B) :
  NoDup l -> NoDup l' -> NoDup (list_prod l l').
Proof.
  intros Hl Hl'. induction Hl as [| a l Ha Hl IH]; simpl.
  - constructor.
  - apply NoDup_app; trivial.
    + apply NoDup_map_NoDup_ForallPairs; trivial.
      intros b b' _ _ Heq. congruence.
    + intros [a' b] Hin Hin'.
      apply in_map_iff in Hin as (b' & Heq & _).
      apply in_prod_iff in Hin' as [Hin' _].
      congruence.
Qed.

Lemma permutations_NoDup (n : nat) : NoDup (Itertools.permutations n).
Proof.
  apply NoDup_filter. unfold Itertools.product2.
  apply list_prod_NoDup; apply seq_NoDup.
Qed.

Lemma length_flat_map_const {A B} (g : A -> list B) (c : nat) (l : list A) :
  (forall a, In a l -> length (g a) = c) ->
  length (flat_map g l) = length l * c.
Proof.
  induction l as [| a l IH]; simpl; intros H; trivial.
  rewrite length_app, H, IH by auto. trivial.
Qed.

Lemma permutations_length (n : nat) :
  length (Itertools.permutations n) = n * (n - 1).
Proof.
  rewrite permutations_by_rows.
  rewrite (@length_flat_map_const _ _ _ (n - 1)).
  - now rewrite length_seq.
  - intros i Hi. apply in_seq in Hi.
    rewrite length_map. apply competitors_length. lia.
Qed.

Lemma reshape_flat_map {A B} (g : A -> list B) (c : nat) (l : list A) :
  (forall a, In a l -> length (g a) = c) ->
  reshape (length l) c (flat_map g l) = map g l.
Proof.
  induction l as [| a l IH]; simpl; intros H; trivial.
  assert (Ha : length (g a) = c) by auto.
  assert (Hfirst : firstn c (g a ++ flat_map g l) = g a).
  { rewrite <- Ha, firstn_app, Nat.sub_diag, firstn_all. simpl.
    apply app_nil_r. }
  assert (Hskip : skipn c (g a ++ flat_map g l) = flat_map g l).
  { rewrite <- Ha, skipn_app, Nat.sub_diag, skipn_all. reflexivity. }
  rewrite Hfirst, Hskip. f_equal. apply IH. auto.
Qed.

Lemma combine_fst_snd {A B} (l : list (A * B)) :
  combine (map fst l) (map snd l) = l.
Proof.
  induction l as [| [a b] l IH]; simpl; congruence.
Qed.

Lemma map_flat_map {A B C} (f : B -> C) (g : A -> list B) (l : list A) :
  map f (flat_map g l) = flat_map (fun a => map f (g a)) l.
Proof.
  induction l as [| a l IH]; simpl; trivial.
  now rewrite map_app, IH.
Qed.

(** Reshaping the scores of the enumerated pairs puts the scores of
    object [i] against its competitors in row [i]. *)
Lemma reshape_pair_scores {B} (score : nat -> nat -> B) (n : nat) :
  reshape n (n - 1)
          (map (fun ij => score (fst ij) (snd ij)) (Itertools.permutations n))
  = map (fun i => map (score i) (competitors n i)) (seq 0 n).
Proof.
  rewrite permutations_by_rows, map_flat_map.
  rewrite <- (length_seq n 0) at 1.
  rewrite reshape_flat_map.
  - apply map_ext. intros i. now rewrite map_map.
  - intros i Hi. apply in_seq in Hi.
    rewrite !length_map. apply competitors_length. lia.
Qed.

Lemma cmpnet_score_matrix (self : CmpNetCore.t) (x : list vec) :
  CmpNetCore.score_matrix self x
  = map (fun i => map (cmpnet_pair_score self x i)
                      (competitors (length x) i))
        (seq 0 (length x)).
Proof.
  unfold CmpNetCore.score_matrix, CmpNetCore.predict_pair.
  rewrite combine_fst_snd. unfold CmpNetCore.pairs.
  rewrite !map_map. simpl.
  now rewrite <- (reshape_pair_scores (cmpnet_pair_score self x)).
Qed.

Lemma feta_score_matrix (self : FETADiscreteChoiceFunction.t) (x : list vec) :
  FETADiscreteChoiceFunction.score_matrix self x
  = map (fun i => map (feta_pair_score self x i)
                      (competitors (length x) i))
        (seq 0 (length x)).
Proof.
  unfold FETADiscreteChoiceFunction.score_matrix,
    FETADiscreteChoiceFunction._predict_pair.
  rewrite combine_fst_snd. unfold FETADiscreteChoiceFunction.pairs.
  rewrite !map_map. simpl.
  now rewrite <- (reshape_pair_scores (feta_pair_score self x)).
Qed.

Lemma mean_nonempty (row : list R) :
  row <> [] -> mean row = Some (arithmetic_mean row).
Proof.
  destruct row; [congruence | reflexivity].
Qed.

Lemma mean_axis1_rows {A} (g : A -> list R) (l : list A) :
  (forall a, In a l -> g a <> []) ->
  mean_axis1 (map g l) = Some (map (fun a => arithmetic_mean (g a)) l).
Proof.
  induction l as [| a l IH]; simpl; intros H; trivial.
  rewrite IH by auto.
  destruct (g a) as [| r row] eqn:E.
  - exfalso. apply (H a); auto.
  - reflexivity.
Qed.

Lemma competitor_row_nonempty {B} (score : nat -> B) (n i : nat) :
  2 <= n -> i < n -> map score (competitors n i) <> [].
Proof.
  intros Hn Hi Hnil. apply (f_equal (@length B)) in Hnil.
  rewrite length_map, competitors_length in Hnil by trivial.
  simpl in Hnil. lia.
Qed.

Lemma cmpnet_scores_of_instance (self : CmpNetCore.t) (x : list vec) :
  2 <= length x ->
  CmpNetCore.scores_of_instance self x
  = Ok (map (fun i => arithmetic_mean
                        (map (cmpnet_pair_score self x i)
                             (competitors (length x) i)))
            (seq 0 (length x))).
Proof.
  intros Hn. unfold CmpNetCore.scores_of_instance.
  rewrite cmpnet_score_matrix, mean_axis1_rows.
  - destruct (length x); [lia | reflexivity].
  - intros i Hi. apply in_seq in Hi.
    apply competitor_row_nonempty; lia.
Qed.

Lemma feta_first_order_scores (self : FETADiscreteChoiceFunction.t)
    (x : list vec) :
  2 <= length x ->
  FETADiscreteChoiceFunction.first_order_scores self x
  = Ok (map (fun i => arithmetic_mean
                        (map (feta_pair_score self x i)
                             (competitors (length x) i)))
            (seq 0 (length x))).
Proof.
  intros Hn. unfold FETADiscreteChoiceFunction.first_order_scores.
  rewrite feta_score_matrix, mean_axis1_rows.
  - destruct (length x); [lia |].
    rewrite map_map. f_equal. apply map_ext. intros i. apply Rplus_0_l.
  - intros i Hi. apply in_seq in Hi.
    apply competitor_row_nonempty; lia.
Qed.

(** ** The range of the utility scores *)

Lemma mapM_Ok {A B} (f : A -> result B) (l : list A) (r : list B) :
  mapM f l = Ok r -> Forall2 (fun a b => f a = Ok b) l r.
Proof.
  revert r. induction l as [| a l IH]; simpl; intros r H.
  - inversion H. constructor.
  - destruct (f a) as [b | e] eqn:Ea; simpl in H; [| discriminate].
    destruct (mapM f l) as [bs | e]; simpl in H; [| discriminate].
    inversion H; subst. constructor; auto.
Qed.

Lemma mapM_Forall {A B} (f : A -> result B) (P : B -> Prop) (l : list A)
    (r : list B) :
  (forall a b, f a = Ok b -> P b) -> mapM f l = Ok r -> Forall P r.
Proof.
  intros Hf H. apply mapM_Ok in H.
  induction H; constructor; eauto.
Qed.

Lemma sum_bounds (row : list R) :
  Forall unit_interval row -> (0 <= sum row <= INR (length row))%R.
Proof.
  induction 1 as [| s row Hs _ IH].
  - simpl. lra.
  - change (length (s :: row)) with (S (length row)).
    rewrite S_INR. simpl. unfold unit_interval in Hs. lra.
Qed.

Lemma arithmetic_mean_unit_interval (row : list R) :
  row <> [] -> Forall unit_interval row -> unit_interval (arithmetic_mean row).
Proof.
  intros Hne Hrow. pose proof (sum_bounds Hrow) as [Hlo Hhi].
  assert (Hlen : (0 < INR (length row))%R).
  { apply lt_0_INR. destruct row; [congruence | simpl; lia]. }
  unfold arithmetic_mean, unit_interval. split.
  - apply Rmult_le_pos; trivial.
    left. now apply Rinv_0_lt_compat.
  - apply (Rmult_le_reg_r (INR (length row))); trivial.
    unfold Rdiv. rewrite Rmult_assoc, Rinv_l by lra. lra.
Qed.

Lemma mean_axis1_Forall (P : R -> Prop) (m : list (list R)) (s : list R) :
  (forall row, In row m -> row <> [] -> P (arithmetic_mean row)) ->
  mean_axis1 m = Some s -> Forall P s.
Proof.
  revert s. induction m as [| row m IH]; simpl; intros s Hrow H.
  - inversion H. constructor.
  - destruct row as [| r row]; [discriminate |].
    simpl in H.
    destruct (mean_axis1 m) as [ss |]; [| discriminate].
    inversion H; subst. constructor.
    + apply (Hrow (r :: row)); [now left | discriminate].
    + apply IH; auto.
Qed.

Lemma reshape_rows_Forall {A} (P : A -> Prop) (rows cols : nat) (a : list A) :
  Forall P a -> Forall (Forall P) (reshape rows cols a).
Proof.
  revert a. induction rows as [| rows IH]; simpl; intros a Ha.
  - constructor.
  - rewrite <- (firstn_skipn cols a) in Ha.
    apply Forall_app in Ha as [Hfirst Hskip].
    constructor; auto.
Qed.

Lemma sigmoid_unit_in_unit_interval (d : Dense1) (x : vec) :
  unit_interval (sigmoid_unit d x).
Proof.
  apply sigmoid_unit_interval.
Qed.

Lemma ranknet_scores_range (X : batch) (self self' : RankNetCore.t)
    (scores : list (list R)) :
  RankNetCore._predict_scores_fixed X self = (Ok scores, self') ->
  scores_in_unit_interval scores.
Proof.
  unfold RankNetCore._predict_scores_fixed.
  destruct (RankNetCore.scoring_model self) as [[m | e] s]; intros H;
    inversion H; subst.
  apply Forall_map, Forall_forall. intros x _.
  apply Forall_map, Forall_forall. intros v _.
  apply sigmoid_unit_in_unit_interval.
Qed.

Lemma cmpnet_instance_range (self : CmpNetCore.t) (x : list vec)
    (s : list R) :
  CmpNetCore.scores_of_instance self x = Ok s -> Forall unit_interval s.
Proof.
  unfold CmpNetCore.scores_of_instance.
  destruct (length x) eqn:En; [discriminate |].
  destruct (mean_axis1 (CmpNetCore.score_matrix self x)) as [s' |] eqn:Em;
    [| discriminate].
  intros H; inversion H; subst s'.
  eapply mean_axis1_Forall; [| exact Em].
  intros row Hrow Hne. apply arithmetic_mean_unit_interval; trivial.
  assert (Hall : Forall (Forall unit_interval)
                        (CmpNetCore.score_matrix self x)).
  { unfold CmpNetCore.score_matrix, CmpNetCore.predict_pair.
    apply reshape_rows_Forall. rewrite map_map.
    apply Forall_forall. intros v Hv.
    apply in_map_iff in Hv as (ab & <- & _).
    simpl. apply sigmoid_unit_in_unit_interval. }
  rewrite Forall_forall in Hall. now apply Hall.
Qed.

Lemma keras_concatenate_Ok {A} (xs ys : list A) :
  FETADiscreteChoiceFunction.keras_concatenate xs = Ok ys -> ys = xs.
Proof.
  destruct xs as [| a [| b xs]]; simpl; intros H; inversion H; trivial.
Qed.

Lemma keras_concatenate_two {A} (xs : list A) :
  2 <= length xs -> FETADiscreteChoiceFunction.keras_concatenate xs = Ok xs.
Proof.
  destruct xs as [| a [| b xs]]; simpl; intros H; trivial; lia.
Qed.

Lemma weighted_scores_range (d : Dense1) (n : nat) (s1 s2 : list R) :
  Forall unit_interval
    (map (fun i => sigmoid_unit d (concatenate [nth i s1 0%R] [nth i s2 0%R]))
         (seq 0 n)).
Proof.
  apply Forall_forall. intros v Hv.
  apply in_map_iff in Hv as (i & <- & _).
  apply sigmoid_unit_in_unit_interval.
Qed.

Lemma sigmoid_scores_range (s : list R) : Forall unit_interval (map sigmoid s).
Proof.
  apply Forall_forall. intros v Hv.
  apply in_map_iff in Hv as (i & <- & _).
  apply sigmoid_unit_interval.
Qed.

Lemma feta_instance_range (self : FETADiscreteChoiceFunction.t)
    (x : list vec) (s : list R) :
  FETADiscreteChoiceFunction.scores_of_instance self x = Ok s ->
  Forall unit_interval s.
Proof.
  unfold FETADiscreteChoiceFunction.scores_of_instance.
  destruct (FETADiscreteChoiceFunction.first_order_scores self x)
    as [fo | e]; simpl; [| discriminate].
  destruct (FETADiscreteChoiceFunction.add_zeroth_order_model self).
  - unfold FETADiscreteChoiceFunction._create_weighted_model. intros H.
    apply keras_concatenate_Ok in H. subst s. apply weighted_scores_range.
  - intros H. inversion H. apply sigmoid_scores_range.
Qed.

Lemma feta_training_graph_range (self : FETADiscreteChoiceFunction.t)
    (x : list vec) (s : list R) :
  FETADiscreteChoiceFunction.construct_model self x = Ok s ->
  Forall unit_interval s.
Proof.
  unfold FETADiscreteChoiceFunction.construct_model.
  destruct (if FETADiscreteChoiceFunction.add_zeroth_order_model self
            then _ else _) as [z | e]; simpl; [| discriminate].
  destruct (mapM _ _) as [outputs | e]; simpl; [| discriminate].
  destruct (FETADiscreteChoiceFunction.keras_concatenate _)
    as [scores | e]; simpl; [| discriminate].
  destruct (FETADiscreteChoiceFunction.add_zeroth_order_model self).
  - intros H. apply keras_concatenate_Ok in H. subst s.
    apply weighted_scores_range.
  - intros H. inversion H. apply sigmoid_scores_range.
Qed.

Lemma mapM_total {A B} (f : A -> result B) (l : list A) :
  Forall (fun a => exists b, f a = Ok b) l -> exists r, mapM f l = Ok r.
Proof.
  induction 1 as [| a l [b Hb] _ [r Hr]]; simpl.
  - now exists [].
  - rewrite Hb. simpl. rewrite Hr. simpl. now exists (b :: r).
Qed.

Lemma feta_scores_of_instance_total (self : FETADiscreteChoiceFunction.t)
    (x : list vec) :
  2 <= length x ->
  exists s, FETADiscreteChoiceFunction.scores_of_instance self x = Ok s.
Proof.
  intros Hn. unfold FETADiscreteChoiceFunction.scores_of_instance.
  rewrite feta_first_order_scores by trivial. simpl.
  destruct (FETADiscreteChoiceFunction.add_zeroth_order_model self).
  - unfold FETADiscreteChoiceFunction._create_weighted_model.
    rewrite keras_concatenate_two; [eauto |].
    now rewrite length_map, length_seq.
  - eauto.
Qed.

(** C10.  Every utility score the fixed-size prediction returns lies in
    the closed interval [0, 1]: for RankNet (sigmoid output unit), for
    CmpNet (means of sigmoid outputs) and for FETA, on the
    pair-enumerating path and on the training graph (final sigmoid, or
    the sigmoid weighted sum); scores are returned for every batch of
    query sets with at least two objects; and the default threshold 0.5
    lies in that interval. *)
Theorem C10_scores_in_unit_interval :
  (forall (X : batch) (self self' : RankNetCore.t) (scores : list (list R)),
      RankNetCore._predict_scores_fixed X self = (Ok scores, self') ->
      scores_in_unit_interval scores)
  /\ (forall (self : CmpNetCore.t) (X : batch) (scores : list (list R)),
         CmpNetCore._predict_scores_fixed self X = Ok scores ->
         scores_in_unit_interval scores)
  /\ (forall (self : FETADiscreteChoiceFunction.t) (X : batch)
             (scores : list (list R)),
         FETADiscreteChoiceFunction._predict_scores_using_pairs self X
         = Ok scores ->
         scores_in_unit_interval scores)
  /\ (forall (self : FETADiscreteChoiceFunction.t) (X : batch)
             (scores : list (list R)),
         FETADiscreteChoiceFunction.model_predict self X = Ok scores ->
         scores_in_unit_interval scores)
  /\ (forall (cmp : CmpNetCore.t) (feta : FETADiscreteChoiceFunction.t)
             (X : batch),
         Forall (fun x => 2 <= length x) X ->
         (exists scores, CmpNetCore._predict_scores_fixed cmp X = Ok scores)
         /\ (exists scores,
                FETADiscreteChoiceFunction._predict_scores_using_pairs feta X
                = Ok scores))
  /\ unit_interval (1 / 2).
Proof.
  split; [exact ranknet_scores_range |].
  split.
  { intros self X scores H.
    eapply mapM_Forall; [| exact H].
    apply cmpnet_instance_range. }
  split.
  { intros self X scores H.
    eapply mapM_Forall; [| exact H].
    apply feta_instance_range. }
  split.
  { intros self X scores H.
    eapply mapM_Forall; [| exact H].
    apply feta_training_graph_range. }
  split.
  { intros cmp feta X HX. split.
    - apply mapM_total. eapply Forall_impl; [| exact HX].
      intros x Hx. rewrite cmpnet_scores_of_instance by trivial. eauto.
    - apply mapM_total. eapply Forall_impl; [| exact HX].
      intros x Hx. now apply feta_scores_of_instance_total. }
  unfold unit_interval. lra.
Qed.

(** ** RankNet: pairwise probability and per-object utility *)

Lemma dot_vadd (w u v : vec) :
  length u = length v -> dot w (vadd u v) = (dot w u + dot w v)%R.
Proof.
  revert u v. induction w as [| a w IH]; intros [| b u] [| c v] Hlen;
    simpl in *; try discriminate; try lra.
  rewrite IH by congruence. lra.
Qed.

Lemma dot_vneg (w v : vec) : dot w (vneg v) = (- dot w v)%R.
Proof.
  revert v. induction w as [| a w IH]; intros [| b v]; simpl; try lra.
  unfold vneg in IH. rewrite IH. lra.
Qed.

Lemma vneg_length (v : vec) : length (vneg v) = length v.
Proof.
  apply length_map.
Qed.

Lemma relu_nonneg (x : R) : (0 <= x)%R -> relu x = x.
Proof.
  intros Hx. unfold relu. now apply Rmax_right.
Qed.

Lemma relu_nonpos (x : R) : (x <= 0)%R -> relu x = 0%R.
Proof.
  intros Hx. unfold relu. now apply Rmax_left.
Qed.

Lemma linear_unit_1 (w b v : R) :
  linear_unit (mkDense1 [w] b) [v] = (w * v + b)%R.
Proof.
  unfold linear_unit. cbn [dot kernel bias]. lra.
Qed.

Lemma utility_logit (first : layer) (later : list layer) (out : Dense1)
    (x : vec) :
  RankNetCore.utility (first :: later) out x
  = sigmoid (logit first later out x + bias out).
Proof.
  reflexivity.
Qed.

(** The pairwise network as built: the later layers see the negated
    encoding of the second object, and the bias of the output unit is
    added once. *)
Lemma pairwise_output_unfold (first : layer) (later : list layer)
    (out : Dense1) (x1 x2 : vec) :
  RankNetCore.pairwise_output (first :: later) out x1 x2
  = Ok (sigmoid (dot (kernel out)
                     (vadd (through later (first x1))
                           (through later (vneg (first x2))))
                 + bias out)).
Proof.
  reflexivity.
Qed.

(** C3, as stated, fails.  With output bias -10 the utilities of the
    objects 3, 2, 1 decrease strictly, yet the pairwise output for
    (3, 1) is sigmoid(-8), below 0.5.  Without any bias but with a
    second ReLU layer, which is applied to the negated encoding, the
    utilities of 3, 2, 1 again decrease strictly and the pairwise
    output for (3, 1) is sigmoid(-2). *)
Lemma C3_counterexample :
  ((RankNetCore.utility biased_hidden biased_output [3%R]
    > RankNetCore.utility biased_hidden biased_output [2%R])%R
   /\ (RankNetCore.utility biased_hidden biased_output [2%R]
       > RankNetCore.utility biased_hidden biased_output [1%R])%R
   /\ RankNetCore.pairwise_output biased_hidden biased_output [3%R] [1%R]
      = Ok (sigmoid (-8))
   /\ ~ (sigmoid (-8) > 1 / 2)%R)
  /\ ((RankNetCore.utility relu_hidden relu_output [3%R]
       > RankNetCore.utility relu_hidden relu_output [2%R])%R
      /\ (RankNetCore.utility relu_hidden relu_output [2%R]
          > RankNetCore.utility relu_hidden relu_output [1%R])%R
      /\ RankNetCore.pairwise_output relu_hidden relu_output [3%R] [1%R]
         = Ok (sigmoid (-2))
      /\ ~ (sigmoid (-2) > 1 / 2)%R).
Proof.
  split.
  - unfold RankNetCore.utility, RankNetCore.pairwise_output, biased_hidden,
      biased_output, sigmoid_unit, dense, through, vneg.
    cbn [map fold_left vadd].
    rewrite !linear_unit_1.
    rewrite !(@relu_nonneg (1 * 3 + 0)%R), !(@relu_nonneg (1 * 2 + 0)%R),
      !(@relu_nonneg (1 * 1 + 0)%R) by lra.
    repeat split.
    + apply sigmoid_increasing. lra.
    + apply sigmoid_increasing. lra.
    + do 2 f_equal. lra.
    + pose proof (@sigmoid_lt_half (-8)%R). lra.
  - unfold RankNetCore.utility, RankNetCore.pairwise_output, relu_hidden,
      relu_output, sigmoid_unit, dense, through, vneg.
    cbn [map fold_left vadd].
    rewrite !linear_unit_1.
    rewrite !(@relu_nonneg (1 * 3 + 0)%R), !(@relu_nonneg (1 * 2 + 0)%R),
      !(@relu_nonneg (1 * 1 + 0)%R) by lra.
    rewrite !(@relu_nonneg (1 * (1 * 3 + 0) + 0)%R),
      !(@relu_nonneg (1 * (1 * 2 + 0) + 0)%R),
      !(@relu_nonneg (1 * (1 * 1 + 0) + 0)%R),
      !(@relu_nonneg (-1 * - (1 * 1 + 0) + 0)%R) by lra.
    rewrite !(@relu_nonpos (-1 * (1 * 3 + 0) + 0)%R),
      !(@relu_nonpos (-1 * (1 * 2 + 0) + 0)%R),
      !(@relu_nonpos (-1 * (1 * 1 + 0) + 0)%R),
      !(@relu_nonpos (1 * - (1 * 1 + 0) + 0)%R) by lra.
    unfold linear_unit. cbn [dot kernel bias].
    repeat split.
    + apply sigmoid_increasing. lra.
    + apply sigmoid_increasing. lra.
    + do 2 f_equal. lra.
    + pose proof (@sigmoid_lt_half (-2)%R). lra.
Qed.

(** C3, amended.  The pairwise output of the RankNet graph for
    [(x_i, x_j)] is [sigmoid(z(x_i) - z(x_j) + bias)], where [z] is the
    logit of the shared tower and [bias] the bias of the output unit,
    whenever the later hidden layers commute with the negation of the
    second object's encoding (as they do when there is one hidden
    layer); if moreover the bias is not negative, then for objects
    [a], [b], [c] with U(a) > U(b) and U(b) > U(c) the pairwise output
    for [(a, c)] exceeds 0.5. *)
Theorem C3_ranknet_pairwise_transitive :
  forall (first : layer) (later : list layer) (out : Dense1) (a b c : vec),
    through later (vneg (first c)) = vneg (through later (first c)) ->
    length (through later (first a)) = length (through later (first c)) ->
    (0 <= bias out)%R ->
    (RankNetCore.utility (first :: later) out a
     > RankNetCore.utility (first :: later) out b)%R ->
    (RankNetCore.utility (first :: later) out b
     > RankNetCore.utility (first :: later) out c)%R ->
    RankNetCore.pairwise_output (first :: later) out a c
    = Ok (sigmoid (logit first later out a - logit first later out c
                   + bias out))
    /\ (sigmoid (logit first later out a - logit first later out c
                 + bias out) > 1 / 2)%R.
Proof.
  intros first later out a b c Hodd Hlen Hbias Hab Hbc.
  split.
  - rewrite pairwise_output_unfold, Hodd.
    rewrite dot_vadd by (now rewrite vneg_length).
    rewrite dot_vneg. reflexivity.
  - rewrite !utility_logit in Hab, Hbc.
    assert (Hac : (sigmoid (logit first later out c + bias out)
                   < sigmoid (logit first later out a + bias out))%R) by lra.
    apply sigmoid_lt_reflect in Hac.
    apply sigmoid_gt_half. lra.
Qed.

Lemma plain_utility (v : R) :
  (0 <= v)%R ->
  RankNetCore.utility [plain_hidden] plain_output [v] = sigmoid (1 * v + 0).
Proof.
  intros Hv.
  unfold RankNetCore.utility, plain_hidden, plain_output, sigmoid_unit,
    dense, through.
  cbn [map fold_left]. rewrite !linear_unit_1.
  rewrite (@relu_nonneg (1 * v + 0)%R) by lra.
  f_equal. lra.
Qed.

Lemma plain_utility_decreasing (u v : R) :
  (0 <= v < u)%R ->
  (RankNetCore.utility [plain_hidden] plain_output [u]
   > RankNetCore.utility [plain_hidden] plain_output [v])%R.
Proof.
  intros H. rewrite !plain_utility by lra.
  apply sigmoid_increasing. lra.
Qed.

(** C3, amended, on a RankNet with one hidden layer and no bias. *)
Lemma C3_witness :
  (through [] (vneg (plain_hidden [1%R])) = vneg (through [] (plain_hidden [1%R]))
   /\ length (through [] (plain_hidden [3%R]))
      = length (through [] (plain_hidden [1%R]))
   /\ (0 <= bias plain_output)%R
   /\ (RankNetCore.utility [plain_hidden] plain_output [3%R]
       > RankNetCore.utility [plain_hidden] plain_output [2%R])%R
   /\ (RankNetCore.utility [plain_hidden] plain_output [2%R]
       > RankNetCore.utility [plain_hidden] plain_output [1%R])%R)
  /\ (RankNetCore.pairwise_output [plain_hidden] plain_output [3%R] [1%R]
      = Ok (sigmoid (logit plain_hidden [] plain_output [3%R]
                     - logit plain_hidden [] plain_output [1%R]
                     + bias plain_output))
      /\ (sigmoid (logit plain_hidden [] plain_output [3%R]
                   - logit plain_hidden [] plain_output [1%R]
                   + bias plain_output) > 1 / 2)%R).
Proof.
  assert (H1 : through [] (vneg (plain_hidden [1%R]))
               = vneg (through [] (plain_hidden [1%R]))) by reflexivity.
  assert (H2 : length (through [] (plain_hidden [3%R]))
               = length (through [] (plain_hidden [1%R]))) by reflexivity.
  assert (H3 : (0 <= bias plain_output)%R) by (simpl; lra).
  assert (H4 : (RankNetCore.utility [plain_hidden] plain_output [3%R]
                > RankNetCore.utility [plain_hidden] plain_output [2%R])%R)
    by (apply plain_utility_decreasing; lra).
  assert (H5 : (RankNetCore.utility [plain_hidden] plain_output [2%R]
                > RankNetCore.utility [plain_hidden] plain_output [1%R])%R)
    by (apply plain_utility_decreasing; lra).
  split.
  - repeat split; assumption.
  - exact (@C3_ranknet_pairwise_transitive plain_hidden [] plain_output
             [3%R] [2%R] [1%R] H1 H2 H3 H4 H5).
Defined.

(** ** FETA without a zeroth-order model: the two paths agree *)

Lemma append_at_map_seq {A} (f : nat -> list A) (s n i : nat) (v : A) :
  i < n ->
  FETADiscreteChoiceFunction.append_at i v (map f (seq s n))
  = map (fun r => if Nat.eqb r (s + i) then f r ++ [v] else f r) (seq s n).
Proof.
  revert s i. induction n as [| n IH]; intros s i Hi; [lia |].
  simpl seq. simpl map. destruct i as [| i]; simpl.
  - rewrite Nat.add_0_r, Nat.eqb_refl. f_equal.
    apply map_ext_in. intros r Hr. apply in_seq in Hr.
    destruct (Nat.eqb_spec r s); [lia | reflexivity].
  - destruct (Nat.eqb_spec s (s + S i)); [lia |]. f_equal.
    rewrite IH by lia. apply map_ext. intros r.
    now replace (S s + i) with (s + S i) by lia.
Qed.

Lemma repeat_nil_rows {A} (n : nat) :
  repeat (@nil A) n = map (fun _ => []) (seq 0 n).
Proof.
  generalize 0. induction n as [| n IH]; intros s; simpl; trivial.
  now rewrite <- IH.
Qed.

Lemma fold_rows {A} (N : nat -> nat -> A * A) (n : nat)
    (l : list (nat * nat)) (f : nat -> list A) :
  (forall ij, In ij l -> fst ij < n /\ snd ij < n) ->
  fold_left
    (fun outputs ij =>
       FETADiscreteChoiceFunction.append_at (snd ij)
         (snd (N (fst ij) (snd ij)))
         (FETADiscreteChoiceFunction.append_at (fst ij)
            (fst (N (fst ij) (snd ij))) outputs))
    l (map f (seq 0 n))
  = map (fold_left (row_step N) l f) (seq 0 n).
Proof.
  revert f. induction l as [| ij l IH]; intros f Hl; simpl; trivial.
  destruct (Hl ij (or_introl eq_refl)) as [Hi Hj].
  rewrite (append_at_map_seq f 0 _ Hi), (append_at_map_seq _ 0 _ Hj).
  simpl. rewrite IH by (intros; apply Hl; now right). reflexivity.
Qed.

Lemma fold_row_entries {A} (N : nat -> nat -> A * A) (l : list (nat * nat))
    (f : nat -> list A) (r : nat) :
  (forall ij, In ij l -> fst ij <> snd ij) ->
  fold_left (row_step N) l f r = f r ++ map (entry N r) (filter (involves r) l).
Proof.
  revert f. induction l as [| [i j] l IH]; intros f Hl; simpl.
  - now rewrite app_nil_r.
  - assert (Hij : i <> j) by (apply (Hl (i, j)); now left).
    rewrite IH by (intros; apply Hl; now right).
    unfold row_step.
    change (involves r (i, j)) with (Nat.eqb i r || Nat.eqb j r).
    cbn [fst snd].
    destruct (Nat.eqb_spec r j) as [-> | Hrj].
    + destruct (Nat.eqb_spec j i) as [Hji | _]; [congruence |].
      destruct (Nat.eqb_spec i j) as [Hji | _]; [congruence |].
      rewrite Nat.eqb_refl. cbn [orb map].
      unfold entry at 2. cbn [fst snd].
      destruct (Nat.eqb_spec i j) as [Hji | _]; [congruence |].
      now rewrite <- app_assoc.
    + destruct (Nat.eqb_spec r i) as [-> | Hri].
      * rewrite Nat.eqb_refl. cbn [orb map].
        unfold entry at 2. cbn [fst snd]. rewrite Nat.eqb_refl.
        now rewrite <- app_assoc.
      * destruct (Nat.eqb_spec i r) as [Hir | _]; [congruence |].
        destruct (Nat.eqb_spec j r) as [Hjr | _]; [congruence |].
        reflexivity.
Qed.

Lemma filter_flat_map {A B} (p : B -> bool) (g : A -> list B) (l : list A) :
  filter p (flat_map g l) = flat_map (fun a => filter p (g a)) l.
Proof.
  induction l as [| a l IH]; simpl; trivial.
  now rewrite filter_app, IH.
Qed.

Lemma flat_map_ext_in {A B} (g h : A -> list B) (l : list A) :
  (forall a, In a l -> g a = h a) -> flat_map g l = flat_map h l.
Proof.
  induction l as [| a l IH]; simpl; intros H; trivial.
  rewrite H, IH; auto.
Qed.

Lemma filter_all_false {A} (p : A -> bool) (l : list A) :
  (forall a, In a l -> p a = false) -> filter p l = [].
Proof.
  induction l as [| a l IH]; simpl; intros H; trivial.
  rewrite (H a) by now left. apply IH. auto.
Qed.

Lemma filter_map_pair {B} (p : nat * B -> bool) (i : nat) (l : list B) :
  filter p (map (pair i) l) = map (pair i) (filter (fun j => p (i, j)) l).
Proof.
  induction l as [| b l IH]; simpl; trivial.
  destruct (p (i, b)); simpl; now rewrite IH.
Qed.

Lemma combinations_by_rows (n : nat) :
  Itertools.combinations n
  = flat_map (fun i => map (pair i) (seq (S i) (n - S i))) (seq 0 n).
Proof.
  unfold Itertools.combinations.
  rewrite permutations_by_rows, filter_flat_map.
  apply flat_map_ext_in. intros i Hi. apply in_seq in Hi.
  rewrite filter_map_pair. f_equal. simpl.
  rewrite competitors_split, filter_app by lia.
  rewrite filter_all_false, filter_all_true; trivial.
  - intros j Hj. apply in_seq in Hj. apply Nat.leb_le. lia.
  - intros j Hj. apply in_seq in Hj. apply Nat.leb_gt. lia.
Qed.

Lemma combinations_In (n i j : nat) :
  In (i, j) (Itertools.combinations n) -> i < n /\ j < n /\ i <> j.
Proof.
  unfold Itertools.combinations. rewrite filter_In.
  intros [H _]. now apply permutations_In.
Qed.

Lemma filter_eqb_seq (r s len : nat) :
  s <= r < s + len -> filter (fun j => Nat.eqb j r) (seq s len) = [r].
Proof.
  intros Hr.
  replace len with ((r - s) + S (s + len - S r)) by lia.
  rewrite seq_app, filter_app. simpl seq. simpl filter.
  replace (s + (r - s)) with r by lia. rewrite Nat.eqb_refl.
  rewrite !filter_all_false; trivial.
  - intros j Hj. apply in_seq in Hj. apply Nat.eqb_neq. lia.
  - intros j Hj. apply in_seq in Hj. apply Nat.eqb_neq. lia.
Qed.

Lemma flat_map_singleton {A B} (g : A -> B) (l : list A) :
  flat_map (fun a => [g a]) l = map g l.
Proof.
  induction l as [| a l IH]; simpl; congruence.
Qed.

(** The pairs of [combinations] that involve [r]: first those that end
    in [r], then those that start with [r]. *)
Lemma combinations_involving (n r : nat) :
  r < n ->
  filter (involves r) (Itertools.combinations n)
  = map (fun k => (k, r)) (seq 0 r) ++ map (pair r) (seq (S r) (n - S r)).
Proof.
  intros Hr. rewrite combinations_by_rows, filter_flat_map.
  replace n with (r + S (n - S r)) at 1 by lia.
  rewrite seq_app, flat_map_app. simpl seq. simpl flat_map.
  assert (Hafter :
            flat_map (fun a => filter (involves r)
                                      (map (pair a) (seq (S a) (n - S a))))
                     (seq (S r) (n - S r)) = []).
  { rewrite (@flat_map_ext_in _ _ _ (fun _ => [])).
    - induction (seq (S r) (n - S r)); simpl; trivial.
    - intros i Hi. apply in_seq in Hi.
      rewrite filter_map_pair.
      rewrite filter_all_false; trivial.
      intros j Hj. apply in_seq in Hj. unfold involves. simpl.
      destruct (Nat.eqb_spec i r); [lia |].
      destruct (Nat.eqb_spec j r); [lia |]. reflexivity. }
  rewrite Hafter, app_nil_r. f_equal.
  - rewrite <- flat_map_singleton. apply flat_map_ext_in.
    intros i Hi. apply in_seq in Hi.
    rewrite filter_map_pair. unfold involves. simpl.
    destruct (Nat.eqb_spec i r); [lia |]. simpl.
    rewrite filter_eqb_seq by lia. reflexivity.
  - rewrite filter_map_pair. f_equal. apply filter_all_true.
    intros j _. unfold involves. simpl. now rewrite Nat.eqb_refl.
Qed.

(** [N_l] of a pair is [N_g] of the reversed pair. *)
Lemma pairwise_outputs_mirror (self : FETADiscreteChoiceFunction.t)
    (x1 x2 : vec) :
  snd (FETADiscreteChoiceFunction.pairwise_outputs self x1 x2)
  = fst (FETADiscreteChoiceFunction.pairwise_outputs self x2 x1).
Proof.
  reflexivity.
Qed.

(** The rows the training graph fills are the rows of the score matrix
    of the prediction path. *)
Lemma first_order_rows_score_matrix (self : FETADiscreteChoiceFunction.t)
    (x : list vec) :
  FETADiscreteChoiceFunction.n_objects_fit_ self = length x ->
  FETADiscreteChoiceFunction.first_order_rows self x
  = FETADiscreteChoiceFunction.score_matrix self x.
Proof.
  intros Hn. rewrite feta_score_matrix.
  unfold FETADiscreteChoiceFunction.first_order_rows. rewrite Hn.
  rewrite repeat_nil_rows.
  rewrite (fold_rows
             (fun i j => FETADiscreteChoiceFunction.pairwise_outputs
                           self (obj x i) (obj x j))).
  2:{ intros [i j] Hij. apply combinations_In in Hij. simpl. lia. }
  apply map_ext_in. intros r Hr. apply in_seq in Hr.
  rewrite fold_row_entries.
  2:{ intros [i j] Hij. apply combinations_In in Hij. simpl. lia. }
  rewrite combinations_involving, competitors_split by lia.
  cbn [app]. rewrite !map_app, !map_map. f_equal.
  - apply map_ext_in. intros k Hk. apply in_seq in Hk.
    unfold entry. cbn [fst snd].
    destruct (Nat.eqb_spec k r); [lia |].
    unfold feta_pair_score. now rewrite <- pairwise_outputs_mirror.
  - apply map_ext. intros j. unfold entry. cbn [fst snd].
    now rewrite Nat.eqb_refl.
Qed.

Lemma mapM_keras_concatenate {A} (rows : list (list A)) :
  (forall row, In row rows -> 2 <= length row) ->
  mapM FETADiscreteChoiceFunction.keras_concatenate rows = Ok rows.
Proof.
  induction rows as [| row rows IH]; simpl; intros H; trivial.
  rewrite keras_concatenate_two by auto. simpl.
  rewrite IH by auto. reflexivity.
Qed.

(** Without a zeroth-order model, on query sets of the fitted size (at
    least three objects, as Keras' [concatenate] requires), the training
    graph and the pair-enumerating prediction return the same scores. *)
Theorem feta_paths_agree_without_zeroth_order
    (self : FETADiscreteChoiceFunction.t) (x : list vec) :
  FETADiscreteChoiceFunction.add_zeroth_order_model self = false ->
  FETADiscreteChoiceFunction.n_objects_fit_ self = length x ->
  3 <= length x ->
  FETADiscreteChoiceFunction.construct_model self x
  = FETADiscreteChoiceFunction.scores_of_instance self x.
Proof.
  intros Hzero Hn Hlen.
  unfold FETADiscreteChoiceFunction.construct_model,
    FETADiscreteChoiceFunction.scores_of_instance.
  rewrite Hzero, feta_first_order_scores by lia.
  rewrite first_order_rows_score_matrix, feta_score_matrix by trivial.
  cbn [bind]. rewrite mapM_keras_concatenate.
  2:{ intros row Hrow. apply in_map_iff in Hrow as (i & <- & Hi).
      apply in_seq in Hi.
      rewrite length_map, competitors_length by lia. lia. }
  cbn [bind]. rewrite map_map.
  rewrite keras_concatenate_two by (rewrite length_map, length_seq; lia).
  reflexivity.
Qed.

(** ** FETA with a zeroth-order model: the two paths agree *)

Lemma nth_map_seq (g : nat -> R) (n i : nat) :
  i < n -> nth i (map g (seq 0 n)) 0%R = g i.
Proof.
  intros Hi.
  rewrite (nth_indep _ 0%R (g 0)) by now rewrite length_map, length_seq.
  rewrite map_nth, seq_nth by trivial. reflexivity.
Qed.

Lemma nth_map_objects (g : vec -> R) (x : list vec) (i : nat) :
  i < length x -> nth i (map g x) 0%R = g (obj x i).
Proof.
  intros Hi.
  rewrite (nth_indep _ 0%R (g [])) by now rewrite length_map.
  now rewrite map_nth.
Qed.

(** With a zeroth-order model, on query sets of the fitted size, the
    two paths feed the learned weighted sum the same first-order score
    and the same linear zeroth-order output. *)
Theorem feta_paths_with_zeroth_order
    (self : FETADiscreteChoiceFunction.t) (x : list vec) :
  FETADiscreteChoiceFunction.add_zeroth_order_model self = true ->
  FETADiscreteChoiceFunction.n_objects_fit_ self = length x ->
  3 <= length x ->
  FETADiscreteChoiceFunction.construct_model self x
  = Ok (map (fun i =>
               sigmoid_unit (FETADiscreteChoiceFunction.weighted_sum self)
                 [first_order_score self x i;
                  FETADiscreteChoiceFunction.zeroth_order_output
                    self (obj x i)])
            (seq 0 (length x)))
  /\ FETADiscreteChoiceFunction.scores_of_instance self x
     = Ok (map (fun i =>
                  sigmoid_unit (FETADiscreteChoiceFunction.weighted_sum self)
                    [first_order_score self x i;
                     FETADiscreteChoiceFunction.zeroth_order_output
                       self (obj x i)])
               (seq 0 (length x))).
Proof.
  intros Hzero Hn Hlen. split.
  - unfold FETADiscreteChoiceFunction.construct_model.
    rewrite Hzero, Hn.
    rewrite keras_concatenate_two by (rewrite length_map, length_seq; lia).
    cbn [bind].
    rewrite first_order_rows_score_matrix, feta_score_matrix by trivial.
    rewrite mapM_keras_concatenate.
    2:{ intros row Hrow. apply in_map_iff in Hrow as (i & <- & Hi).
        apply in_seq in Hi.
        rewrite length_map, competitors_length by lia. lia. }
    cbn [bind]. rewrite map_map.
    rewrite keras_concatenate_two by (rewrite length_map, length_seq; lia).
    cbn [bind].
    rewrite keras_concatenate_two by (rewrite length_map, length_seq; lia).
    f_equal. apply map_ext_in. intros i Hi. apply in_seq in Hi.
    unfold concatenate. cbn [app].
    rewrite (nth_map_seq
               (fun i => FETADiscreteChoiceFunction.K_mean
                           (map (feta_pair_score self x i)
                                (competitors (length x) i)))) by lia.
    rewrite (nth_map_seq
               (fun i => FETADiscreteChoiceFunction.zeroth_order_output
                           self (obj x i))) by lia.
    reflexivity.
  - unfold FETADiscreteChoiceFunction.scores_of_instance.
    rewrite Hzero, feta_first_order_scores by lia. cbn [bind].
    unfold FETADiscreteChoiceFunction._create_weighted_model.
    rewrite keras_concatenate_two by (rewrite length_map, length_seq; lia).
    f_equal. apply map_ext_in. intros i Hi. apply in_seq in Hi.
    unfold concatenate. cbn [app].
    rewrite (nth_map_seq
               (fun i => arithmetic_mean
                           (map (feta_pair_score self x i)
                                (competitors (length x) i)))) by lia.
    rewrite nth_map_objects by lia.
    reflexivity.
Qed.

(** The scores of the training graph on a query set of the fitted size,
    of at least three objects. *)
Lemma feta_construct_model_scores (self : FETADiscreteChoiceFunction.t)
    (x : list vec) :
  FETADiscreteChoiceFunction.n_objects_fit_ self = length x ->
  3 <= length x ->
  FETADiscreteChoiceFunction.construct_model self x
  = Ok (map (fun i =>
               if FETADiscreteChoiceFunction.add_zeroth_order_model self
               then sigmoid_unit
                      (FETADiscreteChoiceFunction.weighted_sum self)
                      [first_order_score self x i;
                       FETADiscreteChoiceFunction.zeroth_order_output
                         self (obj x i)]
               else sigmoid (first_order_score self x i))
            (seq 0 (length x))).
Proof.
  intros Hn Hlen.
  destruct (FETADiscreteChoiceFunction.add_zeroth_order_model self) eqn:Hzero.
  - exact (proj1 (feta_paths_with_zeroth_order self x Hzero Hn Hlen)).
  - rewrite (feta_paths_agree_without_zeroth_order self x Hzero Hn Hlen).
    unfold FETADiscreteChoiceFunction.scores_of_instance.
    rewrite Hzero, feta_first_order_scores by lia.
    cbn [bind]. now rewrite map_map.
Qed.

(** On a query set of the fitted size, of at least three objects, the
    two paths return the same scores. *)
Lemma feta_paths_agree (self : FETADiscreteChoiceFunction.t) (x : list vec) :
  FETADiscreteChoiceFunction.n_objects_fit_ self = length x ->
  3 <= length x ->
  FETADiscreteChoiceFunction.scores_of_instance self x
  = FETADiscreteChoiceFunction.construct_model self x.
Proof.
  intros Hn Hlen.
  destruct (FETADiscreteChoiceFunction.add_zeroth_order_model self) eqn:Hzero.
  - destruct (feta_paths_with_zeroth_order self x Hzero Hn Hlen) as [-> ->].
    reflexivity.
  - symmetry. now apply feta_paths_agree_without_zeroth_order.
Qed.

(** The training graph exists for three objects or more: each row of
    pairwise outputs is concatenated, and so are the scores. *)
Lemma feta_training_graph_size (self : FETADiscreteChoiceFunction.t)
    (x : list vec) (s : list R) :
  FETADiscreteChoiceFunction.construct_model self x = Ok s ->
  3 <= FETADiscreteChoiceFunction.n_objects_fit_ self.
Proof.
  unfold FETADiscreteChoiceFunction.construct_model,
    FETADiscreteChoiceFunction.first_order_rows.
  destruct (FETADiscreteChoiceFunction.n_objects_fit_ self)
    as [| [| [| n]]]; [| | | lia];
    destruct (FETADiscreteChoiceFunction.add_zeroth_order_model self);
    intros H; discriminate H.
Qed.

Lemma mapM_ext_in {A B} (f g : A -> result B) (l : list A) :
  (forall a, In a l -> f a = g a) -> mapM f l = mapM g l.
Proof.
  induction l as [| a l IH]; simpl; intros H; trivial.
  rewrite H by auto. rewrite IH by auto. reflexivity.
Qed.

Lemma mapM_Ok_map {A B} (f : A -> result B) (g : A -> B) (l : list A) :
  (forall a, In a l -> f a = Ok (g a)) -> mapM f l = Ok (map g l).
Proof.
  induction l as [| a l IH]; simpl; intros H; trivial.
  rewrite H by auto. rewrite IH by auto. reflexivity.
Qed.

Lemma linear_unit_2 (w1 w2 b u v : R) :
  linear_unit (mkDense1 [w1; w2] b) [u; v] = (w1 * u + w2 * v + b)%R.
Proof.
  unfold linear_unit. cbn [dot kernel bias]. lra.
Qed.

(** Rewrites every [relu t] whose argument has a sign [lra] can see. *)
Ltac eval_relu :=
  repeat match goal with
         | |- context [relu ?t] =>
             first [ rewrite (@relu_nonneg t) by lra
                   | rewrite (@relu_nonpos t) by lra ]
         end.

(** Closes [Ok [sigmoid a; ...] = Ok [sigmoid a'; ...]] by arithmetic on
    the arguments. *)
Ltac equal_sigmoids :=
  apply f_equal;
  repeat (apply f_equal2; [apply f_equal; simpl INR; lra |]);
  reflexivity.

Ltac eval_feta :=
  cbn [FETADiscreteChoiceFunction.add_zeroth_order_model
       FETADiscreteChoiceFunction.n_objects_fit_ seq map bind mapM
       FETADiscreteChoiceFunction.keras_concatenate
       FETADiscreteChoiceFunction.zeroth_order_output
       FETADiscreteChoiceFunction.first_order_rows
       FETADiscreteChoiceFunction.first_order_scores
       FETADiscreteChoiceFunction.score_matrix
       FETADiscreteChoiceFunction.pairs
       FETADiscreteChoiceFunction._predict_pair
       FETADiscreteChoiceFunction._create_weighted_model
       FETADiscreteChoiceFunction.zero_order_model
       FETADiscreteChoiceFunction.hidden_layers
       FETADiscreteChoiceFunction.hidden_layers_zeroth
       FETADiscreteChoiceFunction.output_node
       FETADiscreteChoiceFunction.output_node_zeroth
       FETADiscreteChoiceFunction.weighted_sum
       FETADiscreteChoiceFunction.pairwise_outputs
       FETADiscreteChoiceFunction.append_at
       FETADiscreteChoiceFunction.K_mean
       Itertools.combinations Itertools.permutations Itertools.product2
       list_prod filter app fst snd negb Nat.eqb Nat.leb Nat.sub repeat
       fold_left combine reshape firstn skipn mean_axis1 mean
       obj nth through concatenate dense length sum sigmoid_unit].

Ltac eval_feta_instance :=
  eval_feta;
  unfold sigmoid_unit, FETADiscreteChoiceFunction.zero_order_model,
    FETADiscreteChoiceFunction.zeroth_order_output;
  eval_feta;
  rewrite ?linear_unit_2, ?linear_unit_1; eval_relu;
  rewrite ?linear_unit_2, ?linear_unit_1; eval_relu;
  unfold FETADiscreteChoiceFunction.K_mean; cbn [sum length].

Lemma feta_zeroth_training_graph :
  FETADiscreteChoiceFunction.construct_model feta_zeroth three_objects
  = Ok [sigmoid (2 + 2); sigmoid (1 + 1); sigmoid (0 + 0)].
Proof.
  unfold FETADiscreteChoiceFunction.construct_model, feta_zeroth,
    three_objects.
  eval_feta_instance. equal_sigmoids.
Qed.

(** C8.  On query sets of the size the FETA chooser was fitted on, the
    pair-enumerating prediction path returns the scores of the compiled
    training graph: whenever the training graph scores a query set, or
    a batch of query sets, the prediction path returns the same scores;
    and for a fitted size of three objects or more both paths do return
    scores, namely, for object [i], the sigmoid of the mean of row [i]
    of the pairwise score matrix, or, when [add_zeroth_order_model] is
    set, the learned weighted sum applied to that mean and to the
    zeroth-order output of the object. *)
Theorem C8_prediction_path_matches_training_graph :
  forall (self : FETADiscreteChoiceFunction.t),
    (forall (x : list vec) (s : list R),
        FETADiscreteChoiceFunction.n_objects_fit_ self = length x ->
        FETADiscreteChoiceFunction.construct_model self x = Ok s ->
        FETADiscreteChoiceFunction.scores_of_instance self x = Ok s)
    /\ (forall (X : batch) (S : list (list R)),
           Forall (fun x => FETADiscreteChoiceFunction.n_objects_fit_ self
                            = length x) X ->
           FETADiscreteChoiceFunction.model_predict self X = Ok S ->
           FETADiscreteChoiceFunction._predict_scores_using_pairs self X
           = Ok S)
    /\ (forall (X : batch),
           3 <= FETADiscreteChoiceFunction.n_objects_fit_ self ->
           Forall (fun x => FETADiscreteChoiceFunction.n_objects_fit_ self
                            = length x) X ->
           let S :=
             map (fun x =>
                    map (fun i =>
                           if FETADiscreteChoiceFunction.add_zeroth_order_model
                                self
                           then sigmoid_unit
                                  (FETADiscreteChoiceFunction.weighted_sum
                                     self)
                                  [first_order_score self x i;
                                   FETADiscreteChoiceFunction.zero_order_model
                                     self (obj x i)]
                           else sigmoid (first_order_score self x i))
                        (seq 0 (length x)))
                 X in
           FETADiscreteChoiceFunction.model_predict self X = Ok S
           /\ FETADiscreteChoiceFunction._predict_scores_using_pairs self X
              = Ok S).
Proof.
  intros self.
  assert (Hinstance :
            forall x s,
              FETADiscreteChoiceFunction.n_objects_fit_ self = length x ->
              FETADiscreteChoiceFunction.construct_model self x = Ok s ->
              FETADiscreteChoiceFunction.scores_of_instance self x = Ok s).
  { intros x s Hn Hs.
    pose proof (feta_training_graph_size self x Hs) as Hlen.
    rewrite feta_paths_agree by lia. exact Hs. }
  split; [exact Hinstance |]. split.
  - intros X. induction X as [| x X IH]; intros S HX HS.
    + exact HS.
    + inversion HX as [| ? ? Hx HX']; subst.
      unfold FETADiscreteChoiceFunction.model_predict in HS.
      unfold FETADiscreteChoiceFunction._predict_scores_using_pairs.
      cbn [mapM] in *.
      destruct (FETADiscreteChoiceFunction.construct_model self x)
        as [s | e] eqn:Es; [| discriminate HS].
      rewrite (Hinstance x s Hx Es). cbn [bind] in *.
      destruct (mapM (FETADiscreteChoiceFunction.construct_model self) X)
        as [S' | e] eqn:ES; [| discriminate HS].
      specialize (IH S' HX' ES).
      unfold FETADiscreteChoiceFunction._predict_scores_using_pairs in IH.
      rewrite IH. exact HS.
  - intros X Hfit HX S.
    assert (Htrain : FETADiscreteChoiceFunction.model_predict self X = Ok S).
    { unfold FETADiscreteChoiceFunction.model_predict. subst S.
      apply mapM_Ok_map. intros x Hx.
      rewrite Forall_forall in HX. specialize (HX x Hx).
      rewrite feta_construct_model_scores by lia. reflexivity. }
    split; [exact Htrain |].
    unfold FETADiscreteChoiceFunction._predict_scores_using_pairs.
    rewrite (mapM_ext_in (FETADiscreteChoiceFunction.scores_of_instance self)
                         (FETADiscreteChoiceFunction.construct_model self)).
    + exact Htrain.
    + intros x Hx. rewrite Forall_forall in HX. specialize (HX x Hx).
      apply feta_paths_agree; lia.
Qed.

(** ** The utility scores of the pairwise predictions *)

(** The scores the pair-enumerating prediction of the FETA chooser
    returns for a query set of at least two objects. *)
Lemma feta_scores_of_instance_scores (self : FETADiscreteChoiceFunction.t)
    (x : list vec) :
  2 <= length x ->
  FETADiscreteChoiceFunction.scores_of_instance self x
  = Ok (map (fun i =>
               if FETADiscreteChoiceFunction.add_zeroth_order_model self
               then sigmoid_unit
                      (FETADiscreteChoiceFunction.weighted_sum self)
                      [first_order_score self x i;
                       FETADiscreteChoiceFunction.zero_order_model
                         self (obj x i)]
               else sigmoid (first_order_score self x i))
            (seq 0 (length x))).
Proof.
  intros Hlen. unfold FETADiscreteChoiceFunction.scores_of_instance.
  rewrite feta_first_order_scores by lia. cbn [bind].
  destruct (FETADiscreteChoiceFunction.add_zeroth_order_model self).
  - unfold FETADiscreteChoiceFunction._create_weighted_model.
    rewrite keras_concatenate_two by (rewrite length_map, length_seq; lia).
    f_equal. apply map_ext_in. intros i Hi. apply in_seq in Hi.
    unfold concatenate. cbn [app].
    rewrite (nth_map_seq
               (fun i => arithmetic_mean
                           (map (feta_pair_score self x i)
                                (competitors (length x) i)))) by lia.
    rewrite nth_map_objects by lia.
    reflexivity.
  - now rewrite map_map.
Qed.

(** C4, as stated, fails for the FETA chooser: the utility score it
    returns for an object is not the arithmetic mean of the object's
    row of the score matrix.  On the three objects 2, 1, 0 the rows are
    [2; 2], [1; 1] and [0; 0]; without a zeroth-order model the scores
    returned are the sigmoids of the row means, and with one they are
    the learned weighted sum of the row mean and the zeroth-order
    output; the score of the first object is below 1 and the mean of
    its row is 2. *)
Lemma C4_counterexample :
  FETADiscreteChoiceFunction.score_matrix feta_first_order three_objects
  = [[2; 2]; [1; 1]; [0; 0]]%R
  /\ FETADiscreteChoiceFunction._predict_scores_using_pairs
       feta_first_order [three_objects]
     = Ok [[sigmoid 2; sigmoid 1; sigmoid 0]]
  /\ FETADiscreteChoiceFunction.score_matrix feta_zeroth three_objects
     = [[2; 2]; [1; 1]; [0; 0]]%R
  /\ FETADiscreteChoiceFunction._predict_scores_using_pairs
       feta_zeroth [three_objects]
     = Ok [[sigmoid (2 + 2); sigmoid (1 + 1); sigmoid (0 + 0)]]
  /\ sigmoid 2 <> arithmetic_mean [2; 2]%R
  /\ sigmoid (2 + 2) <> arithmetic_mean [2; 2]%R.
Proof.
  assert (Hmean : arithmetic_mean [2; 2]%R = 2%R).
  { unfold arithmetic_mean. cbn [sum length]. simpl INR. lra. }
  split; [| split; [| split; [| split; [| split]]]].
  - unfold FETADiscreteChoiceFunction.score_matrix, feta_first_order,
      three_objects.
    eval_feta_instance.
    repeat (apply f_equal2; [repeat (apply f_equal2; [lra |]); reflexivity |]).
    reflexivity.
  - unfold FETADiscreteChoiceFunction._predict_scores_using_pairs,
      FETADiscreteChoiceFunction.scores_of_instance, feta_first_order,
      three_objects.
    eval_feta_instance. apply f_equal. apply (f_equal (fun s => [s])).
    repeat (apply f_equal2; [apply f_equal; simpl INR; lra |]).
    reflexivity.
  - unfold FETADiscreteChoiceFunction.score_matrix, feta_zeroth,
      three_objects.
    eval_feta_instance.
    repeat (apply f_equal2; [repeat (apply f_equal2; [lra |]); reflexivity |]).
    reflexivity.
  - unfold FETADiscreteChoiceFunction._predict_scores_using_pairs,
      FETADiscreteChoiceFunction.scores_of_instance, feta_zeroth,
      three_objects.
    eval_feta_instance. apply f_equal. apply (f_equal (fun s => [s])).
    repeat (apply f_equal2; [apply f_equal; simpl INR; lra |]).
    reflexivity.
  - rewrite Hmean. pose proof (sigmoid_lt_1 2). lra.
  - rewrite Hmean. pose proof (sigmoid_lt_1 (2 + 2)). lra.
Qed.

(** Scores are returned only for query sets with a pair of objects. *)
Lemma cmpnet_scores_need_two_objects (self : CmpNetCore.t) (x : list vec)
    (s : list R) :
  CmpNetCore.scores_of_instance self x = Ok s -> 2 <= length x.
Proof.
  destruct x as [| a [| b x]]; intros H;
    [discriminate H | discriminate H | simpl; lia].
Qed.

Lemma feta_scores_need_two_objects (self : FETADiscreteChoiceFunction.t)
    (x : list vec) (s : list R) :
  FETADiscreteChoiceFunction.scores_of_instance self x = Ok s ->
  2 <= length x.
Proof.
  destruct x as [| a [| b x]]; intros H;
    [discriminate H | discriminate H | simpl; lia].
Qed.

Lemma mapM_Ok_map_inv {A B} (f : A -> result B) (g : A -> B) (l : list A)
    (r : list B) :
  (forall a b, In a l -> f a = Ok b -> b = g a) ->
  mapM f l = Ok r -> r = map g l.
Proof.
  revert r. induction l as [| a l IH]; simpl; intros r H Hr.
  - now inversion Hr.
  - destruct (f a) as [b | e] eqn:Eb; [| discriminate Hr]. cbn [bind] in Hr.
    destruct (mapM f l) as [bs | e] eqn:Ebs; [| discriminate Hr].
    cbn [bind] in Hr. inversion Hr; subst.
    f_equal; [apply H; auto | apply IH; auto].
Qed.

(** C4, amended.  For a query set of [n] objects the pairwise
    prediction of the CmpNet core and of the FETA chooser enumerates
    exactly the [n * (n - 1)] ordered pairs of distinct indices, each
    once, in the lexicographic order of the index tuples; row [i] of
    the reshaped score matrix holds the [n - 1] scores of object [i]
    against each other object, in index order.  The scores
    [CmpNetCore._predict_scores_fixed] returns for a batch are, for
    object [i] of each query set, the arithmetic mean of row [i]; the
    scores [FETADiscreteChoiceFunction._predict_scores_using_pairs]
    returns are the sigmoid of that mean, or, when
    [add_zeroth_order_model] is set, the learned weighted sum applied
    to that mean and to the zeroth-order score of the object.  Both
    return scores for every batch of query sets of at least two
    objects. *)
Theorem C4_pairwise_score_matrix :
  forall (cmp : CmpNetCore.t) (feta : FETADiscreteChoiceFunction.t),
    (forall x : list vec,
        let n := length x in
        length (Itertools.permutations n) = n * (n - 1)
        /\ NoDup (Itertools.permutations n)
        /\ (forall i j,
               In (i, j) (Itertools.permutations n)
               <-> i < n /\ j < n /\ i <> j)
        /\ Itertools.permutations n
           = flat_map (fun i => map (pair i) (competitors n i)) (seq 0 n)
        /\ (forall i, i < n ->
               competitors n i = seq 0 i ++ seq (S i) (n - S i)
               /\ length (competitors n i) = n - 1)
        /\ CmpNetCore.score_matrix cmp x
           = map (fun i => map (cmpnet_pair_score cmp x i) (competitors n i))
                 (seq 0 n)
        /\ FETADiscreteChoiceFunction.score_matrix feta x
           = map (fun i => map (feta_pair_score feta x i) (competitors n i))
                 (seq 0 n)
        /\ (2 <= n ->
            CmpNetCore.scores_of_instance cmp x
            = Ok (map (fun i => arithmetic_mean
                                  (map (cmpnet_pair_score cmp x i)
                                       (competitors n i)))
                      (seq 0 n))
            /\ FETADiscreteChoiceFunction.first_order_scores feta x
               = Ok (map (fun i => arithmetic_mean
                                     (map (feta_pair_score feta x i)
                                          (competitors n i)))
                         (seq 0 n))))
    /\ (forall X : batch,
           let cmpnet_scores :=
             map (fun x =>
                    map (fun i =>
                           arithmetic_mean
                             (map (cmpnet_pair_score cmp x i)
                                  (competitors (length x) i)))
                        (seq 0 (length x)))
                 X in
           let feta_scores :=
             map (fun x =>
                    map (fun i =>
                           let row_mean :=
                             arithmetic_mean
                               (map (feta_pair_score feta x i)
                                    (competitors (length x) i)) in
                           if FETADiscreteChoiceFunction.add_zeroth_order_model
                                feta
                           then sigmoid_unit
                                  (FETADiscreteChoiceFunction.weighted_sum
                                     feta)
                                  [row_mean;
                                   FETADiscreteChoiceFunction.zero_order_model
                                     feta (obj x i)]
                           else sigmoid row_mean)
                        (seq 0 (length x)))
                 X in
           (forall S, CmpNetCore._predict_scores_fixed cmp X = Ok S ->
                      S = cmpnet_scores)
           /\ (forall S,
                  FETADiscreteChoiceFunction._predict_scores_using_pairs
                    feta X = Ok S ->
                  S = feta_scores)
           /\ (Forall (fun x => 2 <= length x) X ->
               CmpNetCore._predict_scores_fixed cmp X = Ok cmpnet_scores
               /\ FETADiscreteChoiceFunction._predict_scores_using_pairs
                    feta X
                  = Ok feta_scores)).
Proof.
  intros cmp feta. split.
  - intros x n. subst n.
    split; [apply permutations_length |].
    split; [apply permutations_NoDup |].
    split; [intros i j; apply permutations_In |].
    split; [apply permutations_by_rows |].
    split.
    { intros i Hi. split.
      - now apply competitors_split.
      - now apply competitors_length. }
    split; [apply cmpnet_score_matrix |].
    split; [apply feta_score_matrix |].
    intros Hn. split.
    + now apply cmpnet_scores_of_instance.
    + now apply feta_first_order_scores.
  - intros X cmpnet_scores feta_scores.
    split; [| split].
    + intros S. unfold CmpNetCore._predict_scores_fixed.
      apply mapM_Ok_map_inv. intros x s _ Hs.
      pose proof (cmpnet_scores_need_two_objects _ _ Hs) as Hlen.
      rewrite cmpnet_scores_of_instance in Hs by trivial.
      now inversion Hs.
    + intros S.
      unfold FETADiscreteChoiceFunction._predict_scores_using_pairs.
      apply mapM_Ok_map_inv. intros x s _ Hs.
      pose proof (feta_scores_need_two_objects _ _ Hs) as Hlen.
      rewrite feta_scores_of_instance_scores in Hs by trivial.
      now inversion Hs.
    + intros HX. rewrite Forall_forall in HX. split.
      * unfold CmpNetCore._predict_scores_fixed.
        apply mapM_Ok_map. intros x Hx.
        apply cmpnet_scores_of_instance. now apply HX.
      * unfold FETADiscreteChoiceFunction._predict_scores_using_pairs.
        apply mapM_Ok_map. intros x Hx.
        rewrite feta_scores_of_instance_scores by now apply HX.
        reflexivity.
Qed.

(** ** Constructor keyword arguments *)












(** ** The threshold tuner *)

Lemma Qgtb_true (a b : Q) : ThresholdTuner.Qgtb a b = true <-> (b < a)%Q.
Proof.
  unfold ThresholdTuner.Qgtb. rewrite negb_true_iff.
  split.
  - intros H. apply Qnot_le_lt. intros Hle.
    apply Qle_bool_iff in Hle. congruence.
  - intros H. destruct (Qle_bool a b) eqn:E; trivial.
    apply Qle_bool_iff in E. apply Qlt_not_le in H. contradiction.
Qed.

Lemma Qgtb_false (a b : Q) : ThresholdTuner.Qgtb a b = false <-> (a <= b)%Q.
Proof.
  unfold ThresholdTuner.Qgtb. rewrite negb_false_iff. apply Qle_bool_iff.
Qed.

Section TunerFacts.

Variable score : Type.
Variable ltb : score -> score -> bool.
Variable zero : score.
Variable labels : Type.
Variable f1_score : labels -> list (list bool) -> Q.

(** [ltb] decides a strict total order. *)
Hypothesis ltb_irrefl : forall a, ltb a a = false.
Hypothesis ltb_trans :
  forall a b c, ltb a b = true -> ltb b c = true -> ltb a c = true.
Hypothesis ltb_total :
  forall a b, ltb a b = false -> ltb b a = false -> a = b.

Lemma insert_unique_In (x y : score) (l : list score) :
  In y (ThresholdTuner.insert_unique ltb x l) <-> y = x \/ In y l.
Proof.
  induction l as [| z l IH]; simpl.
  - intuition congruence.
  - destruct (ltb x z) eqn:Exz; simpl.
    + intuition congruence.
    + destruct (ltb z x) eqn:Ezx; simpl.
      * rewrite IH. intuition congruence.
      * assert (x = z) by now apply ltb_total.
        subst. intuition congruence.
Qed.

Lemma insert_unique_sorted (x : score) (l : list score) :
  StronglySorted (lt ltb) l ->
  StronglySorted (lt ltb) (ThresholdTuner.insert_unique ltb x l).
Proof.
  induction 1 as [| z l Hl IH Hz]; simpl.
  - repeat constructor.
  - destruct (ltb x z) eqn:Exz.
    + constructor; [now constructor |].
      constructor; trivial.
      rewrite Forall_forall in *. intros v Hv.
      apply ltb_trans with z; auto. now apply Hz.
    + destruct (ltb z x) eqn:Ezx.
      * constructor; trivial.
        rewrite Forall_forall in *. intros v Hv.
        apply insert_unique_In in Hv as [-> | Hv]; trivial.
        now apply Hz.
      * now constructor.
Qed.

Lemma unique_sorted (scores : list (list score)) :
  StronglySorted (lt ltb) (ThresholdTuner.unique ltb scores).
Proof.
  unfold ThresholdTuner.unique.
  induction (concat scores) as [| x l IH]; simpl.
  - constructor.
  - now apply insert_unique_sorted.
Qed.

Lemma unique_In (scores : list (list score)) (v : score) :
  In v (ThresholdTuner.unique ltb scores) <-> In v (concat scores).
Proof.
  unfold ThresholdTuner.unique.
  induction (concat scores) as [| x l IH]; simpl.
  - tauto.
  - rewrite insert_unique_In, IH. intuition congruence.
Qed.

Lemma sorted_NoDup (l : list score) : StronglySorted (lt ltb) l -> NoDup l.
Proof.
  induction 1 as [| z l Hl IH Hz]; constructor; trivial.
  intros Hin. rewrite Forall_forall in Hz.
  specialize (Hz z Hin). unfold lt in Hz.
  rewrite ltb_irrefl in Hz. discriminate.
Qed.

Lemma every_nth_error (step skip i : nat) (a : list score) :
  1 <= step ->
  nth_error (ThresholdTuner.every step skip a) i
  = nth_error a (skip + i * step).
Proof.
  intros Hstep. revert skip i.
  induction a as [| x a IH]; intros skip i; simpl.
  - destruct i; destruct (skip + _); reflexivity.
  - destruct skip as [| skip'].
    + destruct i as [| i']; simpl; trivial.
      rewrite IH.
      replace (step + i' * step) with (S (step - 1 + i' * step)) by lia.
      reflexivity.
    + rewrite IH. reflexivity.
Qed.

Lemma every_In (step skip : nat) (a : list score) (v : score) :
  In v (ThresholdTuner.every step skip a) -> In v a.
Proof.
  revert skip. induction a as [| x a IH]; intros skip; simpl; trivial.
  destruct skip; simpl; intros H.
  - destruct H; eauto.
  - eauto.
Qed.

Lemma every_sorted (step skip : nat) (a : list score) :
  StronglySorted (lt ltb) a -> StronglySorted (lt ltb) (ThresholdTuner.every step skip a).
Proof.
  intros Ha. revert skip.
  induction Ha as [| x a Ha IH Hx]; intros skip; simpl.
  - constructor.
  - destruct skip; trivial.
    constructor; trivial.
    rewrite Forall_forall in *. intros v Hv.
    apply Hx. eapply every_In; eauto.
Qed.

Lemma tune_loop_first_maximum (Y_val : labels) (scores : list (list score))
    (probs : list score) :
  exists t,
    fold_left (ThresholdTuner.tune_step ltb f1_score Y_val scores) probs
              (zero, F1_at ltb f1_score Y_val scores zero)
    = (t, F1_at ltb f1_score Y_val scores t)
    /\ first_maximum ltb f1_score Y_val scores (zero :: probs) t.
Proof.
  induction probs as [| p probs IH] using rev_ind.
  - exists zero. split; trivial.
    exists [], []. split; [| split]; simpl; tauto.
  - destruct IH as (t & Hfold & earlier & later & Hsplit & Hearlier & Hlater).
    rewrite fold_left_app, Hfold. simpl.
    fold (F1_at ltb f1_score Y_val scores p).
    destruct (ThresholdTuner.Qgtb (F1_at ltb f1_score Y_val scores p)
                                  (F1_at ltb f1_score Y_val scores t)) eqn:E.
    + apply Qgtb_true in E.
      exists p. split; trivial.
      exists (zero :: probs), []. split; [| split].
      * reflexivity.
      * intros c Hc. rewrite Hsplit in Hc.
        apply in_app_or in Hc as [Hc | [<- | Hc]]; trivial.
        -- eapply Qlt_trans; eauto.
        -- eapply Qle_lt_trans; eauto.
      * simpl; tauto.
    + apply Qgtb_false in E.
      exists t. split; trivial.
      exists earlier, (later ++ [p]). split; [| split]; trivial.
      * change (zero :: probs ++ [p]) with ((zero :: probs) ++ [p]).
        rewrite Hsplit, <- app_assoc. reflexivity.
      * intros c Hc. apply in_app_or in Hc as [Hc | [<- | []]]; auto.
Qed.

Lemma first_maximum_In (Y_val : labels) (scores : list (list score))
    (candidates : list score) (t : score) :
  first_maximum ltb f1_score Y_val scores candidates t ->
  In t candidates
  /\ forall c, In c candidates ->
               (F1_at ltb f1_score Y_val scores c <= F1_at ltb f1_score Y_val scores t)%Q.
Proof.
  intros (earlier & later & -> & Hearlier & Hlater). split.
  - apply in_or_app. right. now left.
  - intros c Hc. apply in_app_or in Hc as [Hc | [<- | Hc]]; auto.
    + now apply Qlt_le_weak, Hearlier.
    + apply Qle_refl.
Qed.

Lemma tune_loop_keeps_baseline (Y_val : labels) (scores : list (list score))
    (probs : list score) (t : score) (best : Q) :
  (forall p, In p probs -> ~ (best < F1_at ltb f1_score Y_val scores p)%Q) ->
  fold_left (ThresholdTuner.tune_step ltb f1_score Y_val scores) probs
            (t, best)
  = (t, best).
Proof.
  clear ltb_irrefl ltb_trans ltb_total.
  induction probs as [| p probs IH]; simpl; intros H; trivial.
  fold (F1_at ltb f1_score Y_val scores p).
  destruct (ThresholdTuner.Qgtb (F1_at ltb f1_score Y_val scores p) best) eqn:E.
  - apply Qgtb_true in E. exfalso. apply (H p); auto.
  - apply IH. intros q Hq. apply H. auto.
Qed.

End TunerFacts.

Lemma Rltb_true (a b : R) : ChoiceFunction.Rltb a b = true <-> (a < b)%R.
Proof.
  unfold ChoiceFunction.Rltb. destruct (Rlt_dec a b); intuition congruence.
Qed.

Lemma Rltb_irrefl (a : R) : ChoiceFunction.Rltb a a = false.
Proof.
  destruct (ChoiceFunction.Rltb a a) eqn:E; trivial.
  apply Rltb_true in E. lra.
Qed.

Lemma Rltb_trans (a b c : R) :
  ChoiceFunction.Rltb a b = true -> ChoiceFunction.Rltb b c = true ->
  ChoiceFunction.Rltb a c = true.
Proof.
  rewrite !Rltb_true. lra.
Qed.

Lemma Rltb_total (a b : R) :
  ChoiceFunction.Rltb a b = false -> ChoiceFunction.Rltb b a = false -> a = b.
Proof.
  unfold ChoiceFunction.Rltb.
  destruct (Rlt_dec a b), (Rlt_dec b a); intros; try discriminate. lra.
Qed.

Lemma sorted_Rlt (l : list R) :
  StronglySorted (lt ChoiceFunction.Rltb) l -> StronglySorted Rlt l.
Proof.
  induction 1 as [| x l Hl IH Hx]; constructor; trivial.
  eapply Forall_impl; [| exact Hx].
  intros v Hv. now apply Rltb_true.
Qed.

(** The comparison the tuner makes is [scores > candidate]. *)
Lemma greater_scores_above (scores : list (list R)) (candidate : R) :
  ThresholdTuner.greater ChoiceFunction.Rltb scores candidate
  = scores_above candidate scores.
Proof.
  unfold ThresholdTuner.greater, scores_above.
  apply map_ext. intros row. apply map_ext. intros v.
  unfold ChoiceFunction.Rltb.
  destruct (Rlt_dec candidate v), (Rgt_dec v candidate); trivial;
    unfold Rgt in *; contradiction.
Qed.

(** C2.  On the scores predicted for [X_val], with a stride
    [thin_thresholds >= 1], the candidates of [_tune_threshold] are 0.0
    followed by the ascending, duplicate-free predicted scores taken at
    positions 0, stride, 2 stride, ..., in ascending order; with the F1
    of a candidate measured between [scores > candidate] and [Y_val],
    the threshold returned is a
    candidate whose sample-averaged F1 no candidate exceeds, and the
    first such candidate in the order of evaluation (every earlier one
    is strictly worse); if no candidate beats the F1 of 0.0 strictly,
    0.0 is returned. *)
Theorem C2_tune_threshold :
  forall (net labels : Type)
         (_predict_scores_fixed
          : batch -> net -> result (list (list R)) * net)
         (f1_score : labels -> list (list bool) -> Q)
         (X_val : batch) (Y_val : labels) (thin_thresholds : nat)
         (s s' : ChoiceFunction.t net) (scores : list (list R)),
    1 <= thin_thresholds ->
    ChoiceFunction.predict_scores _predict_scores_fixed
      (Learner.Array X_val) s
    = (Ok (Learner.ScoresArray scores), s') ->
    let sorted_scores := ThresholdTuner.unique ChoiceFunction.Rltb scores in
    let F1 := fun candidate : R =>
                f1_score Y_val (scores_above candidate scores) in
    exists probs t,
      ThresholdTuner.slice_step sorted_scores thin_thresholds = Ok probs
      /\ StronglySorted Rlt sorted_scores
      /\ (forall v, In v sorted_scores <-> In v (concat scores))
      /\ (forall i,
             nth_error probs i = nth_error sorted_scores (i * thin_thresholds))
      /\ StronglySorted Rlt probs
      /\ ChoiceFunction._tune_threshold _predict_scores_fixed f1_score
           X_val Y_val thin_thresholds s
         = (Ok t, s')
      /\ In t (0%R :: probs)
      /\ (forall c, In c (0%R :: probs) -> (F1 c <= F1 t)%Q)
      /\ (exists earlier later,
             0%R :: probs = earlier ++ t :: later
             /\ (forall c, In c earlier -> (F1 c < F1 t)%Q)
             /\ (forall c, In c later -> (F1 c <= F1 t)%Q))
      /\ ((forall p, In p probs -> ~ (F1 0%R < F1 p)%Q) -> t = 0%R).
Proof.
  intros net labels fixed f1_score X_val Y_val thin s s' scores Hthin Hscores
         sorted_scores F1.
  assert (HF1 : forall c,
             F1 c = F1_at ChoiceFunction.Rltb f1_score Y_val scores c).
  { intros c. unfold F1, F1_at. now rewrite greater_scores_above. }
  destruct thin as [| k]; [lia |].
  set (probs := ThresholdTuner.every (S k) 0 sorted_scores).
  destruct (@tune_loop_first_maximum R ChoiceFunction.Rltb 0%R labels
              f1_score Y_val scores probs) as (t & Hfold & Hfirst).
  exists probs, t.
  split; [reflexivity |].
  split.
  { apply sorted_Rlt, unique_sorted.
    - intros a b c. apply Rltb_trans.
    - intros a b. apply Rltb_total. }
  split.
  { intros v. apply unique_In. intros a b. apply Rltb_total. }
  split.
  { intros i. unfold probs. rewrite every_nth_error by lia. reflexivity. }
  split.
  { apply sorted_Rlt. unfold probs. apply every_sorted, unique_sorted.
    - intros a b c. apply Rltb_trans.
    - intros a b. apply Rltb_total. }
  split.
  { unfold ChoiceFunction._tune_threshold. rewrite Hscores.
    unfold ThresholdTuner.tune. cbn [ThresholdTuner.slice_step bind].
    fold sorted_scores. fold probs.
    change (f1_score Y_val (ThresholdTuner.greater ChoiceFunction.Rltb
                                                    scores 0%R))
      with (F1_at ChoiceFunction.Rltb f1_score Y_val scores 0%R).
    rewrite Hfold. reflexivity. }
  destruct (first_maximum_In Hfirst) as [Hin Hmax].
  split; trivial.
  split.
  { intros c Hc. rewrite !HF1. now apply Hmax. }
  split.
  { destruct Hfirst as (earlier & later & Hsplit & Hearlier & Hlater).
    exists earlier, later. split; [exact Hsplit |].
    split; intros c Hc; rewrite !HF1; auto. }
  intros Hnone.
  assert (Hnone' : forall p, In p probs ->
                     ~ (F1_at ChoiceFunction.Rltb f1_score Y_val scores 0%R
                        < F1_at ChoiceFunction.Rltb f1_score Y_val scores p)%Q).
  { intros p Hp. rewrite <- !HF1. now apply Hnone. }
  assert (Hkeep := @tune_loop_keeps_baseline R ChoiceFunction.Rltb labels
                     f1_score Y_val scores probs 0%R
                     (F1_at ChoiceFunction.Rltb f1_score Y_val scores 0%R)
                     Hnone').
  rewrite Hkeep in Hfold. congruence.
Qed.

(** ** [fit] of the choice-function variants *)

Section ChoiceFitFacts.

Variable net : Type.
Variable labels : Type.
Variable _predict_scores_fixed
  : batch -> net -> result (list (list R)) * net.
Variable super_fit : batch -> labels -> net -> result unit * net.
Variable train_test_split
  : batch -> labels -> Q -> result (batch * batch * labels * labels).
Variable f1_score : labels -> list (list bool) -> Q.

(** The tuner reads the scores and changes neither the threshold nor
    the record of calls. *)
Lemma tune_threshold_frame (X_val : batch) (Y_val : labels) (thin : nat)
    (s s' : ChoiceFunction.t net) (r : result R) :
  ChoiceFunction._tune_threshold _predict_scores_fixed f1_score
    X_val Y_val thin s = (r, s') ->
  ChoiceFunction.threshold s' = ChoiceFunction.threshold s
  /\ ChoiceFunction.calls s' = ChoiceFunction.calls s.
Proof.
  unfold ChoiceFunction._tune_threshold, ChoiceFunction.predict_scores,
    Learner.predict_scores, ChoiceFunction.lifted_predict_scores_fixed.
  destruct (_predict_scores_fixed X_val (ChoiceFunction.core s))
    as [[sc | e] c]; intros H; inversion H; subst; simpl; auto.
Qed.

(** With [tune_size = 0], [fit] is the fit of the core followed by the
    assignment of 0.5: neither the split nor the tuner takes part. *)
Lemma fit_without_tuning (X : batch) (Y : labels) (thin : nat)
    (s : ChoiceFunction.t net) :
  ChoiceFunction.fit _predict_scores_fixed super_fit train_test_split
                     f1_score X Y 0%Q thin s
  = match super_fit X Y (ChoiceFunction.core s) with
    | (Ok _, c) =>
        (Ok tt,
         ChoiceFunction.mk c (Some (1 / 2)%R)
                           (ChoiceFunction.calls s
                            ++ [ChoiceFunction.SuperFit]))
    | (Raise e, c) =>
        (Raise e,
         ChoiceFunction.mk c (ChoiceFunction.threshold s)
                           (ChoiceFunction.calls s
                            ++ [ChoiceFunction.SuperFit]))
    end.
Proof.
  unfold ChoiceFunction.fit.
  change (ThresholdTuner.Qgtb 0 0) with false. cbv iota.
  destruct (super_fit X Y (ChoiceFunction.core s)) as [[[] | e] c];
    reflexivity.
Qed.

(** With [tune_size > 0] and a core fit that raises [e], the tuner runs
    on the tuning split; its outcome decides what leaves [fit]. *)
Lemma fit_finally (X : batch) (Y : labels) (tune_size : Q) (thin : nat)
    (s : ChoiceFunction.t net) (X_train X_val : batch)
    (Y_train Y_val : labels) (r : result unit) (c : net) :
  ThresholdTuner.Qgtb tune_size 0 = true ->
  train_test_split X Y tune_size = Ok (X_train, X_val, Y_train, Y_val) ->
  super_fit X_train Y_train (ChoiceFunction.core s) = (r, c) ->
  ChoiceFunction.fit _predict_scores_fixed super_fit train_test_split
                     f1_score X Y tune_size thin s
  = match ChoiceFunction._tune_threshold _predict_scores_fixed f1_score
            X_val Y_val thin
            (ChoiceFunction.mk c (ChoiceFunction.threshold s)
               (ChoiceFunction.calls s
                ++ [ChoiceFunction.TrainTestSplit; ChoiceFunction.SuperFit;
                    ChoiceFunction.TuneThreshold])) with
    | (Ok p, s') => (r, ChoiceFunction.set_threshold s' p)
    | (Raise e', s') => (Raise e', s')
    end.
Proof.
  intros Htune Hsplit Hfit. unfold ChoiceFunction.fit.
  rewrite Htune, Hsplit. cbn [ChoiceFunction.record ChoiceFunction.core].
  rewrite Hfit.
  unfold ChoiceFunction.record, ChoiceFunction.set_core.
  cbn [ChoiceFunction.core ChoiceFunction.threshold ChoiceFunction.calls].
  rewrite <- !app_assoc. reflexivity.
Qed.

End ChoiceFitFacts.

(** C6.  For both choice-function variants, [fit] with [tune_size = 0]
    fits the core on all the data and, when that returns, sets the
    threshold to exactly 0.5; it makes no train/validation split and no
    call to the threshold tuner: its result does not depend on them and
    the only call it records is the fit of the core. *)
Theorem C6_fit_without_tuning :
  forall (net labels pairwise_data : Type)
         (_predict_scores_fixed
          : batch -> net -> result (list (list R)) * net)
         (super_fit : batch -> labels -> net -> result unit * net)
         (train_test_split
          : batch -> labels -> Q -> result (batch * batch * labels * labels))
         (f1_score : labels -> list (list bool) -> Q)
         (initial_hidden : nat -> layer) (initial_output : Dense1)
         (_convert_instances_ : batch -> labels -> result pairwise_data)
         (keras_fit : pairwise_data -> list layer -> Dense1 ->
                      (list layer * Dense1) * result unit),
    fits_without_tuning
      (FETAChoiceFunction.fit _predict_scores_fixed super_fit
                              train_test_split f1_score)
      super_fit
    /\ fits_without_tuning
         (RankNetChoiceFunction.fit initial_hidden initial_output
                                    _convert_instances_ keras_fit
                                    train_test_split f1_score)
         (RankNetCore.fit initial_hidden initial_output
                          _convert_instances_ keras_fit)
    /\ (forall X Y thin_thresholds s c,
           super_fit X Y (ChoiceFunction.core s) = (Ok tt, c) ->
           let outcome :=
             FETAChoiceFunction.fit _predict_scores_fixed super_fit
               train_test_split f1_score X Y 0%Q thin_thresholds s in
           fst outcome = Ok tt
           /\ ChoiceFunction.threshold (snd outcome) = Some (1 / 2)%R
           /\ ChoiceFunction.calls (snd outcome)
              = ChoiceFunction.calls s ++ [ChoiceFunction.SuperFit])
    /\ (forall X Y thin_thresholds s c,
           RankNetCore.fit initial_hidden initial_output
             _convert_instances_ keras_fit X Y (ChoiceFunction.core s)
           = (Ok tt, c) ->
           let outcome :=
             RankNetChoiceFunction.fit initial_hidden initial_output
               _convert_instances_ keras_fit train_test_split f1_score
               X Y 0%Q thin_thresholds s in
           fst outcome = Ok tt
           /\ ChoiceFunction.threshold (snd outcome) = Some (1 / 2)%R
           /\ ChoiceFunction.calls (snd outcome)
              = ChoiceFunction.calls s ++ [ChoiceFunction.SuperFit]).
Proof.
  intros. split; [| split; [| split]].
  - intros X Y thin s. apply fit_without_tuning.
  - intros X Y thin s. apply fit_without_tuning.
  - intros X Y thin s c Hfit outcome. subst outcome.
    unfold FETAChoiceFunction.fit.
    rewrite fit_without_tuning, Hfit. simpl. auto.
  - intros X Y thin s c Hfit outcome. subst outcome.
    unfold RankNetChoiceFunction.fit.
    rewrite fit_without_tuning, Hfit. simpl. auto.
Qed.

(** ** The exception that leaves [fit] *)

(** C5, as stated, fails.  On a fresh RankNet choice function whose
    core fit raises the [ValueError] of the conversion, the tuner runs
    in [finally], asks for the scores, finds no [hidden_layers] and
    raises [AttributeError]; that exception leaves [fit], not the
    original one. *)
Lemma C5_counterexample :
  RankNetChoiceFunction.__init__ [] 2 [] = Ok fresh_ranknet_choice
  /\ hold_out_last ten_queries ten_choices (1 # 10)%Q
     = Ok (removelast ten_queries, [three_objects],
           removelast ten_choices, [[true; false; false]])
  /\ fst (RankNetCore.fit (fun _ x => x) (mkDense1 [] 0%R) failing_convert
                          toy_keras_fit (removelast ten_queries)
                          (removelast ten_choices)
                          (ChoiceFunction.core fresh_ranknet_choice))
     = Raise (ValueError "cannot convert the instances")
  /\ fst (RankNetChoiceFunction.fit (fun _ x => x) (mkDense1 [] 0%R)
            failing_convert toy_keras_fit hold_out_last Sklearn.f1_score
            ten_queries ten_choices (1 # 10)%Q 1 fresh_ranknet_choice)
     = Raise (AttributeError "hidden_layers").
Proof.
  repeat split.
Qed.

Lemma choice_fit_tunes_before_raising (net labels : Type)
    (_predict_scores_fixed : batch -> net -> result (list (list R)) * net)
    (super_fit : batch -> labels -> net -> result unit * net)
    (train_test_split
     : batch -> labels -> Q -> result (batch * batch * labels * labels))
    (f1_score : labels -> list (list bool) -> Q) :
  tunes_before_raising
    (ChoiceFunction.fit _predict_scores_fixed super_fit train_test_split
                        f1_score)
    super_fit train_test_split
    (ChoiceFunction._tune_threshold _predict_scores_fixed f1_score).
Proof.
  intros X Y tune_size thin s X_train X_val Y_train Y_val e c
         Htune Hsplit Hfit attempt outcome.
  assert (Hgt : ThresholdTuner.Qgtb tune_size 0 = true)
    by now apply Qgtb_true.
  assert (Hout := @fit_finally net labels _predict_scores_fixed super_fit
                    train_test_split f1_score X Y tune_size thin s
                    X_train X_val Y_train Y_val (Raise e) c
                    Hgt Hsplit Hfit).
  fold attempt in Hout. fold outcome in Hout.
  destruct attempt as [[p | e'] s'] eqn:Eattempt;
    apply tune_threshold_frame in Eattempt as [Hthr Hcalls];
    simpl in Hthr, Hcalls; rewrite Hout.
  - split; [exact Hcalls |]. split.
    + intros p0 s0 H. inversion H; subst. reflexivity.
    + intros e0 s0 H. discriminate.
  - split; [exact Hcalls |]. split.
    + intros p0 s0 H. discriminate.
    + intros e0 s0 H. inversion H; subst. auto.
Qed.

(** C5, amended.  For both choice-function variants with
    [tune_size > 0], if the fit of the core raises, threshold tuning on
    the tuning split is still attempted before any exception leaves
    [fit]; if the attempt returns, the tuned threshold is stored and
    the original exception propagates; if the attempt itself raises,
    its exception propagates in place of the original one and the
    threshold is left as it was. *)
Theorem C5_tuning_in_finally :
  forall (net labels pairwise_data : Type)
         (_predict_scores_fixed
          : batch -> net -> result (list (list R)) * net)
         (super_fit : batch -> labels -> net -> result unit * net)
         (train_test_split
          : batch -> labels -> Q -> result (batch * batch * labels * labels))
         (f1_score : labels -> list (list bool) -> Q)
         (initial_hidden : nat -> layer) (initial_output : Dense1)
         (_convert_instances_ : batch -> labels -> result pairwise_data)
         (keras_fit : pairwise_data -> list layer -> Dense1 ->
                      (list layer * Dense1) * result unit),
    tunes_before_raising
      (FETAChoiceFunction.fit _predict_scores_fixed super_fit
                              train_test_split f1_score)
      super_fit train_test_split
      (ChoiceFunction._tune_threshold _predict_scores_fixed f1_score)
    /\ tunes_before_raising
         (RankNetChoiceFunction.fit initial_hidden initial_output
                                    _convert_instances_ keras_fit
                                    train_test_split f1_score)
         (RankNetCore.fit initial_hidden initial_output
                          _convert_instances_ keras_fit)
         train_test_split
         (RankNetChoiceFunction._tune_threshold f1_score).
Proof.
  intros. split; apply choice_fit_tunes_before_raising.
Qed.

(** ** Fitting a RankNet again *)

Lemma store_length (h : list RankNetCore.object) (r : nat)
    (o : RankNetCore.object) :
  length (RankNetCore.store h r o) = length h.
Proof.
  revert r. induction h as [| x h IH]; intros [| r]; simpl; auto.
Qed.

Lemma store_other (h : list RankNetCore.object) (r r' : nat)
    (o : RankNetCore.object) :
  r <> r' -> nth_error (RankNetCore.store h r o) r' = nth_error h r'.
Proof.
  revert r r'. induction h as [| x h IH]; intros [| r] [| r'] Hne; simpl;
    trivial; try congruence.
  apply IH. congruence.
Qed.

Lemma store_hidden_other (rs : list nat) (fs : list layer)
    (h : list RankNetCore.object) (r' : nat) :
  ~ In r' rs ->
  nth_error (RankNetCore.store_hidden h rs fs) r' = nth_error h r'.
Proof.
  revert fs h. induction rs as [| r rs IH]; intros [| f fs] h Hnot; simpl;
    trivial.
  rewrite IH by (simpl in Hnot; tauto).
  apply store_other. simpl in Hnot. intros ->. tauto.
Qed.

Lemma model_score_agree (h h' : list RankNetCore.object)
    (m : RankNetCore.Model) (n : nat) (x : vec) :
  agree_below n h h' ->
  (forall r, In r (RankNetCore.model_hidden m) -> r < n) ->
  RankNetCore.model_output m < n ->
  RankNetCore.model_score h' m x = RankNetCore.model_score h m x.
Proof.
  intros Hagree Hhidden Hout. unfold RankNetCore.model_score.
  f_equal.
  - apply map_ext_in. intros r Hr.
    unfold RankNetCore.deref_hidden. now rewrite Hagree by auto.
  - unfold RankNetCore.deref_output. now rewrite Hagree by auto.
Qed.

Section RefitFacts.

Variable labels : Type.
Variable pairwise_data : Type.
Variable initial_hidden : nat -> layer.
Variable initial_output : Dense1.
Variable _convert_instances_ : batch -> labels -> result pairwise_data.
Variable keras_fit
  : pairwise_data -> list layer -> Dense1 ->
    (list layer * Dense1) * result unit.

Let fit := RankNetCore.fit initial_hidden initial_output
                           _convert_instances_ keras_fit.

(** [fit] allocates its layers above the existing heap and trains only
    those; it leaves [_scoring_model] as it finds it. *)
Lemma fit_frame (X : batch) (Y : labels) (self self' : RankNetCore.t)
    (r : result unit) :
  fit X Y self = (r, self') ->
  RankNetCore._scoring_model self' = RankNetCore._scoring_model self
  /\ agree_below (length (RankNetCore.heap self)) (RankNetCore.heap self)
                 (RankNetCore.heap self')
  /\ length (RankNetCore.heap self) <= length (RankNetCore.heap self').
Proof.
  unfold fit, RankNetCore.fit.
  destruct (_convert_instances_ X Y) as [data | e].
  2:{ intros H; inversion H; subst; simpl.
      repeat split; auto; intros r0 _; reflexivity. }
  set (s1 := RankNetCore._construct_layers initial_hidden initial_output
               (RankNetCore.set_features self (RankNetCore.n_features_of X))).
  assert (Hheap1 : RankNetCore.heap s1
                   = RankNetCore.heap self
                     ++ RankNetCore.OutputNode initial_output
                        :: map (fun x => RankNetCore.HiddenLayer
                                           (initial_hidden x))
                               (seq 0 (RankNetCore.n_hidden self)))
    by reflexivity.
  assert (Hagree1 : agree_below (length (RankNetCore.heap self))
                                (RankNetCore.heap self) (RankNetCore.heap s1)).
  { intros r0 Hr0. rewrite Hheap1. now apply nth_error_app1. }
  assert (Hlen1 : length (RankNetCore.heap self)
                  <= length (RankNetCore.heap s1)).
  { rewrite Hheap1, length_app. lia. }
  destruct (RankNetCore.construct_model s1) as [m | e] eqn:Em.
  2:{ intros H; inversion H; subst. repeat split; auto. }
  assert (Hm : m = RankNetCore.mkModel
                     (seq (S (length (RankNetCore.heap self)))
                          (RankNetCore.n_hidden self))
                     (length (RankNetCore.heap self))).
  { unfold RankNetCore.construct_model in Em. simpl in Em.
    destruct (seq (S (length (RankNetCore.heap self)))
                  (RankNetCore.n_hidden self)); inversion Em; trivial. }
  destruct (keras_fit data _ _) as [[hidden' out'] r'].
  intros H; inversion H; subst r' self'. simpl.
  split; [reflexivity |]. split.
  - intros r0 Hr0.
    rewrite store_other, store_hidden_other.
    + now apply Hagree1.
    + subst m. simpl. rewrite in_seq. lia.
    + subst m. simpl. lia.
  - rewrite store_length.
    assert (Hsh : forall rs fs h,
               length (RankNetCore.store_hidden h rs fs) = length h).
    { induction rs as [| a rs IH]; intros [| f fs] h; simpl; trivial.
      now rewrite IH, store_length. }
    now rewrite Hsh.
Qed.

(** Once [_scoring_model] is set, a later [fit] does not change what
    [_predict_scores_fixed] returns. *)
Lemma refit_keeps_scores (X2 : batch) (Y2 : labels) (X : batch)
    (self self' : RankNetCore.t) (m : RankNetCore.Model) (r : result unit) :
  RankNetCore._scoring_model self = Some m ->
  (forall r0, In r0 (RankNetCore.model_hidden m) ->
              r0 < length (RankNetCore.heap self)) ->
  RankNetCore.model_output m < length (RankNetCore.heap self) ->
  fit X2 Y2 self = (r, self') ->
  RankNetCore._predict_scores_fixed X self'
  = (fst (RankNetCore._predict_scores_fixed X self), self').
Proof.
  intros Hm Hhidden Hout Hfit.
  apply fit_frame in Hfit as (Hsm & Hagree & _).
  unfold RankNetCore._predict_scores_fixed, RankNetCore.scoring_model.
  rewrite Hsm, Hm. simpl. do 2 f_equal.
  apply map_ext. intros x. apply map_ext. intros v.
  eapply model_score_agree; eauto.
Qed.

End RefitFacts.

Lemma init_well_formed (allowed_dense_kwargs : list string) (n_hidden : nat)
    (kwargs : list (string * value)) (self : RankNetCore.t) :
  RankNetCore.__init__ allowed_dense_kwargs n_hidden kwargs = Ok self ->
  well_formed self /\ RankNetCore._scoring_model self = None.
Proof.
  intros H. inversion H; subst. unfold well_formed. simpl.
  repeat split; intros; discriminate.
Qed.

Lemma store_hidden_length (rs : list nat) (fs : list layer)
    (h : list RankNetCore.object) :
  length (RankNetCore.store_hidden h rs fs) = length h.
Proof.
  revert fs h. induction rs as [| a rs IH]; intros [| f fs] h; simpl; trivial.
  now rewrite IH, store_length.
Qed.

Section RefitInvariant.

Variable labels : Type.
Variable pairwise_data : Type.
Variable initial_hidden : nat -> layer.
Variable initial_output : Dense1.
Variable _convert_instances_ : batch -> labels -> result pairwise_data.
Variable keras_fit
  : pairwise_data -> list layer -> Dense1 ->
    (list layer * Dense1) * result unit.

Let fit := RankNetCore.fit initial_hidden initial_output
                           _convert_instances_ keras_fit.

Lemma construct_layers_well_formed (self : RankNetCore.t) :
  well_formed self ->
  well_formed (RankNetCore._construct_layers initial_hidden initial_output
                                             self).
Proof.
  intros (Hh & Ho & Hs). unfold well_formed. simpl.
  rewrite length_app. simpl. rewrite length_map, length_seq.
  split; [| split].
  - intros hs Hhs r Hr. inversion Hhs; subst.
    apply in_seq in Hr. lia.
  - intros o Hout. inversion Hout; subst. lia.
  - intros m Hm. destruct (Hs m Hm) as [Hv1 Hv2].
    unfold valid_model. rewrite length_app. split.
    + intros r Hr. specialize (Hv1 r Hr). lia.
    + lia.
Qed.

Lemma fit_well_formed (X : batch) (Y : labels) (self self' : RankNetCore.t)
    (r : result unit) :
  well_formed self -> fit X Y self = (r, self') -> well_formed self'.
Proof.
  intros Hwf. unfold fit, RankNetCore.fit.
  assert (Hwf0 : well_formed
                   (RankNetCore.set_features self
                                             (RankNetCore.n_features_of X)))
    by exact Hwf.
  destruct (_convert_instances_ X Y) as [data | e].
  2:{ intros H; inversion H; subst. exact Hwf0. }
  apply construct_layers_well_formed in Hwf0.
  destruct (RankNetCore.construct_model _) as [m | e].
  2:{ intros H; inversion H; subst. exact Hwf0. }
  destruct (keras_fit data _ _) as [[hidden' out'] r'].
  intros H; inversion H; subst r' self'.
  destruct Hwf0 as (Hh & Ho & Hs).
  unfold well_formed, valid_model. cbn [RankNetCore.set_model
    RankNetCore.heap RankNetCore.hidden_layers RankNetCore.output_node
    RankNetCore._scoring_model].
  rewrite store_length, store_hidden_length.
  repeat split; auto.
  - intros r0 Hr0. now apply (Hs m0).
  - now apply (Hs m0).
Qed.

Lemma predict_scores_fixed_caches (X : batch) (self self' : RankNetCore.t)
    (sc : list (list R)) :
  well_formed self ->
  RankNetCore._predict_scores_fixed X self = (Ok sc, self') ->
  exists m,
    RankNetCore._scoring_model self' = Some m
    /\ valid_model (RankNetCore.heap self') m
    /\ RankNetCore.heap self' = RankNetCore.heap self
    /\ sc = map (map (RankNetCore.model_score (RankNetCore.heap self') m)) X.
Proof.
  intros (Hh & Ho & Hs).
  unfold RankNetCore._predict_scores_fixed, RankNetCore.scoring_model.
  destruct (RankNetCore._scoring_model self) as [m |] eqn:Em.
  - intros H; inversion H; subst. exists m. repeat split; auto;
      now apply (Hs m).
  - destruct (RankNetCore.n_object_features_fit_ self);
      [| intros H; inversion H].
    destruct (RankNetCore.hidden_layers self) as [hs |] eqn:Ehs;
      [| intros H; inversion H].
    destruct (RankNetCore.output_node self) as [o |] eqn:Eo;
      [| intros H; inversion H].
    intros H; inversion H; subst. simpl.
    exists (RankNetCore.mkModel hs o). repeat split; simpl; eauto.
Qed.

(** C9 fails on the code.  After a first [fit] and one call of
    [_predict_scores_fixed], which creates [_scoring_model] from the
    layers of that fit, a second [fit] constructs and trains new layers
    but does not reset [_scoring_model]: whatever the data and the
    outcome of the second [fit], the learner goes on returning the
    scores of the first one. *)
Theorem C9_refit_keeps_first_scoring_model :
  forall (allowed_dense_kwargs : list string) (n_hidden : nat)
         (kwargs : list (string * value))
         (self0 self1 self1' self2 : RankNetCore.t)
         (X1 X2 X : batch) (Y1 Y2 : labels) (r1 r2 : result unit)
         (sc : list (list R)),
    RankNetCore.__init__ allowed_dense_kwargs n_hidden kwargs = Ok self0 ->
    fit X1 Y1 self0 = (r1, self1) ->
    RankNetCore._predict_scores_fixed X self1 = (Ok sc, self1') ->
    fit X2 Y2 self1' = (r2, self2) ->
    RankNetCore._predict_scores_fixed X self2 = (Ok sc, self2).
Proof.
  intros allowed n_hidden kwargs self0 self1 self1' self2 X1 X2 X Y1 Y2
         r1 r2 sc Hinit Hfit1 Hpred Hfit2.
  apply init_well_formed in Hinit as [Hwf0 _].
  assert (Hwf1 : well_formed self1) by (eapply fit_well_formed; eauto).
  destruct (predict_scores_fixed_caches X Hwf1 Hpred)
    as (m & Hm & [Hv1 Hv2] & Hheap & Hsc).
  rewrite (@refit_keeps_scores labels pairwise_data initial_hidden
             initial_output _convert_instances_ keras_fit X2 Y2 X
             self1' self2 m r2 Hm Hv1 Hv2 Hfit2).
  f_equal.
  unfold RankNetCore._predict_scores_fixed, RankNetCore.scoring_model.
  rewrite Hm. simpl. now rewrite Hsc.
Qed.

End RefitInvariant.

(** ** [predict], [predict_scores] and [predict_for_scores] *)

(** [Learner.predict] scores once and hands the scores to
    [predict_for_scores]; the state it leaves is the one
    [predict_scores] leaves. *)
Lemma learner_predict_factors (self prediction : Type)
    (_predict_scores_fixed : batch -> self -> result (list (list R)) * self)
    (predict_for_scores : Learner.scores -> self -> result prediction)
    (X : Learner.input) (s s' : self) (sc : Learner.scores) :
  Learner.predict_scores _predict_scores_fixed X s = (Ok sc, s') ->
  Learner.predict _predict_scores_fixed predict_for_scores X s
  = (predict_for_scores sc s', s').
Proof.
  intros H. unfold Learner.predict. now rewrite H.
Qed.

(** On a single array, [FETAChoiceFunction.predict] agrees with the
    choice decision layer applied to the scores. *)
Lemma feta_choice_predict_array (net : Type)
    (_predict_scores_fixed : batch -> net -> result (list (list R)) * net)
    (X : batch) (s s' : ChoiceFunction.t net) (sc : Learner.scores) (p : R) :
  ChoiceFunction.predict_scores _predict_scores_fixed (Learner.Array X) s
  = (Ok sc, s') ->
  ChoiceFunction.threshold s' = Some p ->
  FETAChoiceFunction.predict _predict_scores_fixed (Learner.Array X) s
  = (ChoiceFunction.predict_for_scores sc s', s').
Proof.
  intros H Hp. unfold FETAChoiceFunction.predict, ChoiceFunction.predict.
  rewrite H.
  assert (Harr : exists a, sc = Learner.ScoresArray a).
  { unfold ChoiceFunction.predict_scores, Learner.predict_scores in H.
    destruct (ChoiceFunction.lifted_predict_scores_fixed _ X s)
      as [[a | e] s0]; inversion H. eauto. }
  destruct Harr as [a ->].
  unfold ChoiceFunction.predict_for_scores. now rewrite Hp.
Qed.

Lemma predict_scores_dict (net : Type)
    (_predict_scores_fixed : batch -> net -> result (list (list R)) * net)
    (d : list (nat * batch)) (s s' : ChoiceFunction.t net)
    (sc : Learner.scores) :
  ChoiceFunction.predict_scores _predict_scores_fixed (Learner.Dict d) s
  = (Ok sc, s') ->
  exists sd, sc = Learner.ScoresDict sd.
Proof.
  unfold ChoiceFunction.predict_scores, Learner.predict_scores.
  destruct (Learner.predict_scores_items _ d [] s) as [[sd | e] s0];
    intros H; inversion H. eauto.
Qed.

(** C1 fails on the code.  [FETAChoiceFunction.predict] overrides
    [Learner.predict] and compares the scores with the threshold
    itself.  For a size-keyed mapping the scores are a dict and the
    comparison raises [TypeError], whatever [predict_for_scores] is;
    [Learner.predict] returns [predict_for_scores(predict_scores(X))]
    on the same input, which for the choice decision layer is a dict of
    choices. *)
Theorem C1_feta_choice_predict_on_dict :
  forall (net : Type)
         (_predict_scores_fixed
          : batch -> net -> result (list (list R)) * net)
         (d : list (nat * batch)) (s s' : ChoiceFunction.t net)
         (sc : Learner.scores),
    ChoiceFunction.predict_scores _predict_scores_fixed (Learner.Dict d) s
    = (Ok sc, s') ->
    FETAChoiceFunction.predict _predict_scores_fixed (Learner.Dict d) s
    = (Raise (TypeError "'>' not supported between instances of 'dict' and 'float'"),
       s')
    /\ (forall (prediction : Type)
               (predict_for_scores
                : Learner.scores -> ChoiceFunction.t net -> result prediction),
           Learner.predict
             (ChoiceFunction.lifted_predict_scores_fixed
                _predict_scores_fixed)
             predict_for_scores (Learner.Dict d) s
           = (predict_for_scores sc s', s'))
    /\ (exists c, ChoiceFunction.predict_for_scores sc s' = Ok c)
    /\ FETAChoiceFunction.predict _predict_scores_fixed (Learner.Dict d) s
       <> (ChoiceFunction.predict_for_scores sc s', s').
Proof.
  intros net fixed d s s' sc H.
  destruct (predict_scores_dict _ _ _ H) as [sd ->].
  assert (Hpredict :
            FETAChoiceFunction.predict fixed (Learner.Dict d) s
            = (Raise (TypeError "'>' not supported between instances of 'dict' and 'float'"),
               s')).
  { unfold FETAChoiceFunction.predict, ChoiceFunction.predict.
    now rewrite H. }
  split; [exact Hpredict |]. split; [| split].
  - intros prediction pfs. now apply learner_predict_factors.
  - simpl. eauto.
  - rewrite Hpredict. simpl. intros Heq. inversion Heq.
Qed.

(** ** The statements at the instances *)

(** C4 on a batch of one query set of three objects. *)
Lemma C4_witness :
  Forall (fun x : list vec => 2 <= length x) [three_objects]
  /\ CmpNetCore._predict_scores_fixed cmpnet_example [three_objects]
     = Ok (map (fun x =>
                  map (fun i =>
                         arithmetic_mean
                           (map (cmpnet_pair_score cmpnet_example x i)
                                (competitors (length x) i)))
                      (seq 0 (length x)))
               [three_objects])
  /\ FETADiscreteChoiceFunction._predict_scores_using_pairs
       feta_zeroth [three_objects]
     = Ok (map (fun x =>
                  map (fun i =>
                         sigmoid_unit
                           (FETADiscreteChoiceFunction.weighted_sum
                              feta_zeroth)
                           [arithmetic_mean
                              (map (feta_pair_score feta_zeroth x i)
                                   (competitors (length x) i));
                            FETADiscreteChoiceFunction.zero_order_model
                              feta_zeroth (obj x i)])
                      (seq 0 (length x)))
               [three_objects]).
Proof.
  assert (H : Forall (fun x : list vec => 2 <= length x) [three_objects]).
  { constructor; [simpl; lia | constructor]. }
  split; [exact H |].
  exact (proj2 (proj2 (proj2 (C4_pairwise_score_matrix cmpnet_example
                                                       feta_zeroth)
                             [three_objects]))
               H).
Defined.

(** C10 on a fitted RankNet, CmpNet and FETA chooser. *)
Lemma C10_witness :
  (RankNetCore._predict_scores_fixed [three_objects] fitted_ranknet
   = (Ok (map (map (RankNetCore.model_score
                      (RankNetCore.heap fitted_ranknet)
                      (RankNetCore.mkModel [1] 0)))
              [three_objects]),
      RankNetCore.set_scoring_model fitted_ranknet
                                    (RankNetCore.mkModel [1] 0))
   /\ Forall (fun x : list vec => 2 <= length x) [three_objects])
  /\ (scores_in_unit_interval
        (map (map (RankNetCore.model_score
                     (RankNetCore.heap fitted_ranknet)
                     (RankNetCore.mkModel [1] 0)))
             [three_objects])
      /\ (exists scores,
             CmpNetCore._predict_scores_fixed cmpnet_example [three_objects]
             = Ok scores)
      /\ (exists scores,
             FETADiscreteChoiceFunction._predict_scores_using_pairs
               feta_zeroth [three_objects]
             = Ok scores)).
Proof.
  assert (H1 : RankNetCore._predict_scores_fixed [three_objects]
                                                 fitted_ranknet
               = (Ok (map (map (RankNetCore.model_score
                                  (RankNetCore.heap fitted_ranknet)
                                  (RankNetCore.mkModel [1] 0)))
                          [three_objects]),
                  RankNetCore.set_scoring_model fitted_ranknet
                                                (RankNetCore.mkModel [1] 0)))
    by reflexivity.
  assert (H2 : Forall (fun x : list vec => 2 <= length x) [three_objects]).
  { constructor; [simpl; lia | constructor]. }
  split; [split; assumption |].
  split.
  - exact (proj1 C10_scores_in_unit_interval _ _ _ _ H1).
  - exact (proj1 (proj2 (proj2 (proj2 (proj2 C10_scores_in_unit_interval))))
             cmpnet_example feta_zeroth [three_objects] H2).
Defined.

(** C8 on the chooser with a zeroth-order model, on three objects. *)
Lemma C8_witness :
  (FETADiscreteChoiceFunction.n_objects_fit_ feta_zeroth
   = length three_objects
   /\ FETADiscreteChoiceFunction.construct_model feta_zeroth three_objects
      = Ok [sigmoid (2 + 2); sigmoid (1 + 1); sigmoid (0 + 0)])
  /\ FETADiscreteChoiceFunction.scores_of_instance feta_zeroth three_objects
     = Ok [sigmoid (2 + 2); sigmoid (1 + 1); sigmoid (0 + 0)].
Proof.
  assert (H1 : FETADiscreteChoiceFunction.n_objects_fit_ feta_zeroth
               = length three_objects) by reflexivity.
  assert (H2 := feta_zeroth_training_graph).
  split; [split; assumption |].
  exact (proj1 (C8_prediction_path_matches_training_graph feta_zeroth)
               three_objects _ H1 H2).
Defined.


(** C1 on a mapping with one size. *)
Lemma C1_witness :
  ChoiceFunction.predict_scores first_feature_scores
    (Learner.Dict [(3, [three_objects])]) fresh_feta_choice
  = (Ok (Learner.ScoresDict [(3, [[2%R; 1%R; 0%R]])]), fresh_feta_choice)
  /\ FETAChoiceFunction.predict first_feature_scores
       (Learner.Dict [(3, [three_objects])]) fresh_feta_choice
     = (Raise (TypeError "'>' not supported between instances of 'dict' and 'float'"),
        fresh_feta_choice).
Proof.
  assert (H : ChoiceFunction.predict_scores first_feature_scores
                (Learner.Dict [(3, [three_objects])]) fresh_feta_choice
              = (Ok (Learner.ScoresDict [(3, [[2%R; 1%R; 0%R]])]),
                 fresh_feta_choice))
    by reflexivity.
  split; [exact H |].
  exact (proj1 (C1_feta_choice_predict_on_dict first_feature_scores
                  [(3, [three_objects])] fresh_feta_choice H)).
Defined.

(** C2 on one validation query set, with stride 1. *)
Lemma C2_witness :
  (1 <= 1
   /\ ChoiceFunction.predict_scores first_feature_scores
        (Learner.Array [three_objects]) fresh_feta_choice
      = (Ok (Learner.ScoresArray [[2%R; 1%R; 0%R]]), fresh_feta_choice))
  /\ exists t,
      ChoiceFunction._tune_threshold first_feature_scores Sklearn.f1_score
        [three_objects] [[true; false; false]] 1 fresh_feta_choice
      = (Ok t, fresh_feta_choice).
Proof.
  assert (H1 : 1 <= 1) by lia.
  assert (H2 : ChoiceFunction.predict_scores first_feature_scores
                 (Learner.Array [three_objects]) fresh_feta_choice
               = (Ok (Learner.ScoresArray [[2%R; 1%R; 0%R]]),
                  fresh_feta_choice))
    by reflexivity.
  split; [split; assumption |].
  destruct (@C2_tune_threshold unit (list (list bool)) first_feature_scores
              Sklearn.f1_score [three_objects] [[true; false; false]] 1
              fresh_feta_choice fresh_feta_choice [[2%R; 1%R; 0%R]] H1 H2)
    as (probs & t & _ & _ & _ & _ & _ & Htune & _).
  exists t. exact Htune.
Defined.

(** C5 on a core whose fit fails and whose scores can be computed. *)
Lemma C5_witness :
  ((0 < 1 # 10)%Q
   /\ hold_out_last ten_queries ten_choices (1 # 10)%Q
      = Ok (removelast ten_queries, [three_objects],
            removelast ten_choices, [[true; false; false]])
   /\ fit_fails (removelast ten_queries) (removelast ten_choices)
                (ChoiceFunction.core fresh_feta_choice)
      = (Raise (ValueError "training failed"), tt))
  /\ ChoiceFunction.calls
       (snd (FETAChoiceFunction.fit first_feature_scores fit_fails
               hold_out_last Sklearn.f1_score ten_queries ten_choices
               (1 # 10)%Q 1 fresh_feta_choice))
     = ChoiceFunction.calls fresh_feta_choice
       ++ [ChoiceFunction.TrainTestSplit; ChoiceFunction.SuperFit;
           ChoiceFunction.TuneThreshold].
Proof.
  assert (H1 : (0 < 1 # 10)%Q) by reflexivity.
  assert (H2 : hold_out_last ten_queries ten_choices (1 # 10)%Q
               = Ok (removelast ten_queries, [three_objects],
                     removelast ten_choices, [[true; false; false]]))
    by reflexivity.
  assert (H3 : fit_fails (removelast ten_queries) (removelast ten_choices)
                         (ChoiceFunction.core fresh_feta_choice)
               = (Raise (ValueError "training failed"), tt))
    by reflexivity.
  split; [repeat split; assumption |].
  exact (proj1 (proj1 (@C5_tuning_in_finally unit (list (list bool)) unit
                         first_feature_scores fit_fails hold_out_last
                         Sklearn.f1_score (fun _ x => x) (mkDense1 [] 0%R)
                         failing_convert toy_keras_fit)
                      ten_queries ten_choices (1 # 10)%Q 1
                      fresh_feta_choice (removelast ten_queries)
                      [three_objects] (removelast ten_choices)
                      [[true; false; false]]
                      (ValueError "training failed") tt H1 H2 H3)).
Defined.

(** C6 on a core whose fit succeeds. *)
Lemma C6_witness :
  fit_succeeds ten_queries ten_choices
               (ChoiceFunction.core fresh_feta_choice)
  = (Ok tt, tt)
  /\ (fst (FETAChoiceFunction.fit first_feature_scores fit_succeeds hold_out_last
             Sklearn.f1_score ten_queries ten_choices
             0%Q 1 fresh_feta_choice)
      = Ok tt
      /\ ChoiceFunction.threshold
           (snd (FETAChoiceFunction.fit first_feature_scores fit_succeeds
                   hold_out_last Sklearn.f1_score ten_queries
                   ten_choices 0%Q 1 fresh_feta_choice))
         = Some (1 / 2)%R
      /\ ChoiceFunction.calls
           (snd (FETAChoiceFunction.fit first_feature_scores fit_succeeds
                   hold_out_last Sklearn.f1_score ten_queries
                   ten_choices 0%Q 1 fresh_feta_choice))
         = ChoiceFunction.calls fresh_feta_choice
           ++ [ChoiceFunction.SuperFit]).
Proof.
  assert (H : fit_succeeds ten_queries ten_choices
                           (ChoiceFunction.core fresh_feta_choice)
              = (Ok tt, tt))
    by reflexivity.
  split; [exact H |].
  exact (proj1 (proj2 (proj2
           (@C6_fit_without_tuning unit (list (list bool)) unit
              first_feature_scores fit_succeeds hold_out_last Sklearn.f1_score
              (fun _ x => x) (mkDense1 [] 0%R) failing_convert
              toy_keras_fit)))
           ten_queries ten_choices 1 fresh_feta_choice tt H).
Defined.

(** C9 on two fits with different labels. *)
Lemma C9_witness :
  (RankNetCore.__init__ [] 1 [] = Ok fresh_ranknet
   /\ toy_fit one_object 0%R fresh_ranknet = (Ok tt, fitted_once)
   /\ RankNetCore._predict_scores_fixed one_object fitted_once
      = (Ok [[sigmoid (1 * 1 + 0 + 0)]], predicted_once)
   /\ toy_fit one_object 5%R predicted_once = (Ok tt, fitted_twice))
  /\ RankNetCore._predict_scores_fixed one_object fitted_twice
     = (Ok [[sigmoid (1 * 1 + 0 + 0)]], fitted_twice).
Proof.
  assert (H0 : RankNetCore.__init__ [] 1 [] = Ok fresh_ranknet)
    by reflexivity.
  assert (H1 : toy_fit one_object 0%R fresh_ranknet = (Ok tt, fitted_once))
    by reflexivity.
  assert (H2 : RankNetCore._predict_scores_fixed one_object fitted_once
               = (Ok [[sigmoid (1 * 1 + 0 + 0)]], predicted_once))
    by reflexivity.
  assert (H3 : toy_fit one_object 5%R predicted_once = (Ok tt, fitted_twice))
    by reflexivity.
  split; [repeat split; assumption |].
  exact (@C9_refit_keeps_first_scoring_model R R toy_initial_hidden
           toy_initial_output toy_convert toy_training [] 1 []
           fresh_ranknet fitted_once predicted_once fitted_twice
           one_object one_object one_object 0%R 5%R (Ok tt) (Ok tt)
           [[sigmoid (1 * 1 + 0 + 0)]] H0 H1 H2 H3).
Defined.

(** The same second fit on a fresh learner gives other scores: what the
    refitted learner returns is not a function of the second fit
    alone. *)
Lemma refit_differs_from_fresh_fit :
  fst (RankNetCore._predict_scores_fixed one_object
         (snd (toy_fit one_object 5%R fresh_ranknet)))
  = Ok [[sigmoid (1 * 1 + 0 + 5)]]
  /\ fst (RankNetCore._predict_scores_fixed one_object fitted_twice)
     = Ok [[sigmoid (1 * 1 + 0 + 0)]]
  /\ fst (RankNetCore._predict_scores_fixed one_object fitted_twice)
     <> fst (RankNetCore._predict_scores_fixed one_object
               (snd (toy_fit one_object 5%R fresh_ranknet))).
Proof.
  assert (Hfresh :
            fst (RankNetCore._predict_scores_fixed one_object
                   (snd (toy_fit one_object 5%R fresh_ranknet)))
            = Ok [[sigmoid (1 * 1 + 0 + 5)]]) by reflexivity.
  assert (Hrefit :
            fst (RankNetCore._predict_scores_fixed one_object fitted_twice)
            = Ok [[sigmoid (1 * 1 + 0 + 0)]]) by reflexivity.
  split; [exact Hfresh |]. split; [exact Hrefit |].
  rewrite Hfresh, Hrefit. intros Heq. inversion Heq as [H].
  apply sigmoid_injective in H. lra.
Qed.

(* ================================================================== *)
(** * Part IV: further properties of the code                          *)
(* ================================================================== *)

(** ** Keyword arguments stored under a prefix *)

Lemma prefix_append (p k : string) : String.prefix p (p ++ k)%string = true.
Proof.
  induction p as [| a p IH]; simpl.
  - now destruct k.
  - destruct (Ascii.ascii_dec a a); [exact IH | congruence].
Qed.

Lemma substring_all (s : string) : substring 0 (String.length s) s = s.
Proof.
  induction s as [| a s IH]; simpl; [reflexivity | now rewrite IH].
Qed.

Lemma substring_append (p k : string) :
  substring (String.length p)
            (String.length (p ++ k)%string - String.length p)
            (p ++ k)%string = k.
Proof.
  induction p as [| a p IH]; simpl.
  - rewrite Nat.sub_0_r. apply substring_all.
  - exact IH.
Qed.

Lemma prefix_split (p s : string) :
  String.prefix p s = true ->
  s = (p ++ substring (String.length p)
                      (String.length s - String.length p) s)%string.
Proof.
  revert s. induction p as [| a p IH]; intros s H; simpl.
  - rewrite Nat.sub_0_r. now rewrite substring_all.
  - destruct s as [| b s]; simpl in H; [discriminate |].
    destruct (Ascii.ascii_dec a b); [subst | discriminate].
    simpl. f_equal. now apply IH.
Qed.

Lemma append_injective (p a b : string) : (p ++ a)%string = (p ++ b)%string -> a = b.
Proof.
  induction p as [| c p IH]; simpl; intros H; [exact H |].
  inversion H. auto.
Qed.

Lemma prefix_eqb (p k k' : string) :
  String.eqb (p ++ k')%string (p ++ k)%string = String.eqb k' k.
Proof.
  destruct (String.eqb_spec k' k) as [-> | Hne].
  - apply String.eqb_refl.
  - apply String.eqb_neq. intros H. apply Hne. now apply append_injective in H.
Qed.

Lemma filter_dict_by_prefix_In {V} (source : list (string * V))
    (prefix k : string) (v : V) :
    In (k, v) (Learner.filter_dict_by_prefix source prefix)
    <-> In ((prefix ++ k)%string, v) source.
Proof.
  unfold Learner.filter_dict_by_prefix.
  rewrite in_flat_map. split.
  - intros ([key val] & Hin & Hkv). simpl in Hkv.
    destruct (String.prefix prefix key) eqn:Ep; [| contradiction].
    destruct Hkv as [Heq | []]. inversion Heq; subst.
    now rewrite <- (prefix_split _ _ Ep).
  - intros Hin. exists ((prefix ++ k)%string, v). split; trivial.
    simpl. rewrite prefix_append, substring_append. now left.
Qed.

(** X1.  [filter_dict_by_prefix] returns exactly the entries of the
    source whose key starts with the prefix, each under its key with
    the prefix removed: [(k, v)] is returned if and only if the source
    holds [v] under [prefix + k]. *)
Theorem filter_dict_by_prefix_spec :
  forall (V : Type) (source : list (string * V)) (prefix k : string) (v : V),
    In (k, v) (Learner.filter_dict_by_prefix source prefix)
    <-> In ((prefix ++ k)%string, v) source.
Proof.
  intros V source prefix k v. apply filter_dict_by_prefix_In.
Qed.

Lemma lookup_setitem {V} (d : list (string * V)) (key k : string) (v : V) :
  lookup (Learner.setitem d key v) k
  = if String.eqb key k then Some v else lookup d k.
Proof.
  unfold lookup.
  induction d as [| [k' v'] d IH]; simpl.
  - destruct (String.eqb key k); reflexivity.
  - destruct (String.eqb_spec k' key) as [-> | Hne]; simpl.
    + destruct (String.eqb key k); reflexivity.
    + destruct (String.eqb_spec k' k) as [-> | Hne'].
      * destruct (String.eqb_spec key k); [congruence | reflexivity].
      * exact IH.
Qed.

Lemma lookup_cons {V} (d : list (string * V)) (key k : string) (v : V) :
  lookup ((key, v) :: d) k = if String.eqb key k then Some v else lookup d k.
Proof.
  unfold lookup. simpl. now destruct (String.eqb key k).
Qed.

Lemma lookup_None {V} (d : list (string * V)) (k : string) :
  ~ In k (map fst d) -> lookup d k = None.
Proof.
  unfold lookup. induction d as [| [k' v'] d IH]; simpl; intros H; trivial.
  destruct (String.eqb_spec k' k); [tauto | apply IH; tauto].
Qed.

Lemma lookup_In {V} (d : list (string * V)) (k : string) (v : V) :
  NoDup (map fst d) -> In (k, v) d -> lookup d k = Some v.
Proof.
  unfold lookup. induction d as [| [k' v'] d IH]; simpl; intros Hnd Hin.
  - contradiction.
  - inversion Hnd as [| ? ? Hnot Hnd']; subst.
    destruct Hin as [Heq | Hin].
    + inversion Heq; subst. now rewrite String.eqb_refl.
    + destruct (String.eqb_spec k' k) as [-> | Hne]; [| now apply IH].
      exfalso. apply Hnot. apply in_map_iff. now exists (k, v).
Qed.

Lemma lookup_update {V} (other d : list (string * V)) (k : string) :
  NoDup (map fst other) ->
  lookup (Learner.update d other) k
  = match lookup other k with
    | Some v => Some v
    | None => lookup d k
    end.
Proof.
  unfold Learner.update. revert d.
  induction other as [| [key val] other IH]; simpl; intros d Hnd; trivial.
  inversion Hnd as [| ? ? Hnot Hnd']; subst.
  rewrite IH by trivial. rewrite lookup_setitem, lookup_cons.
  destruct (String.eqb_spec key k) as [-> | Hne]; simpl.
  - now rewrite (lookup_None other k Hnot).
  - reflexivity.
Qed.

Lemma lookup_filter_dict_by_prefix {V} (source : list (string * V))
    (prefix k : string) :
  lookup (Learner.filter_dict_by_prefix source prefix) k
  = lookup source (prefix ++ k)%string.
Proof.
  unfold lookup, Learner.filter_dict_by_prefix.
  induction source as [| [key val] source IH]; simpl; trivial.
  destruct (String.prefix prefix key) eqn:Ep; simpl.
  - assert (E : String.eqb key (prefix ++ k)%string
                 = String.eqb (substring (String.length prefix)
                                 (String.length key - String.length prefix)
                                 key) k).
    { rewrite (prefix_split _ _ Ep) at 1. apply prefix_eqb. }
    rewrite E.
    destruct (String.eqb _ k); [reflexivity | exact IH].
  - destruct (String.eqb_spec key (prefix ++ k)%string) as [-> | Hne]; [| exact IH].
    now rewrite prefix_append in Ep.
Qed.

Lemma filter_dict_by_prefix_NoDup {V} (source : list (string * V))
    (prefix : string) :
  NoDup (map fst source) ->
  NoDup (map fst (Learner.filter_dict_by_prefix source prefix)).
Proof.
  induction source as [| [key val] source IH]; simpl; intros Hnd.
  - constructor.
  - inversion Hnd as [| ? ? Hnot Hnd']; subst.
    destruct (String.prefix prefix key) eqn:Ep; simpl; [| now apply IH].
    constructor; [| now apply IH].
    intros Hin. apply in_map_iff in Hin as ([k v] & Hk & Hin).
    simpl in Hk. subst k.
    apply Hnot. apply in_map_iff. exists (key, v). split; trivial.
    apply filter_dict_by_prefix_In in Hin.
    now rewrite <- (prefix_split _ _ Ep) in Hin.
Qed.

(** X2.  What [_store_kwargs] stores, [_get_prefix_attributes] finds:
    after the keywords were accepted, the attributes under a prefix
    hold every keyword [prefix + k] under the key [k] with the value
    passed. *)
Theorem store_kwargs_get_prefix_attributes :
  forall (V : Type) (vars kwargs vars' : list (string * V))
         (allowed_prefixes : list string) (prefix k : string) (v : V),
    NoDup (map fst kwargs) ->
    Learner._store_kwargs vars kwargs allowed_prefixes = Ok vars' ->
    In ((prefix ++ k)%string, v) kwargs ->
    lookup (Learner._get_prefix_attributes vars' prefix) k = Some v.
Proof.
  intros V vars kwargs vars' allowed prefix k v Hnd Hstore Hin.
  unfold Learner._store_kwargs in Hstore.
  destruct (Learner.check_kwargs allowed kwargs); simpl in Hstore;
    [| discriminate].
  inversion Hstore; subst vars'.
  unfold Learner._get_prefix_attributes.
  rewrite lookup_filter_dict_by_prefix, lookup_update by trivial.
  now rewrite (lookup_In kwargs _ _ Hnd Hin).
Qed.

(** X3.  The options the hidden [Dense] layers of the FETA chooser are
    built with: an attribute [hidden_dense_layer__k] overrides the
    default of option [k] and adds any other option; without it the
    default of [kernel_regularizer], [kernel_initializer] and
    [activation] is used, and no other option is passed. *)
Theorem hidden_dense_kwargs_override :
  forall (V : Type) (vars : list (string * V))
         (kernel_regularizer_ kernel_initializer activation : V)
         (k : string),
    NoDup (map fst vars) ->
    lookup (FETADiscreteChoiceLayers.hidden_dense_kwargs
              vars kernel_regularizer_ kernel_initializer activation) k
    = match lookup vars ("hidden_dense_layer__" ++ k)%string with
      | Some v => Some v
      | None =>
          lookup [("kernel_regularizer", kernel_regularizer_);
                  ("kernel_initializer", kernel_initializer);
                  ("activation", activation)] k
      end.
Proof.
  intros V vars r i a k Hnd.
  unfold FETADiscreteChoiceLayers.hidden_dense_kwargs,
         Learner._get_prefix_attributes.
  rewrite lookup_update by now apply filter_dict_by_prefix_NoDup.
  now rewrite lookup_filter_dict_by_prefix.
Qed.

(** X2 on the keywords of a FETA chooser. *)
Lemma store_kwargs_get_prefix_attributes_witness :
  (NoDup (map fst (skipn 1 configured_vars))
   /\ Learner._store_kwargs (firstn 1 configured_vars)
        (skipn 1 configured_vars) FETADiscreteChoiceLayers.allowed_prefixes
      = Ok configured_vars
   /\ In (("hidden_dense_layer__" ++ "use_bias")%string, Bool false)
         (skipn 1 configured_vars))
  /\ lookup (Learner._get_prefix_attributes configured_vars
               "hidden_dense_layer__") "use_bias"
     = Some (Bool false).
Proof.
  assert (H1 : NoDup (map fst (skipn 1 configured_vars))).
  { simpl. repeat constructor; simpl; intuition discriminate. }
  assert (H2 : Learner._store_kwargs (firstn 1 configured_vars)
                 (skipn 1 configured_vars)
                 FETADiscreteChoiceLayers.allowed_prefixes
               = Ok configured_vars) by reflexivity.
  assert (H3 : In (("hidden_dense_layer__" ++ "use_bias")%string, Bool false)
                  (skipn 1 configured_vars)) by (simpl; auto).
  split; [repeat split; assumption |].
  exact (@store_kwargs_get_prefix_attributes value _ _ _ _
           "hidden_dense_layer__" "use_bias" (Bool false) H1 H2 H3).
Defined.

(** X3 on the same learner: its activation is overridden. *)
Lemma hidden_dense_kwargs_override_witness :
  NoDup (map fst configured_vars)
  /\ lookup (FETADiscreteChoiceLayers.hidden_dense_kwargs
               configured_vars (Str "l2") (Str "lecun_normal") (Str "selu"))
            "activation"
     = Some (Str "relu").
Proof.
  assert (H : NoDup (map fst configured_vars)).
  { simpl. repeat constructor; simpl; intuition discriminate. }
  split; [exact H |].
  exact (@hidden_dense_kwargs_override value configured_vars (Str "l2")
           (Str "lecun_normal") (Str "selu") "activation" H).
Defined.

(** ** [predict_scores] on a dict of query-set sizes *)

Lemma setitem_nat_fresh {V} (d : list (nat * V)) (key : nat) (value : V) :
  ~ In key (map fst d) -> Learner.setitem_nat d key value = d ++ [(key, value)].
Proof.
  induction d as [| [k v] d IH]; simpl; intros H; trivial.
  destruct (Nat.eqb_spec k key); [tauto |].
  f_equal. apply IH. tauto.
Qed.

Lemma predict_scores_items_in_turn (self : Type)
    (fixed : batch -> self -> result (list (list R)) * self)
    (items : list (nat * batch)) :
  forall (acc out : list (nat * list (list R))) (s s' : self),
    NoDup (map fst items) ->
    (forall k, In k (map fst items) -> ~ In k (map fst acc)) ->
    (Learner.predict_scores_items fixed items acc s = (Ok out, s')
     <-> exists res, out = acc ++ res /\ scored_in_turn fixed items s res s').
Proof.
  induction items as [| [k x] items IH]; intros acc out s s' Hnd Hacc.
  - simpl. split.
    + intros H. inversion H; subst. exists []. now rewrite app_nil_r.
    + intros ([| r res] & -> & Hres); simpl in Hres; [| contradiction].
      subst. now rewrite app_nil_r.
  - inversion Hnd as [| ? ? Hnot Hnd']; subst.
    assert (Hfresh : forall sc,
               Learner.setitem_nat acc k sc = acc ++ [(k, sc)]).
    { intros sc. apply setitem_nat_fresh. apply Hacc. now left. }
    assert (Hacc' : forall sc k',
               In k' (map fst items) -> ~ In k' (map fst (acc ++ [(k, sc)]))).
    { intros sc k' Hk'. rewrite map_app, in_app_iff. simpl.
      intros [Hin | [<- | []]]; [| tauto].
      apply (Hacc k'); simpl; auto. }
    cbn [Learner.predict_scores_items scored_in_turn]. split.
    + destruct (fixed x s) as [[sc | e] s1] eqn:Efixed; [| discriminate].
      rewrite Hfresh. intros H.
      apply (IH _ _ _ _ Hnd' (Hacc' sc)) in H as (res & -> & Hres).
      exists ((k, sc) :: res). rewrite <- app_assoc. split; trivial.
      split; trivial. now exists s1.
    + intros ([| [k' sc] res] & -> & Hres); [contradiction |].
      destruct Hres as (-> & s1 & Efixed & Hres).
      rewrite Efixed, Hfresh.
      apply (IH _ _ _ _ Hnd' (Hacc' sc)).
      exists res. now rewrite <- app_assoc.
Qed.

Lemma scored_in_turn_keys (self : Type)
    (fixed : batch -> self -> result (list (list R)) * self)
    (items : list (nat * batch)) :
  forall (s s' : self) (out : list (nat * list (list R))),
    scored_in_turn fixed items s out s' -> map fst out = map fst items.
Proof.
  induction items as [| [k x] items IH]; intros s s' [| [k' sc] out] H;
    simpl in H; try contradiction; trivial.
  destruct H as (-> & s1 & _ & H). simpl. f_equal. exact (IH _ _ _ H).
Qed.

(** X4.  [predict_scores] on a dict of query-set sizes returns a dict
    exactly when [_predict_scores_fixed] returns scores for the batch
    under each key, called on the keys in order, each call on the
    learner as the call before left it; the dict returned has the same
    keys in the same order, the value under each key is what that call
    returned, and the learner is left as the last call left it. *)
Theorem predict_scores_dict_keys :
  forall (self : Type)
         (_predict_scores_fixed
          : batch -> self -> result (list (list R)) * self)
         (d : list (nat * batch)) (s s' : self) (out : Learner.scores),
    NoDup (map fst d) ->
    (Learner.predict_scores _predict_scores_fixed (Learner.Dict d) s
     = (Ok out, s')
     <-> exists sc,
         out = Learner.ScoresDict sc
         /\ scored_in_turn _predict_scores_fixed d s sc s')
    /\ (forall sc,
           scored_in_turn _predict_scores_fixed d s sc s' ->
           map fst sc = map fst d).
Proof.
  intros self fixed d s s' out Hnd. split.
  - unfold Learner.predict_scores. split.
    + intros H.
      destruct (Learner.predict_scores_items fixed d [] s)
        as [[sc | e] s1] eqn:E; inversion H; subst.
      apply predict_scores_items_in_turn in E as (res & -> & Hres);
        trivial; [| intros k _ []].
      now exists res.
    + intros (sc & -> & Hsc).
      assert (E : Learner.predict_scores_items fixed d [] s = (Ok sc, s')).
      { apply predict_scores_items_in_turn; trivial; [intros k _ [] |].
        now exists sc. }
      now rewrite E.
  - intros sc. apply scored_in_turn_keys.
Qed.

(** X4 on query sets of three and of two objects, scored by a fitted
    RankNet that builds its scoring model in the first call and reuses
    it in the second. *)
Lemma predict_scores_dict_keys_witness :
  (NoDup (map fst [(3, [three_objects]); (2, [two_objects])])
   /\ Learner.predict_scores RankNetCore._predict_scores_fixed
        (Learner.Dict [(3, [three_objects]); (2, [two_objects])])
        fitted_ranknet
      = (Ok (Learner.ScoresDict
               [(3, map (map (RankNetCore.model_score
                                (RankNetCore.heap fitted_ranknet)
                                (RankNetCore.mkModel [1] 0)))
                        [three_objects]);
                (2, map (map (RankNetCore.model_score
                                (RankNetCore.heap fitted_ranknet)
                                (RankNetCore.mkModel [1] 0)))
                        [two_objects])]),
         RankNetCore.set_scoring_model fitted_ranknet
                                       (RankNetCore.mkModel [1] 0)))
  /\ exists sc,
      Learner.ScoresDict
        [(3, map (map (RankNetCore.model_score
                         (RankNetCore.heap fitted_ranknet)
                         (RankNetCore.mkModel [1] 0)))
                 [three_objects]);
         (2, map (map (RankNetCore.model_score
                         (RankNetCore.heap fitted_ranknet)
                         (RankNetCore.mkModel [1] 0)))
                 [two_objects])]
      = Learner.ScoresDict sc
      /\ scored_in_turn RankNetCore._predict_scores_fixed
           [(3, [three_objects]); (2, [two_objects])]
           fitted_ranknet sc
           (RankNetCore.set_scoring_model fitted_ranknet
                                          (RankNetCore.mkModel [1] 0)).
Proof.
  assert (H1 : NoDup (map fst [(3, [three_objects]); (2, [two_objects])])).
  { simpl. repeat constructor; simpl; intuition discriminate. }
  assert (H2 : Learner.predict_scores RankNetCore._predict_scores_fixed
                 (Learner.Dict [(3, [three_objects]); (2, [two_objects])])
                 fitted_ranknet
               = (Ok (Learner.ScoresDict
                        [(3, map (map (RankNetCore.model_score
                                         (RankNetCore.heap fitted_ranknet)
                                         (RankNetCore.mkModel [1] 0)))
                                 [three_objects]);
                         (2, map (map (RankNetCore.model_score
                                         (RankNetCore.heap fitted_ranknet)
                                         (RankNetCore.mkModel [1] 0)))
                                 [two_objects])]),
                  RankNetCore.set_scoring_model fitted_ranknet
                                                (RankNetCore.mkModel [1] 0)))
    by reflexivity.
  split; [split; assumption |].
  exact (proj1 (proj1 (@predict_scores_dict_keys RankNetCore.t
                         RankNetCore._predict_scores_fixed _ fitted_ranknet
                         _ _ H1))
               H2).
Defined.

(** ** RankNet: what [fit] leaves behind *)





Section RankNetFitFacts.

Variable labels : Type.
Variable pairwise_data : Type.
Variable initial_hidden : nat -> layer.
Variable initial_output : Dense1.
Variable _convert_instances_ : batch -> labels -> result pairwise_data.
Variable keras_fit
  : pairwise_data -> list layer -> Dense1 ->
    (list layer * Dense1) * result unit.

Let fit := RankNetCore.fit initial_hidden initial_output
                           _convert_instances_ keras_fit.


End RankNetFitFacts.

(** X5.  A RankNet on which [fit] has not got past the conversion of
    the instances cannot predict: fresh from [__init__],
    [_predict_scores_fixed] raises [AttributeError] for
    [n_object_features_fit_]; after a [fit] whose conversion raised,
    which leaves [fit] with that exception, it raises [AttributeError]
    for [hidden_layers].  With the [_convert_instances_] of
    [RankNetCore] itself, [fit] raises [NotImplementedError]. *)
Theorem ranknet_cannot_predict_before_fit :
  forall (labels pairwise_data : Type) (initial_hidden : nat -> layer)
         (initial_output : Dense1)
         (_convert_instances_ : batch -> labels -> result pairwise_data)
         (keras_fit : pairwise_data -> list layer -> Dense1 ->
                      (list layer * Dense1) * result unit)
         (allowed_dense_kwargs : list string) (n_hidden : nat)
         (kwargs : list (string * value)) (self : RankNetCore.t)
         (X X' : batch) (Y : labels),
    RankNetCore.__init__ allowed_dense_kwargs n_hidden kwargs = Ok self ->
    RankNetCore._predict_scores_fixed X' self
    = (Raise (AttributeError "n_object_features_fit_"), self)
    /\ (forall e,
           _convert_instances_ X Y = Raise e ->
           exists self',
             RankNetCore.fit initial_hidden initial_output
                             _convert_instances_ keras_fit X Y self
             = (Raise e, self')
             /\ RankNetCore._predict_scores_fixed X' self'
                = (Raise (AttributeError "hidden_layers"), self'))
    /\ fst (RankNetCore.fit initial_hidden initial_output
                            (@RankNetCore._convert_instances_
                               labels pairwise_data)
                            keras_fit X Y self)
       = Raise NotImplementedError.
Proof.
  intros labels pairwise_data ih io convert kf allowed n kwargs self X X' Y
         Hinit.
  inversion Hinit; subst self. split; [reflexivity |]. split.
  - intros e He. unfold RankNetCore.fit. rewrite He.
    eexists. split; reflexivity.
  - reflexivity.
Qed.

(** X5 on a learner with two hidden layers. *)
Lemma ranknet_cannot_predict_before_fit_witness :
  RankNetCore.__init__ [] 2 [] = Ok (ChoiceFunction.core fresh_ranknet_choice)
  /\ RankNetCore._predict_scores_fixed one_object
       (ChoiceFunction.core fresh_ranknet_choice)
     = (Raise (AttributeError "n_object_features_fit_"),
        ChoiceFunction.core fresh_ranknet_choice).
Proof.
  assert (H : RankNetCore.__init__ [] 2 []
              = Ok (ChoiceFunction.core fresh_ranknet_choice))
    by reflexivity.
  split; [exact H |].
  exact (proj1 (@ranknet_cannot_predict_before_fit
                  (list (list bool)) unit toy_initial_hidden
                  toy_initial_output failing_convert toy_keras_fit
                  [] 2 [] _ one_object one_object [] H)).
Defined.

(** X6.  With [n_hidden = 0], [fit] gets past the conversion, creates
    the output node and no hidden layer, and raises [IndexError] when
    the pairwise model is constructed; no model is stored.  The layers
    it created stay: a learner that has not predicted before then
    predicts, with the untrained output node applied to the raw
    features. *)
Theorem ranknet_fit_without_hidden_layers :
  forall (labels pairwise_data : Type) (initial_hidden : nat -> layer)
         (initial_output : Dense1)
         (_convert_instances_ : batch -> labels -> result pairwise_data)
         (keras_fit : pairwise_data -> list layer -> Dense1 ->
                      (list layer * Dense1) * result unit)
         (self : RankNetCore.t) (X X' : batch) (Y : labels)
         (data : pairwise_data),
    RankNetCore.n_hidden self = 0 ->
    RankNetCore._scoring_model self = None ->
    _convert_instances_ X Y = Ok data ->
    exists failed,
      RankNetCore.fit initial_hidden initial_output _convert_instances_
                      keras_fit X Y self
      = (Raise IndexError, failed)
      /\ RankNetCore.model_ failed = RankNetCore.model_ self
      /\ fst (RankNetCore._predict_scores_fixed X' failed)
         = Ok (map (map (sigmoid_unit initial_output)) X').
Proof.
  intros labels pairwise_data ih io convert kf self X X' Y data Hn Hsm Hconv.
  unfold RankNetCore.fit. rewrite Hconv.
  unfold RankNetCore.construct_model, RankNetCore._construct_layers.
  cbn [RankNetCore.hidden_layers RankNetCore.output_node RankNetCore.heap
       RankNetCore.n_hidden RankNetCore.set_features].
  rewrite Hn. cbn [seq map]. eexists. split; [reflexivity |].
  split; [reflexivity |].
  unfold RankNetCore._predict_scores_fixed, RankNetCore.scoring_model,
    RankNetCore.set_features.
  simpl. rewrite Hsm. simpl.
  f_equal. apply map_ext. intros x. apply map_ext. intros v.
  unfold RankNetCore.model_score, RankNetCore.deref_output.
  cbn [RankNetCore.model_hidden RankNetCore.model_output map].
  rewrite nth_error_app2 by lia. rewrite Nat.sub_diag. reflexivity.
Qed.

(** X6 on a learner fresh from [__init__]. *)
Lemma ranknet_fit_without_hidden_layers_witness :
  (RankNetCore.n_hidden ranknet_without_hidden = 0
   /\ RankNetCore._scoring_model ranknet_without_hidden = None
   /\ toy_convert one_object 0%R = Ok 0%R)
  /\ exists failed,
      RankNetCore.fit toy_initial_hidden toy_initial_output toy_convert
                      toy_training one_object 0%R ranknet_without_hidden
      = (Raise IndexError, failed)
      /\ RankNetCore.model_ failed = RankNetCore.model_ ranknet_without_hidden
      /\ fst (RankNetCore._predict_scores_fixed one_object failed)
         = Ok (map (map (sigmoid_unit toy_initial_output)) one_object).
Proof.
  assert (H1 : RankNetCore.n_hidden ranknet_without_hidden = 0)
    by reflexivity.
  assert (H2 : RankNetCore._scoring_model ranknet_without_hidden = None)
    by reflexivity.
  assert (H3 : toy_convert one_object 0%R = Ok 0%R) by reflexivity.
  split; [repeat split; assumption |].
  exact (@ranknet_fit_without_hidden_layers R R toy_initial_hidden
           toy_initial_output toy_convert toy_training
           ranknet_without_hidden one_object one_object 0%R 0%R H1 H2 H3).
Defined.

(** X7.  A [fit] whose conversion of the instances raises has recorded
    the number of features of its batch and nothing else: it constructs
    no layer and touches neither the models nor the weights.  A learner
    that could predict, and that has built its scoring model before or
    was fitted on that number of features, predicts the same scores
    afterwards. *)
Theorem ranknet_failed_conversion_keeps_scores :
  forall (labels pairwise_data : Type) (initial_hidden : nat -> layer)
         (initial_output : Dense1)
         (_convert_instances_ : batch -> labels -> result pairwise_data)
         (keras_fit : pairwise_data -> list layer -> Dense1 ->
                      (list layer * Dense1) * result unit)
         (self : RankNetCore.t) (X X' : batch) (Y : labels) (e : exn)
         (sc : list (list R)),
    _convert_instances_ X Y = Raise e ->
    RankNetCore._scoring_model self <> None
    \/ RankNetCore.n_object_features_fit_ self
       = Some (RankNetCore.n_features_of X) ->
    fst (RankNetCore._predict_scores_fixed X' self) = Ok sc ->
    exists self',
      RankNetCore.fit initial_hidden initial_output _convert_instances_
                      keras_fit X Y self
      = (Raise e, self')
      /\ RankNetCore.n_object_features_fit_ self'
         = Some (RankNetCore.n_features_of X)
      /\ RankNetCore.heap self' = RankNetCore.heap self
      /\ RankNetCore.hidden_layers self' = RankNetCore.hidden_layers self
      /\ RankNetCore.output_node self' = RankNetCore.output_node self
      /\ RankNetCore.model_ self' = RankNetCore.model_ self
      /\ RankNetCore._scoring_model self' = RankNetCore._scoring_model self
      /\ fst (RankNetCore._predict_scores_fixed X' self') = Ok sc.
Proof.
  intros labels pairwise_data ih io convert kf self X X' Y e sc Hconv Hbuilt
         Hsc.
  unfold RankNetCore.fit. rewrite Hconv.
  eexists. split; [reflexivity |].
  repeat (split; [reflexivity |]).
  revert Hsc.
  unfold RankNetCore._predict_scores_fixed, RankNetCore.scoring_model.
  cbn [RankNetCore._scoring_model RankNetCore.n_object_features_fit_
       RankNetCore.hidden_layers RankNetCore.output_node RankNetCore.heap
       RankNetCore.set_features].
  destruct (RankNetCore._scoring_model self); trivial.
  destruct (RankNetCore.n_object_features_fit_ self);
    [| intros H; discriminate].
  destruct (RankNetCore.hidden_layers self); trivial.
  destruct (RankNetCore.output_node self); trivial.
Qed.

(** X7 on a learner fitted on objects with one feature, and a batch of
    such objects whose conversion fails. *)
Lemma ranknet_failed_conversion_keeps_scores_witness :
  (failing_convert ten_queries ten_choices
   = Raise (ValueError "cannot convert the instances")
   /\ (RankNetCore._scoring_model fitted_ranknet <> None
       \/ RankNetCore.n_object_features_fit_ fitted_ranknet
          = Some (RankNetCore.n_features_of ten_queries))
   /\ fst (RankNetCore._predict_scores_fixed one_object fitted_ranknet)
      = Ok (map (map (RankNetCore.utility [plain_hidden] plain_output))
                one_object))
  /\ exists self',
      RankNetCore.fit toy_initial_hidden toy_initial_output failing_convert
                      toy_keras_fit ten_queries ten_choices fitted_ranknet
      = (Raise (ValueError "cannot convert the instances"), self')
      /\ RankNetCore.n_object_features_fit_ self'
         = Some (RankNetCore.n_features_of ten_queries)
      /\ RankNetCore.heap self' = RankNetCore.heap fitted_ranknet
      /\ RankNetCore.hidden_layers self'
         = RankNetCore.hidden_layers fitted_ranknet
      /\ RankNetCore.output_node self'
         = RankNetCore.output_node fitted_ranknet
      /\ RankNetCore.model_ self' = RankNetCore.model_ fitted_ranknet
      /\ RankNetCore._scoring_model self'
         = RankNetCore._scoring_model fitted_ranknet
      /\ fst (RankNetCore._predict_scores_fixed one_object self')
         = Ok (map (map (RankNetCore.utility [plain_hidden] plain_output))
                   one_object).
Proof.
  assert (H1 : failing_convert ten_queries ten_choices
               = Raise (ValueError "cannot convert the instances"))
    by reflexivity.
  assert (H2 : RankNetCore._scoring_model fitted_ranknet <> None
               \/ RankNetCore.n_object_features_fit_ fitted_ranknet
                  = Some (RankNetCore.n_features_of ten_queries))
    by (right; reflexivity).
  assert (H3 : fst (RankNetCore._predict_scores_fixed one_object
                      fitted_ranknet)
               = Ok (map (map (RankNetCore.utility [plain_hidden]
                                                   plain_output))
                         one_object))
    by reflexivity.
  split; [repeat split; assumption |].
  exact (@ranknet_failed_conversion_keeps_scores (list (list bool)) unit
           toy_initial_hidden toy_initial_output failing_convert
           toy_keras_fit fitted_ranknet ten_queries one_object ten_choices
           _ _ H1 H2 H3).
Defined.



(** X9.  The cached scoring model is not observable between two fits:
    whether or not an earlier call of [_predict_scores_fixed] created
    it, and on whatever batch, a call returns the same result. *)
Theorem ranknet_scoring_model_cache_transparent :
  forall (X1 X2 : batch) (self : RankNetCore.t),
    fst (RankNetCore._predict_scores_fixed
           X2 (snd (RankNetCore._predict_scores_fixed X1 self)))
    = fst (RankNetCore._predict_scores_fixed X2 self).
Proof.
  intros X1 X2 self.
  unfold RankNetCore._predict_scores_fixed, RankNetCore.scoring_model.
  destruct (RankNetCore._scoring_model self) eqn:Esm; simpl.
  - now rewrite Esm.
  - destruct (RankNetCore.n_object_features_fit_ self) eqn:Ef; simpl.
    2:{ now rewrite Esm, Ef. }
    destruct (RankNetCore.hidden_layers self) eqn:Eh; simpl.
    2:{ now rewrite Esm, Ef, Eh. }
    destruct (RankNetCore.output_node self) eqn:Eo; simpl.
    2:{ now rewrite Esm, Ef, Eh, Eo. }
    reflexivity.
Qed.

(** ** RankNet: the pairwise output on a pair and on its reverse *)

Lemma sigmoid_complement (z : R) : sigmoid (- z) = (1 - sigmoid z)%R.
Proof.
  unfold sigmoid. rewrite Ropp_involutive, exp_Ropp.
  pose proof (exp_pos z) as He.
  field. split; lra.
Qed.

(** X10.  When the later hidden layers commute with the negation of an
    encoding (as they do when there is one hidden layer), the pairwise
    outputs for a pair and for its reverse are [sigmoid(z + bias)] and
    [sigmoid(-z + bias)], where [z] is the difference of the logits;
    an object compared with itself gets [sigmoid(bias)].  The two
    outputs add up to 1 when the bias of the output node is 0, to more
    when it is positive and to less when it is negative. *)
Theorem ranknet_pairwise_complement :
  forall (first : layer) (later : list layer) (out : Dense1) (a b : vec),
    through later (vneg (first a)) = vneg (through later (first a)) ->
    through later (vneg (first b)) = vneg (through later (first b)) ->
    length (through later (first a)) = length (through later (first b)) ->
    let z := (logit first later out a - logit first later out b)%R in
    RankNetCore.pairwise_output (first :: later) out a b
    = Ok (sigmoid (z + bias out))
    /\ RankNetCore.pairwise_output (first :: later) out b a
       = Ok (sigmoid (- z + bias out))
    /\ RankNetCore.pairwise_output (first :: later) out a a
       = Ok (sigmoid (bias out))
    /\ (bias out = 0%R ->
        (sigmoid (z + bias out) + sigmoid (- z + bias out) = 1)%R)
    /\ ((0 < bias out)%R ->
        (sigmoid (z + bias out) + sigmoid (- z + bias out) > 1)%R)
    /\ ((bias out < 0)%R ->
        (sigmoid (z + bias out) + sigmoid (- z + bias out) < 1)%R).
Proof.
  intros first later out a b Ha Hb Hlen z. subst z.
  rewrite !pairwise_output_unfold, Ha, Hb.
  rewrite !dot_vadd by (now rewrite vneg_length).
  rewrite !dot_vneg. fold (logit first later out a).
  fold (logit first later out b).
  set (la := logit first later out a). set (lb := logit first later out b).
  pose proof (sigmoid_complement (la - lb)) as Hc.
  split; [reflexivity |]. split; [do 2 f_equal; lra |].
  split; [do 2 f_equal; lra |]. split; [| split].
  - intros ->. rewrite !Rplus_0_r, Hc. lra.
  - intros Hpos.
    pose proof (@sigmoid_increasing (la - lb) (la - lb + bias out)) as H1.
    pose proof (@sigmoid_increasing (- (la - lb))
                                    (- (la - lb) + bias out)) as H2.
    lra.
  - intros Hneg.
    pose proof (@sigmoid_increasing (la - lb + bias out) (la - lb)) as H1.
    pose proof (@sigmoid_increasing (- (la - lb) + bias out)
                                    (- (la - lb))) as H2.
    lra.
Qed.

(** X10 on a network with one hidden layer and no bias. *)
Lemma ranknet_pairwise_complement_witness :
  (through [] (vneg (plain_hidden [2%R])) = vneg (through [] (plain_hidden [2%R]))
   /\ through [] (vneg (plain_hidden [1%R]))
      = vneg (through [] (plain_hidden [1%R]))
   /\ length (through [] (plain_hidden [2%R]))
      = length (through [] (plain_hidden [1%R])))
  /\ RankNetCore.pairwise_output [plain_hidden] plain_output [2%R] [2%R]
     = Ok (sigmoid (bias plain_output)).
Proof.
  assert (H1 : through [] (vneg (plain_hidden [2%R]))
               = vneg (through [] (plain_hidden [2%R]))) by reflexivity.
  assert (H2 : through [] (vneg (plain_hidden [1%R]))
               = vneg (through [] (plain_hidden [1%R]))) by reflexivity.
  assert (H3 : length (through [] (plain_hidden [2%R]))
               = length (through [] (plain_hidden [1%R]))) by reflexivity.
  split; [repeat split; assumption |].
  exact (proj1 (proj2 (proj2 (@ranknet_pairwise_complement plain_hidden []
                                plain_output [2%R] [1%R] H1 H2 H3)))).
Defined.

(** ** CmpNet: the score of an object and the order of the others *)

Lemma sum_Permutation (l l' : list R) : Permutation l l' -> sum l = sum l'.
Proof.
  induction 1; simpl; lra.
Qed.

Lemma arithmetic_mean_Permutation (l l' : list R) :
  Permutation l l' -> arithmetic_mean l = arithmetic_mean l'.
Proof.
  intros H. unfold arithmetic_mean.
  now rewrite (sum_Permutation H), (Permutation_length H).
Qed.

Lemma map_nth_seq {A} (d : A) (l : list A) :
  map (fun j => nth j l d) (seq 0 (length l)) = l.
Proof.
  induction l as [| x l IH]; simpl; trivial.
  f_equal. rewrite <- seq_shift, map_map. exact IH.
Qed.

Lemma map_nth_seq_app {A} (d : A) (l1 l2 : list A) :
  map (fun j => nth j (l1 ++ l2) d) (seq (length l1) (length l2)) = l2.
Proof.
  induction l1 as [| x l1 IH]; simpl.
  - apply map_nth_seq.
  - rewrite <- seq_shift, map_map. exact IH.
Qed.

Lemma map_nth_seq_prefix {A} (d : A) (l1 l2 : list A) :
  map (fun j => nth j (l1 ++ l2) d) (seq 0 (length l1)) = l1.
Proof.
  rewrite <- (map_nth_seq d l1) at 2.
  apply map_ext_in. intros j Hj. apply in_seq in Hj.
  apply app_nth1. lia.
Qed.

(** The competitors of an object, as objects. *)
Lemma objects_of_competitors (before after : list vec) (a : vec) :
  map (obj (before ++ a :: after))
      (competitors (length (before ++ a :: after)) (length before))
  = before ++ after.
Proof.
  rewrite competitors_split by (rewrite length_app; simpl; lia).
  rewrite map_app. f_equal.
  - apply map_nth_seq_prefix.
  - replace (length (before ++ a :: after) - S (length before))
      with (length after) by (rewrite length_app; simpl; lia).
    change (before ++ a :: after) with (before ++ [a] ++ after).
    rewrite app_assoc.
    replace (S (length before)) with (length (before ++ [a]))
      by (rewrite length_app; simpl; lia).
    apply map_nth_seq_app.
Qed.

Lemma cmpnet_score_of_object (self : CmpNetCore.t) (before after : list vec)
    (a : vec) :
  1 <= length (before ++ after) ->
  exists s,
    CmpNetCore.scores_of_instance self (before ++ a :: after) = Ok s
    /\ nth (length before) s 0%R
       = arithmetic_mean
           (map (fun y => fst (CmpNetCore.construct_model self a y))
                (before ++ after)).
Proof.
  intros Hlen.
  assert (Hn : 2 <= length (before ++ a :: after)).
  { rewrite length_app in *. simpl. lia. }
  eexists. split; [now apply cmpnet_scores_of_instance |].
  rewrite (nth_map_seq
             (fun i => arithmetic_mean
                         (map (cmpnet_pair_score self (before ++ a :: after) i)
                              (competitors (length (before ++ a :: after))
                                           i))))
    by (rewrite length_app; simpl; lia).
  unfold cmpnet_pair_score.
  etransitivity.
  2:{ apply (f_equal arithmetic_mean).
      apply (f_equal (map (fun y => fst (CmpNetCore.construct_model
                                           self a y)))).
      apply (objects_of_competitors before after a). }
  rewrite map_map. do 2 f_equal.
  unfold obj. now rewrite nth_middle.
Qed.

(** X11.  The CmpNet score of an object is the mean of the first
    output of the pairwise model on the object paired with each of
    the other objects of its query set; it depends neither on the
    position of the object nor on the order of the others. *)
Theorem cmpnet_score_order_independent :
  forall (self : CmpNetCore.t) (before after before' after' : list vec)
         (a : vec),
    1 <= length (before ++ after) ->
    Permutation (before ++ after) (before' ++ after') ->
    exists s s',
      CmpNetCore.scores_of_instance self (before ++ a :: after) = Ok s
      /\ CmpNetCore.scores_of_instance self (before' ++ a :: after') = Ok s'
      /\ nth (length before) s 0%R
         = arithmetic_mean
             (map (fun y => fst (CmpNetCore.construct_model self a y))
                  (before ++ after))
      /\ nth (length before') s' 0%R = nth (length before) s 0%R.
Proof.
  intros self before after before' after' a Hlen Hperm.
  destruct (@cmpnet_score_of_object self before after a Hlen)
    as (s & Hs & Hscore).
  destruct (@cmpnet_score_of_object self before' after' a) as (s' & Hs' & Hscore').
  { now rewrite <- (Permutation_length Hperm). }
  exists s, s'. repeat split; trivial.
  rewrite Hscore, Hscore'. apply arithmetic_mean_Permutation.
  apply Permutation_map. now apply Permutation_sym.
Qed.

(** X11 on three objects, the first moved to the end and the others
    swapped. *)
Lemma cmpnet_score_order_independent_witness :
  (1 <= length ([] ++ [[1%R]; [0%R]])
   /\ Permutation ([] ++ [[1%R]; [0%R]]) ([[0%R]; [1%R]] ++ []))
  /\ exists s s',
      CmpNetCore.scores_of_instance cmpnet_example ([] ++ [2%R] :: [[1%R]; [0%R]])
      = Ok s
      /\ CmpNetCore.scores_of_instance cmpnet_example
           ([[0%R]; [1%R]] ++ [2%R] :: [])
         = Ok s'
      /\ nth (length (@nil vec)) s 0%R
         = arithmetic_mean
             (map (fun y => fst (CmpNetCore.construct_model cmpnet_example
                                                            [2%R] y))
                  ([] ++ [[1%R]; [0%R]]))
      /\ nth (length [[0%R]; [1%R]]) s' 0%R = nth (length (@nil vec)) s 0%R.
Proof.
  assert (H1 : 1 <= length ([] ++ [[1%R]; [0%R]])) by (simpl; lia).
  assert (H2 : Permutation ([] ++ [[1%R]; [0%R]]) ([[0%R]; [1%R]] ++ []))
    by apply perm_swap.
  split; [split; assumption |].
  exact (@cmpnet_score_order_independent cmpnet_example [] [[1%R]; [0%R]]
           [[0%R]; [1%R]] [] [2%R] H1 H2).
Defined.

(** ** The threshold tuner: stride 0 and stride 1 *)






(** X12.  With [thin_thresholds = 0] the slice of the candidates
    raises [ValueError]: a [fit] with a tuning split then fails with
    that exception after the core was fitted, whether or not that fit
    succeeded, and the threshold is left as it was. *)
Theorem fit_with_zero_stride_raises :
  forall (net labels : Type)
         (_predict_scores_fixed
          : batch -> net -> result (list (list R)) * net)
         (super_fit : batch -> labels -> net -> result unit * net)
         (train_test_split
          : batch -> labels -> Q -> result (batch * batch * labels * labels))
         (f1_score : labels -> list (list bool) -> Q)
         (X : batch) (Y : labels) (tune_size : Q)
         (s s' : ChoiceFunction.t net) (X_train X_val : batch)
         (Y_train Y_val : labels) (r : result unit) (c : net)
         (scores : list (list R)),
    (0 < tune_size)%Q ->
    train_test_split X Y tune_size = Ok (X_train, X_val, Y_train, Y_val) ->
    super_fit X_train Y_train (ChoiceFunction.core s) = (r, c) ->
    ChoiceFunction.predict_scores _predict_scores_fixed
      (Learner.Array X_val)
      (ChoiceFunction.mk c (ChoiceFunction.threshold s)
         (ChoiceFunction.calls s
          ++ [ChoiceFunction.TrainTestSplit; ChoiceFunction.SuperFit;
              ChoiceFunction.TuneThreshold]))
    = (Ok (Learner.ScoresArray scores), s') ->
    ChoiceFunction.fit _predict_scores_fixed super_fit train_test_split
                       f1_score X Y tune_size 0 s
    = (Raise (ValueError "slice step cannot be zero"), s')
    /\ ChoiceFunction.threshold s' = ChoiceFunction.threshold s.
Proof.
  intros net labels fixed super_fit split f1 X Y tune_size s s' X_train X_val
         Y_train Y_val r c scores Htune Hsplit Hfit Hscores.
  apply Qgtb_true in Htune.
  rewrite (@fit_finally net labels fixed super_fit split f1 X Y tune_size 0
             s X_train X_val Y_train Y_val r c Htune Hsplit Hfit).
  assert (Ht : ChoiceFunction._tune_threshold fixed f1 X_val Y_val 0
                 (ChoiceFunction.mk c (ChoiceFunction.threshold s)
                    (ChoiceFunction.calls s
                     ++ [ChoiceFunction.TrainTestSplit;
                         ChoiceFunction.SuperFit;
                         ChoiceFunction.TuneThreshold]))
               = (Raise (ValueError "slice step cannot be zero"), s')).
  { unfold ChoiceFunction._tune_threshold. now rewrite Hscores. }
  rewrite Ht. split; trivial.
  now apply (@tune_threshold_frame net labels fixed f1) in Ht.
Qed.

(** X12 on a core whose fit succeeds. *)
Lemma fit_with_zero_stride_raises_witness :
  ((0 < 1 # 10)%Q
   /\ hold_out_last ten_queries ten_choices (1 # 10)
      = Ok (removelast ten_queries, [three_objects],
            removelast ten_choices, [[true; false; false]])
   /\ fit_succeeds (removelast ten_queries) (removelast ten_choices)
                   (ChoiceFunction.core fresh_feta_choice)
      = (Ok tt, tt)
   /\ ChoiceFunction.predict_scores first_feature_scores
        (Learner.Array [three_objects])
        (ChoiceFunction.mk tt (ChoiceFunction.threshold fresh_feta_choice)
           (ChoiceFunction.calls fresh_feta_choice
            ++ [ChoiceFunction.TrainTestSplit; ChoiceFunction.SuperFit;
                ChoiceFunction.TuneThreshold]))
      = (Ok (Learner.ScoresArray [[2%R; 1%R; 0%R]]),
         ChoiceFunction.mk tt (Some (1 / 2)%R)
           [ChoiceFunction.TrainTestSplit; ChoiceFunction.SuperFit;
            ChoiceFunction.TuneThreshold]))
  /\ ChoiceFunction.fit first_feature_scores fit_succeeds hold_out_last
       Sklearn.f1_score ten_queries ten_choices (1 # 10) 0 fresh_feta_choice
     = (Raise (ValueError "slice step cannot be zero"),
        ChoiceFunction.mk tt (Some (1 / 2)%R)
          [ChoiceFunction.TrainTestSplit; ChoiceFunction.SuperFit;
           ChoiceFunction.TuneThreshold]).
Proof.
  assert (H1 : (0 < 1 # 10)%Q) by reflexivity.
  assert (H2 : hold_out_last ten_queries ten_choices (1 # 10)
               = Ok (removelast ten_queries, [three_objects],
                     removelast ten_choices, [[true; false; false]]))
    by reflexivity.
  assert (H3 : fit_succeeds (removelast ten_queries)
                 (removelast ten_choices)
                 (ChoiceFunction.core fresh_feta_choice)
               = (Ok tt, tt)) by reflexivity.
  assert (H4 : ChoiceFunction.predict_scores first_feature_scores
                 (Learner.Array [three_objects])
                 (ChoiceFunction.mk tt
                    (ChoiceFunction.threshold fresh_feta_choice)
                    (ChoiceFunction.calls fresh_feta_choice
                     ++ [ChoiceFunction.TrainTestSplit;
                         ChoiceFunction.SuperFit;
                         ChoiceFunction.TuneThreshold]))
               = (Ok (Learner.ScoresArray [[2%R; 1%R; 0%R]]),
                  ChoiceFunction.mk tt (Some (1 / 2)%R)
                    [ChoiceFunction.TrainTestSplit; ChoiceFunction.SuperFit;
                     ChoiceFunction.TuneThreshold]))
    by reflexivity.
  split; [repeat split; assumption |].
  exact (proj1 (@fit_with_zero_stride_raises unit (list (list bool))
                  first_feature_scores fit_succeeds hold_out_last
                  Sklearn.f1_score ten_queries ten_choices (1 # 10)
                  fresh_feta_choice _ _ _ _ _ _ _ _ H1 H2 H3 H4)).
Defined.



(** ** FETA: the scores of the training graph *)

(** X14.  On a query set of the fitted size, of at least three
    objects, the graph [construct_model] builds scores object [i] from
    the mean of the pairwise outputs of [i] against every other object:
    the sigmoid of that mean without a zeroth-order model, and with one
    the learned sigmoid unit [weighted_sum] applied to that mean and to
    the linear zeroth-order output of the object. *)
Theorem feta_training_graph_scores :
  forall (self : FETADiscreteChoiceFunction.t) (x : list vec),
    FETADiscreteChoiceFunction.n_objects_fit_ self = length x ->
    3 <= length x ->
    FETADiscreteChoiceFunction.construct_model self x
    = Ok (map (fun i =>
                 if FETADiscreteChoiceFunction.add_zeroth_order_model self
                 then sigmoid_unit
                        (FETADiscreteChoiceFunction.weighted_sum self)
                        [first_order_score self x i;
                         FETADiscreteChoiceFunction.zeroth_order_output
                           self (obj x i)]
                 else sigmoid (first_order_score self x i))
              (seq 0 (length x))).
Proof.
  intros self x Hn Hlen.
  destruct (FETADiscreteChoiceFunction.add_zeroth_order_model self) eqn:Hzero.
  - exact (proj1 (@feta_paths_with_zeroth_order self x Hzero Hn Hlen)).
  - rewrite (@feta_paths_agree_without_zeroth_order self x Hzero Hn Hlen).
    unfold FETADiscreteChoiceFunction.scores_of_instance.
    rewrite Hzero, feta_first_order_scores by lia.
    cbn [bind]. now rewrite map_map.
Qed.

(** X14 on three objects with a zeroth-order model. *)
Lemma feta_training_graph_scores_witness :
  (FETADiscreteChoiceFunction.n_objects_fit_ feta_zeroth
   = length three_objects
   /\ 3 <= length three_objects)
  /\ FETADiscreteChoiceFunction.construct_model feta_zeroth three_objects
     = Ok (map (fun i =>
                  sigmoid_unit
                    (FETADiscreteChoiceFunction.weighted_sum feta_zeroth)
                    [first_order_score feta_zeroth three_objects i;
                     FETADiscreteChoiceFunction.zeroth_order_output
                       feta_zeroth (obj three_objects i)])
               (seq 0 (length three_objects))).
Proof.
  assert (H1 : FETADiscreteChoiceFunction.n_objects_fit_ feta_zeroth
               = length three_objects) by reflexivity.
  assert (H2 : 3 <= length three_objects) by (simpl; lia).
  split; [split; assumption |].
  exact (@feta_training_graph_scores feta_zeroth three_objects H1 H2).
Defined.

(** ** The job queue of the experiments *)

Lemma hash_string_fold_listed (job_description : list (string * string))
    (acc : string) :
  fold_left
    (fun hash_string kv =>
       if existsb (String.eqb (fst kv)) DBConnector.keys
       then (hash_string ++ fst kv ++ ":" ++ snd kv)%string
       else hash_string)
    job_description acc
  = fold_left
      (fun hash_string kv =>
         if existsb (String.eqb (fst kv)) DBConnector.keys
         then (hash_string ++ fst kv ++ ":" ++ snd kv)%string
         else hash_string)
      (listed_columns job_description) acc.
Proof.
  unfold listed_columns. revert acc.
  induction job_description as [| [k v] d IH]; intros acc;
    cbn [fold_left filter fst snd]; trivial.
  destruct (existsb (String.eqb k) DBConnector.keys) eqn:E;
    cbn [fold_left fst snd].
  - rewrite E. apply IH.
  - apply IH.
Qed.

Lemma hash_string_listed (job_description : list (string * string)) :
  DBConnector.hash_string job_description
  = DBConnector.hash_string (listed_columns job_description).
Proof.
  apply hash_string_fold_listed.
Qed.

Lemma listed_columns_setitem (job_description : list (string * string))
    (k v : string) :
  ~ In k DBConnector.keys ->
  listed_columns (Learner.setitem job_description k v)
  = listed_columns job_description.
Proof.
  intros Hk.
  assert (Hfalse : existsb (String.eqb k) DBConnector.keys = false).
  { destruct (existsb (String.eqb k) DBConnector.keys) eqn:E; trivial.
    apply existsb_exists in E as (k' & Hin & Heq).
    apply String.eqb_eq in Heq. subst. contradiction. }
  unfold listed_columns.
  induction job_description as [| [k' v'] d IH];
    cbn [Learner.setitem filter fst].
  - now rewrite Hfalse.
  - destruct (String.eqb_spec k' k) as [-> | Hne]; cbn [filter fst].
    + now rewrite Hfalse.
    + now rewrite IH.
Qed.

(** X16.  The hash of a job depends only on the nine listed columns of
    its description, in their order: descriptions that agree on them
    have the same hash, and assigning any other entry, such as
    [hash_value] itself, does not change the hash. *)
Theorem create_hash_value_listed_columns :
  forall (sha1 : string -> string) (self self' : DBConnector.t)
         (d d' : list (string * string)),
    DBConnector.job_description self = Some d ->
    DBConnector.job_description self' = Some d' ->
    listed_columns d = listed_columns d' ->
    DBConnector.create_hash_value sha1 self
    = DBConnector.create_hash_value sha1 self'
    /\ forall k v,
        ~ In k DBConnector.keys ->
        DBConnector.create_hash_value sha1
          (DBConnector.mk (DBConnector.is_gpu self)
                          (Some (Learner.setitem d k v)))
        = DBConnector.create_hash_value sha1 self.
Proof.
  intros sha1 self self' d d' Hd Hd' Hlisted.
  unfold DBConnector.create_hash_value. rewrite Hd, Hd'. simpl. split.
  - rewrite (hash_string_listed d), (hash_string_listed d').
    now rewrite Hlisted.
  - intros k v Hk.
    rewrite (hash_string_listed (Learner.setitem d k v)).
    rewrite listed_columns_setitem by trivial.
    now rewrite <- hash_string_listed.
Qed.

(** X16 on two descriptions that differ in a comment. *)
Lemma create_hash_value_listed_columns_witness :
  (DBConnector.job_description
     (DBConnector.mk false (Some (DBConnector.row_columns job_1)))
   = Some (DBConnector.row_columns job_1)
   /\ DBConnector.job_description
        (DBConnector.mk true
           (Some [("learner", "ranknet"); ("fold_id", "0")]))
      = Some [("learner", "ranknet"); ("fold_id", "0")]
   /\ listed_columns (DBConnector.row_columns job_1)
      = listed_columns [("learner", "ranknet"); ("fold_id", "0")])
  /\ DBConnector.create_hash_value toy_sha1
       (DBConnector.mk false (Some (DBConnector.row_columns job_1)))
     = DBConnector.create_hash_value toy_sha1
         (DBConnector.mk true
            (Some [("learner", "ranknet"); ("fold_id", "0")])).
Proof.
  assert (H1 : DBConnector.job_description
                 (DBConnector.mk false (Some (DBConnector.row_columns job_1)))
               = Some (DBConnector.row_columns job_1)) by reflexivity.
  assert (H2 : DBConnector.job_description
                 (DBConnector.mk true
                    (Some [("learner", "ranknet"); ("fold_id", "0")]))
               = Some [("learner", "ranknet"); ("fold_id", "0")])
    by reflexivity.
  assert (H3 : listed_columns (DBConnector.row_columns job_1)
               = listed_columns [("learner", "ranknet"); ("fold_id", "0")])
    by reflexivity.
  split; [repeat split; assumption |].
  exact (proj1 (@create_hash_value_listed_columns toy_sha1 _ _ _ _
                  H1 H2 H3)).
Defined.

Lemma job_ids_In (is_gpu : bool) (d : DBConnector.database) (j : nat) :
  In j (DBConnector.job_ids is_gpu d)
  <-> is_listed d is_gpu j
      /\ forall r, In r (DBConnector.running_jobs d) ->
                   DBConnector.r_job_id r = j ->
                   DBConnector.r_interrupted r = true.
Proof.
  unfold DBConnector.job_ids, is_listed. rewrite in_map_iff. split.
  - intros (row & Hid & Hin). apply filter_In in Hin as [Hin Hcond].
    apply andb_true_iff in Hcond as [Hgpu Hnone].
    apply Bool.eqb_prop in Hgpu. apply negb_true_iff in Hnone.
    split; [now exists row |].
    intros r Hr Hrj.
    destruct (DBConnector.r_interrupted r) eqn:Ei; trivial.
    assert (Hex : existsb
                    (fun r => negb (DBConnector.r_interrupted r)
                              && Nat.eqb (DBConnector.r_job_id r)
                                         (DBConnector.row_job_id row))
                    (DBConnector.running_jobs d) = true).
    { apply existsb_exists. exists r. split; trivial.
      rewrite Ei, Hrj, Hid. simpl. apply Nat.eqb_refl. }
    congruence.
  - intros ((row & Hin & Hid & Hgpu) & Hall).
    exists row. split; trivial. apply filter_In. split; trivial.
    apply andb_true_iff. split.
    + rewrite Hgpu. apply Bool.eqb_reflx.
    + apply negb_true_iff.
      destruct (existsb _ (DBConnector.running_jobs d)) eqn:E; trivial.
      apply existsb_exists in E as (r & Hr & Hcond).
      apply andb_true_iff in Hcond as [Hni Heq].
      apply Nat.eqb_eq in Heq.
      rewrite (Hall r Hr) in Hni by congruence. discriminate.
Qed.

(** X17.  [append_error_string_in_running_job] on a job with a running
    row and an error history: the new history is [cluster], the id of
    the cluster, and the message, followed, unless the history was
    ['NA'], by [';\n'] and the history so far; every running row of the
    job holds it and is interrupted; the rows of other jobs and
    [avail_jobs] are as before. *)
Theorem append_error_string_history :
  forall (job_id : nat) (error_message : string) (d : DBConnector.database)
         (cur : DBConnector.running_row) (history : string),
    find (fun r => Nat.eqb (DBConnector.r_job_id r) job_id)
         (DBConnector.running_jobs d) = Some cur ->
    DBConnector.r_error_history cur = Some history ->
    let message :=
      ("cluster" ++ DBConnector.str (DBConnector.r_cluster_id cur)
                 ++ error_message)%string in
    let history' :=
      if String.eqb history "NA" then message
      else (message ++ ";" ++ DBConnector.newline ++ history)%string in
    exists d',
      DBConnector.append_error_string_in_running_job job_id error_message d
      = (Ok tt, d')
      /\ DBConnector.avail_jobs d' = DBConnector.avail_jobs d
      /\ map DBConnector.r_job_id (DBConnector.running_jobs d')
         = map DBConnector.r_job_id (DBConnector.running_jobs d)
      /\ (forall r, DBConnector.r_job_id r <> job_id ->
                    (In r (DBConnector.running_jobs d')
                     <-> In r (DBConnector.running_jobs d)))
      /\ (forall r, In r (DBConnector.running_jobs d') ->
                    DBConnector.r_job_id r = job_id ->
                    DBConnector.r_interrupted r = true
                    /\ DBConnector.r_error_history r = Some history').
Proof.
  intros job_id msg d cur history Hfind Hhist message history'.
  unfold DBConnector.append_error_string_in_running_job.
  rewrite Hfind, Hhist. fold message.
  replace (if negb (String.eqb history "NA")
           then (message ++ ";" ++ DBConnector.newline ++ history)%string
           else message)
    with history' by (unfold history'; now destruct (String.eqb history "NA")).
  eexists. split; [reflexivity |]. simpl. split; [reflexivity |].
  split; [| split].
  - rewrite map_map. apply map_ext. intros r.
    unfold DBConnector.set_error.
    now destruct (Nat.eqb (DBConnector.r_job_id r) job_id).
  - intros r Hne. rewrite in_map_iff. split.
    + intros (r0 & Hr0 & Hin). unfold DBConnector.set_error in Hr0.
      destruct (Nat.eqb_spec (DBConnector.r_job_id r0) job_id) as [He | He].
      * subst r. simpl in Hne. congruence.
      * now subst.
    + intros Hin. exists r. split; trivial. unfold DBConnector.set_error.
      destruct (Nat.eqb_spec (DBConnector.r_job_id r) job_id); congruence.
  - intros r Hin Hid. apply in_map_iff in Hin as (r0 & Hr0 & Hin).
    unfold DBConnector.set_error in Hr0.
    destruct (Nat.eqb_spec (DBConnector.r_job_id r0) job_id) as [He | He].
    + subst r. simpl. auto.
    + subst r0. congruence.
Qed.

(** X17 on the running job of the queue. *)
Lemma append_error_string_history_witness :
  (find (fun r => Nat.eqb (DBConnector.r_job_id r) 1)
        (DBConnector.running_jobs queue) = Some running_1
   /\ DBConnector.r_error_history running_1 = Some "NA")
  /\ exists d',
      DBConnector.append_error_string_in_running_job 1 "exceptionX" queue
      = (Ok tt, d')
      /\ DBConnector.avail_jobs d' = DBConnector.avail_jobs queue.
Proof.
  assert (H1 : find (fun r => Nat.eqb (DBConnector.r_job_id r) 1)
                    (DBConnector.running_jobs queue) = Some running_1)
    by reflexivity.
  assert (H2 : DBConnector.r_error_history running_1 = Some "NA")
    by reflexivity.
  split; [split; assumption |].
  destruct (@append_error_string_history 1 "exceptionX" queue running_1 "NA"
              H1 H2) as (d' & Hd' & Havail & _).
  exists d'. split; assumption.
Defined.

(** X18.  A finished job is not handed out again:
    [mark_running_job_finished] leaves every running row of the job
    finished and not interrupted, so the query of
    [fetch_job_arguments] no longer selects the job, for a connector of
    either kind; whether another job is selected does not change.  On a
    job without a running row it changes nothing. *)
Theorem finished_job_is_not_selected :
  forall (d : DBConnector.database) (job_id : nat) (is_gpu : bool),
    has_running_row d job_id ->
    ~ In job_id
         (DBConnector.job_ids
            is_gpu (DBConnector.mark_running_job_finished job_id d))
    /\ (forall r,
           In r (DBConnector.running_jobs
                   (DBConnector.mark_running_job_finished job_id d)) ->
           DBConnector.r_job_id r = job_id ->
           DBConnector.r_finished r = true
           /\ DBConnector.r_interrupted r = false)
    /\ (forall other,
           other <> job_id ->
           (In other
               (DBConnector.job_ids
                  is_gpu (DBConnector.mark_running_job_finished job_id d))
            <-> In other (DBConnector.job_ids is_gpu d)))
    /\ (forall other,
           ~ has_running_row d other ->
           DBConnector.mark_running_job_finished other d = d).
Proof.
  intros d job_id is_gpu (r & Hr & Hid).
  assert (Hrows : forall r',
             In r' (DBConnector.running_jobs
                      (DBConnector.mark_running_job_finished job_id d)) ->
             DBConnector.r_job_id r' = job_id ->
             DBConnector.r_finished r' = true
             /\ DBConnector.r_interrupted r' = false).
  { intros r' Hin Hid'. simpl in Hin.
    apply in_map_iff in Hin as (r0 & Hr0 & Hin).
    unfold DBConnector.set_finished in Hr0.
    destruct (Nat.eqb_spec (DBConnector.r_job_id r0) job_id) as [He | He].
    - subst r'. simpl. auto.
    - subst r0. congruence. }
  split; [| split; [exact Hrows | split]].
  - rewrite job_ids_In. intros [_ Hall].
    assert (Hin : In (DBConnector.set_finished job_id r)
                     (DBConnector.running_jobs
                        (DBConnector.mark_running_job_finished job_id d))).
    { simpl. now apply in_map. }
    assert (Hid' : DBConnector.r_job_id (DBConnector.set_finished job_id r)
                   = job_id).
    { unfold DBConnector.set_finished.
      destruct (Nat.eqb (DBConnector.r_job_id r) job_id); trivial. }
    destruct (Hrows _ Hin Hid') as [_ Hni].
    rewrite (Hall _ Hin Hid') in Hni. discriminate.
  - intros other Hne. rewrite !job_ids_In. unfold is_listed. simpl.
    split; intros [Hlisted Hall]; split; trivial.
    + intros r' Hr' Hid'.
      assert (Hsame : DBConnector.set_finished job_id r' = r').
      { unfold DBConnector.set_finished.
        destruct (Nat.eqb_spec (DBConnector.r_job_id r') job_id);
          [congruence | trivial]. }
      apply (Hall r'); trivial. rewrite <- Hsame. now apply in_map.
    + intros r' Hr' Hid'. apply in_map_iff in Hr' as (r0 & Hr0 & Hin).
      unfold DBConnector.set_finished in Hr0.
      destruct (Nat.eqb_spec (DBConnector.r_job_id r0) job_id) as [He | He].
      * subst r'. simpl in Hid'. congruence.
      * subst r0. now apply Hall.
  - intros other Hnone. unfold DBConnector.mark_running_job_finished.
    destruct d as [avail running]. simpl in *. f_equal.
    rewrite <- (map_id running) at 2. apply map_ext_in.
    intros r' Hr'. unfold DBConnector.set_finished.
    destruct (Nat.eqb_spec (DBConnector.r_job_id r') other) as [He | He];
      trivial.
    exfalso. apply Hnone. now exists r'.
Qed.

(** X18 on the running job of the queue. *)
Lemma finished_job_is_not_selected_witness :
  has_running_row queue 1
  /\ ~ In 1 (DBConnector.job_ids
               false (DBConnector.mark_running_job_finished 1 queue)).
Proof.
  assert (H : has_running_row queue 1).
  { exists running_1. split; [now left | reflexivity]. }
  split; [exact H |].
  exact (proj1 (@finished_job_is_not_selected queue 1 false H)).
Defined.

(** X19.  A failed job is handed out again: once
    [append_error_string_in_running_job] has returned, the query of
    [fetch_job_arguments] selects the job for the connectors of its
    kind, provided it is listed in [avail_jobs]. *)
Theorem interrupted_job_is_selected_again :
  forall (d d' : DBConnector.database) (job_id : nat)
         (error_message : string) (is_gpu : bool),
    DBConnector.append_error_string_in_running_job job_id error_message d
    = (Ok tt, d') ->
    (In job_id (DBConnector.job_ids is_gpu d')
     <-> is_listed d is_gpu job_id).
Proof.
  intros d d' job_id msg is_gpu H.
  unfold DBConnector.append_error_string_in_running_job in H.
  destruct (find _ (DBConnector.running_jobs d)) as [cur |];
    [| discriminate].
  destruct (DBConnector.r_error_history cur) as [history |];
    [| discriminate].
  inversion H; subst d'. clear H.
  rewrite job_ids_In. unfold is_listed. simpl.
  split; [tauto |]. intros Hlisted. split; trivial.
  intros r Hin Hid. apply in_map_iff in Hin as (r0 & Hr0 & Hin).
  unfold DBConnector.set_error in Hr0.
  destruct (Nat.eqb_spec (DBConnector.r_job_id r0) job_id) as [He | He].
  - now subst r.
  - subst r0. congruence.
Qed.

(** X19 on the running job of the queue. *)
Lemma interrupted_job_is_selected_again_witness :
  DBConnector.append_error_string_in_running_job 1 "exceptionX" queue
  = (Ok tt,
     DBConnector.mkDatabase
       [job_1; job_2]
       [DBConnector.mkRunning 1 7 false true (Some "cluster7exceptionX")])
  /\ (In 1 (DBConnector.job_ids
              false
              (DBConnector.mkDatabase
                 [job_1; job_2]
                 [DBConnector.mkRunning 1 7 false true
                                        (Some "cluster7exceptionX")]))
      <-> is_listed queue false 1).
Proof.
  assert (H : DBConnector.append_error_string_in_running_job
                1 "exceptionX" queue
              = (Ok tt,
                 DBConnector.mkDatabase
                   [job_1; job_2]
                   [DBConnector.mkRunning 1 7 false true
                                          (Some "cluster7exceptionX")]))
    by reflexivity.
  split; [exact H |].
  exact (@interrupted_job_is_selected_again queue _ 1 "exceptionX" false H).
Defined.






Lemma append_error_live_rows (job_id : nat) (error_message : string)
    (d d' : DBConnector.database) :
  DBConnector.append_error_string_in_running_job job_id error_message d
  = (Ok tt, d') ->
  DBConnector.avail_jobs d' = DBConnector.avail_jobs d
  /\ forall r, In r (DBConnector.running_jobs d') ->
               DBConnector.r_interrupted r = false ->
               In r (DBConnector.running_jobs d)
               /\ DBConnector.r_job_id r <> job_id.
Proof.
  unfold DBConnector.append_error_string_in_running_job.
  destruct (find _ (DBConnector.running_jobs d)) as [cur |];
    [| discriminate].
  destruct (DBConnector.r_error_history cur) as [history |];
    [| discriminate].
  intros H. inversion H; subst d'. simpl. split; trivial.
  intros r Hin Hlive. apply in_map_iff in Hin as (r0 & Hr0 & Hin).
  unfold DBConnector.set_error in Hr0.
  destruct (Nat.eqb_spec (DBConnector.r_job_id r0) job_id) as [He | He].
  - subst r. simpl in Hlive. discriminate.
  - subst r0. auto.
Qed.

Lemma mark_expired_spec (now : nat -> Z) (jobs : list DBConnector.avail_row) :
  forall (i : nat) (d d' : DBConnector.database),
    DBConnector.mark_expired now i jobs d = (Ok tt, d') ->
    DBConnector.avail_jobs d' = DBConnector.avail_jobs d
    /\ (forall r, In r (DBConnector.running_jobs d') ->
                  DBConnector.r_interrupted r = false ->
                  In r (DBConnector.running_jobs d))
    /\ (forall job r,
           In job jobs ->
           In r (DBConnector.running_jobs d') ->
           DBConnector.r_job_id r = DBConnector.row_job_id job ->
           DBConnector.r_interrupted r = false ->
           exists k,
             (now k <= DBConnector.row_job_allocated_time job
                       + DBConnector.row_duration job)%Z).
Proof.
  induction jobs as [| job rest IH]; intros i d d' H; simpl in H.
  - inversion H; subst. repeat split; auto. intros job r [].
  - destruct (Z.ltb_spec (DBConnector.row_job_allocated_time job
                          + DBConnector.row_duration job) (now i))
      as [Hexpired | Hlive].
    + destruct (DBConnector.append_error_string_in_running_job
                  (DBConnector.row_job_id job)
                  "exceptionInterruptedDueToSomeError" d)
        as [[[] | e] d1] eqn:Eappend; [| discriminate].
      apply append_error_live_rows in Eappend as [Havail Hrows].
      apply IH in H as (Havail' & Hrows' & Hjobs).
      split; [congruence |]. split.
      * intros r Hr Hl. exact (proj1 (Hrows r (Hrows' r Hr Hl) Hl)).
      * intros job0 r [<- | Hin] Hr Hid Hl; [| eauto].
        destruct (Hrows r (Hrows' r Hr Hl) Hl) as [_ Hne]. contradiction.
    + apply IH in H as (Havail' & Hrows' & Hjobs).
      split; trivial. split; trivial.
      intros job0 r [<- | Hin] Hr Hid Hl; [| eauto].
      now exists i.
Qed.

(** X21.  The sweep [add_jobs_in_avail_which_failed] leaves no expired
    job running: when it has returned, every job that still has a
    running row neither interrupted nor finished was examined and its
    allocated time plus its duration had not passed on the clock; the
    sweep changes no row of [avail_jobs]. *)
Theorem expired_jobs_are_interrupted :
  forall (now : nat -> Z) (d d' : DBConnector.database),
    DBConnector.add_jobs_in_avail_which_failed now d = (Ok tt, d') ->
    DBConnector.avail_jobs d' = DBConnector.avail_jobs d
    /\ forall row r,
        In row (DBConnector.avail_jobs d') ->
        In r (DBConnector.running_jobs d') ->
        DBConnector.r_job_id r = DBConnector.row_job_id row ->
        DBConnector.r_interrupted r = false ->
        DBConnector.r_finished r = false ->
        exists i,
          (now i <= DBConnector.row_job_allocated_time row
                    + DBConnector.row_duration row)%Z.
Proof.
  intros now d d' H. unfold DBConnector.add_jobs_in_avail_which_failed in H.
  apply mark_expired_spec in H as (Havail & Hrows & Hjobs).
  split; trivial.
  intros row r Hrow Hr Hid Hlive Hrunning.
  apply (Hjobs row r); trivial.
  unfold DBConnector.all_jobs. apply filter_In.
  split; [congruence |].
  apply existsb_exists. exists r. split; [auto |].
  rewrite Hlive, Hrunning, Hid. simpl. apply Nat.eqb_refl.
Qed.

(** X21 on the queue, at a time when job 1 has expired. *)
Lemma expired_jobs_are_interrupted_witness :
  DBConnector.add_jobs_in_avail_which_failed (fun _ => 200%Z) queue
  = (Ok tt,
     DBConnector.mkDatabase
       [job_1; job_2]
       [DBConnector.mkRunning
          1 7 false true
          (Some "cluster7exceptionInterruptedDueToSomeError")])
  /\ DBConnector.avail_jobs
       (DBConnector.mkDatabase
          [job_1; job_2]
          [DBConnector.mkRunning
             1 7 false true
             (Some "cluster7exceptionInterruptedDueToSomeError")])
     = DBConnector.avail_jobs queue.
Proof.
  assert (H : DBConnector.add_jobs_in_avail_which_failed
                (fun _ => 200%Z) queue
              = (Ok tt,
                 DBConnector.mkDatabase
                   [job_1; job_2]
                   [DBConnector.mkRunning
                      1 7 false true
                      (Some "cluster7exceptionInterruptedDueToSomeError")]))
    by reflexivity.
  split; [exact H |].
  exact (proj1 (@expired_jobs_are_interrupted (fun _ => 200%Z) queue _ H)).
Defined.

(** ** CmpNet: the layers the learner holds and the model *)

Lemma cmp_store_length (h : list CmpNetCoreLearner.object) (r : nat)
    (o : CmpNetCoreLearner.object) :
  length (CmpNetCoreLearner.store h r o) = length h.
Proof.
  revert r. induction h as [| x h IH]; intros [| r]; simpl; auto.
Qed.

Lemma cmp_store_same (h : list CmpNetCoreLearner.object) (r : nat)
    (o : CmpNetCoreLearner.object) :
  r < length h -> nth_error (CmpNetCoreLearner.store h r o) r = Some o.
Proof.
  revert r. induction h as [| x h IH]; intros [| r] Hr; simpl in *;
    try lia; trivial.
  apply IH. lia.
Qed.

Lemma cmp_store_other (h : list CmpNetCoreLearner.object) (r r' : nat)
    (o : CmpNetCoreLearner.object) :
  r <> r' -> nth_error (CmpNetCoreLearner.store h r o) r' = nth_error h r'.
Proof.
  revert r r'. induction h as [| x h IH]; intros [| r] [| r'] Hne; simpl;
    trivial; try congruence.
  apply IH. congruence.
Qed.

Lemma cmp_store_trained_length (rs : list nat) (fs : list layer)
    (h : list CmpNetCoreLearner.object) :
  length (CmpNetCoreLearner.store_trained h rs fs) = length h.
Proof.
  revert fs h. induction rs as [| a rs IH]; intros [| f fs] h; simpl; trivial.
  now rewrite IH, cmp_store_length.
Qed.

Lemma cmp_store_trained_other (rs : list nat) (fs : list layer)
    (h : list CmpNetCoreLearner.object) (r' : nat) :
  ~ In r' rs ->
  nth_error (CmpNetCoreLearner.store_trained h rs fs) r' = nth_error h r'.
Proof.
  revert fs h. induction rs as [| r rs IH]; intros [| f fs] h Hnot; simpl;
    trivial.
  rewrite IH by (simpl in Hnot; tauto).
  apply cmp_store_other. simpl in Hnot. intros ->. tauto.
Qed.

Lemma cmp_store_loaded_length (rs : list nat) (ws : list (nat * layer))
    (h : list CmpNetCoreLearner.object) :
  length (CmpNetCoreLearner.store_loaded h rs ws) = length h.
Proof.
  revert ws h. induction rs as [| a rs IH]; intros [| [u f] ws] h; simpl;
    trivial.
  now rewrite IH, cmp_store_length.
Qed.

Lemma cmp_store_loaded_other (rs : list nat) (ws : list (nat * layer))
    (h : list CmpNetCoreLearner.object) (r' : nat) :
  ~ In r' rs ->
  nth_error (CmpNetCoreLearner.store_loaded h rs ws) r' = nth_error h r'.
Proof.
  revert ws h. induction rs as [| r rs IH]; intros [| [u f] ws] h Hnot; simpl;
    trivial.
  rewrite IH by (simpl in Hnot; tauto).
  apply cmp_store_other. simpl in Hnot. intros ->. tauto.
Qed.

(** Training at consecutive references keeps the units of each layer
    and stores its new weights. *)
Lemma cmp_store_trained_seq (fs : list layer) :
  forall (h : list CmpNetCoreLearner.object) (a i units : nat) (f g : layer),
    a + length fs <= length h ->
    nth_error fs i = Some f ->
    nth_error h (a + i) = Some (CmpNetCoreLearner.HiddenLayer units g) ->
    nth_error (CmpNetCoreLearner.store_trained h (seq a (length fs)) fs)
              (a + i)
    = Some (CmpNetCoreLearner.HiddenLayer units f).
Proof.
  induction fs as [| f0 fs IH]; intros h a i units f g Hlen Hi Hold.
  - destruct i; discriminate.
  - simpl in *. destruct i as [| i]; simpl in Hi.
    + inversion Hi; subst. rewrite Nat.add_0_r in *.
      rewrite cmp_store_trained_other by (rewrite in_seq; lia).
      rewrite cmp_store_same by lia.
      unfold CmpNetCoreLearner.deref_hidden. now rewrite Hold.
    + replace (a + S i) with (S a + i) in * by lia.
      apply (IH _ _ _ _ _ g); trivial.
      * rewrite cmp_store_length. lia.
      * rewrite cmp_store_other by lia. exact Hold.
Qed.

Lemma cmp_store_loaded_seq (ws : list (nat * layer)) :
  forall (h : list CmpNetCoreLearner.object) (a i units : nat) (f : layer),
    a + length ws <= length h ->
    nth_error ws i = Some (units, f) ->
    nth_error (CmpNetCoreLearner.store_loaded h (seq a (length ws)) ws)
              (a + i)
    = Some (CmpNetCoreLearner.HiddenLayer units f).
Proof.
  induction ws as [| [u0 f0] ws IH]; intros h a i units f Hlen Hi.
  - destruct i; discriminate.
  - simpl in *. destruct i as [| i]; simpl in Hi.
    + inversion Hi; subst. rewrite Nat.add_0_r.
      rewrite cmp_store_loaded_other by (rewrite in_seq; lia).
      apply cmp_store_same. lia.
    + replace (a + S i) with (S a + i) by lia.
      apply IH; trivial. rewrite cmp_store_length. lia.
Qed.

Lemma cmp_map_seq {B} (g : nat -> B) (l : list B) (a : nat) :
  (forall i f, nth_error l i = Some f -> g (a + i) = f) ->
  map g (seq a (length l)) = l.
Proof.
  revert a. induction l as [| f0 l IH]; intros a H; simpl; trivial.
  f_equal.
  - specialize (H 0 f0 eq_refl). now rewrite Nat.add_0_r in H.
  - apply IH. intros i f Hi. specialize (H (S i) f Hi).
    now replace (S a + i) with (a + S i) by lia.
Qed.

(** The model built from the layers the learner holds computes the
    network of their weights. *)
Lemma cmpnet_holds_network (self : CmpNetCoreLearner.t) (hidden : list layer)
    (out : Dense1) :
  cmpnet_holds self hidden out ->
  CmpNetCoreLearner.network (CmpNetCoreLearner.heap self)
                            (CmpNetCoreLearner.construct_model self)
  = CmpNetCore.mk hidden out.
Proof.
  intros (_ & Hrefs & _ & Hhid & Hout).
  unfold CmpNetCoreLearner.network, CmpNetCoreLearner.construct_model.
  cbn [CmpNetCoreLearner.model_hidden CmpNetCoreLearner.model_output].
  f_equal.
  - rewrite Hrefs. apply cmp_map_seq. intros i f Hi.
    unfold CmpNetCoreLearner.deref_hidden. now rewrite (Hhid i f Hi).
  - unfold CmpNetCoreLearner.deref_output. now rewrite Hout.
Qed.

Section CmpNetLearnerFacts.

Variable labels : Type.
Variable pairwise_data : Type.
Variable initial_hidden : nat -> nat -> layer.
Variable initial_output : nat -> nat -> Dense1.
Variable convert_instances : batch -> labels -> result pairwise_data.
Variable keras_fit
  : pairwise_data -> list layer -> Dense1 ->
    (list layer * Dense1) * result unit.

Let fit := CmpNetCoreLearner.fit convert_instances keras_fit.
Let _construct_layers :=
  CmpNetCoreLearner._construct_layers initial_hidden initial_output.

(** [_construct_layers] allocates above the heap; the layers it creates
    are the freshly initialised ones. *)
Lemma cmp_construct_layers_holds (self : CmpNetCoreLearner.t) :
  cmpnet_holds (_construct_layers self)
    (map (initial_hidden (CmpNetCoreLearner.n_units self))
         (seq 0 (CmpNetCoreLearner.n_hidden self)))
    (initial_output (CmpNetCoreLearner.n_hidden self)
                    (CmpNetCoreLearner.n_units self)).
Proof.
  unfold cmpnet_holds, _construct_layers, CmpNetCoreLearner._construct_layers.
  cbn [CmpNetCoreLearner.n_hidden CmpNetCoreLearner.n_units
       CmpNetCoreLearner.heap CmpNetCoreLearner.hidden_layers
       CmpNetCoreLearner.output_node].
  rewrite length_map, length_seq, length_app. cbn [length].
  rewrite length_map, length_seq.
  split; [reflexivity |]. split; [reflexivity |]. split; [lia |]. split.
  - intros i f Hi. rewrite nth_error_app2 by lia.
    replace (S (length (CmpNetCoreLearner.heap self)) + i
             - length (CmpNetCoreLearner.heap self)) with (S i) by lia.
    cbn [nth_error].
    rewrite nth_error_map in *.
    destruct (nth_error (seq 0 (CmpNetCoreLearner.n_hidden self)) i);
      simpl in *; [| discriminate].
    now inversion Hi.
  - rewrite nth_error_app2 by lia. now rewrite Nat.sub_diag.
Qed.

Lemma cmp_construct_layers_frame (self : CmpNetCoreLearner.t)
    (m : CmpNetCoreLearner.Model) :
  (forall r, In r (CmpNetCoreLearner.model_hidden m) ->
             r < length (CmpNetCoreLearner.heap self)) ->
  CmpNetCoreLearner.model_output m < length (CmpNetCoreLearner.heap self) ->
  CmpNetCoreLearner.network
    (CmpNetCoreLearner.heap (_construct_layers self)) m
  = CmpNetCoreLearner.network (CmpNetCoreLearner.heap self) m.
Proof.
  intros Hhid Hout.
  unfold CmpNetCoreLearner.network, _construct_layers,
    CmpNetCoreLearner._construct_layers.
  cbn [CmpNetCoreLearner.heap]. f_equal.
  - apply map_ext_in. intros r Hr. unfold CmpNetCoreLearner.deref_hidden.
    now rewrite nth_error_app1 by auto.
  - unfold CmpNetCoreLearner.deref_output.
    now rewrite nth_error_app1 by auto.
Qed.

(** [fit] trains the layers the learner holds, in place. *)
Lemma cmp_fit_holds (X : batch) (Y : labels) (self : CmpNetCoreLearner.t)
    (data : pairwise_data) (hidden hidden' : list layer) (out out' : Dense1)
    (r : result unit) :
  cmpnet_holds self hidden out ->
  convert_instances X Y = Ok data ->
  keras_fit data hidden out = ((hidden', out'), r) ->
  length hidden' = length hidden ->
  exists self',
    fit X Y self = (r, self')
    /\ cmpnet_holds self' hidden' out'
    /\ CmpNetCoreLearner.model self'
       = Some (CmpNetCoreLearner.construct_model self')
    /\ CmpNetCoreLearner.n_units self' = CmpNetCoreLearner.n_units self.
Proof.
  intros Hholds Hconv Hfit Hlen.
  unfold fit, CmpNetCoreLearner.fit. rewrite Hconv.
  rewrite (cmpnet_holds_network Hholds).
  cbn [CmpNetCore.hidden_layers CmpNetCore.output_node]. rewrite Hfit.
  destruct Hholds as (Hn & Hrefs & Hbound & Hhid & Hout).
  eexists. split; [reflexivity |]. split; [| split; reflexivity].
  unfold cmpnet_holds, CmpNetCoreLearner.construct_model.
  cbn [CmpNetCoreLearner.set_model CmpNetCoreLearner.n_hidden
       CmpNetCoreLearner.n_units CmpNetCoreLearner.heap
       CmpNetCoreLearner.hidden_layers CmpNetCoreLearner.output_node
       CmpNetCoreLearner.model_hidden CmpNetCoreLearner.model_output].
  rewrite cmp_store_length, cmp_store_trained_length, Hlen.
  split; [trivial |]. split; [trivial |]. split; [trivial |]. split.
  - intros i f Hi. rewrite cmp_store_other by lia.
    rewrite Hrefs, <- Hlen.
    assert (Hi' : i < length hidden').
    { apply nth_error_Some. congruence. }
    destruct (nth_error hidden i) as [g |] eqn:Eg.
    2:{ apply nth_error_None in Eg. lia. }
    eapply cmp_store_trained_seq; [lia | exact Hi | exact (Hhid i g Eg)].
  - apply cmp_store_same. rewrite cmp_store_trained_length. lia.
Qed.

End CmpNetLearnerFacts.

Lemma combine_seq_In {B} (l : list B) :
  forall (a r : nat) (w : B),
    In (r, w) (combine (seq a (length l)) l) ->
    exists i, r = a + i /\ nth_error l i = Some w.
Proof.
  induction l as [| b l IH]; intros a r w Hin; simpl in Hin; [contradiction |].
  destruct Hin as [Heq | Hin].
  - inversion Heq; subst. exists 0. split; [lia | reflexivity].
  - apply IH in Hin as (i & -> & Hi). exists (S i). split; [lia | exact Hi].
Qed.

Section CmpNetLearnerProperties.

Variable labels : Type.
Variable pairwise_data : Type.
Variable initial_hidden : nat -> nat -> layer.
Variable initial_output : nat -> nat -> Dense1.
Variable convert_instances : batch -> labels -> result pairwise_data.
Variable keras_fit
  : pairwise_data -> list layer -> Dense1 ->
    (list layer * Dense1) * result unit.

Let fit := CmpNetCoreLearner.fit convert_instances keras_fit.
Let __init__ := CmpNetCoreLearner.__init__ initial_hidden initial_output.
Let clear_memory :=
  CmpNetCoreLearner.clear_memory initial_hidden initial_output.
Let set_tunable_parameters :=
  CmpNetCoreLearner.set_tunable_parameters initial_hidden initial_output.

Lemma cmp_init_holds (n_hidden n_units : nat) :
  cmpnet_holds (__init__ n_hidden n_units)
               (map (initial_hidden n_units) (seq 0 n_hidden))
               (initial_output n_hidden n_units)
  /\ CmpNetCoreLearner.model (__init__ n_hidden n_units) = None.
Proof.
  split; [| reflexivity].
  apply (cmp_construct_layers_holds initial_hidden initial_output
           (CmpNetCoreLearner.mk n_hidden n_units [] [] 0 None None)).
Qed.

Lemma cmp_predicts (self : CmpNetCoreLearner.t) (hidden : list layer)
    (out : Dense1) (X : batch) :
  cmpnet_holds self hidden out ->
  CmpNetCoreLearner.model self
  = Some (CmpNetCoreLearner.construct_model self) ->
  CmpNetCoreLearner._predict_scores_fixed X self
  = CmpNetCore._predict_scores_fixed (CmpNetCore.mk hidden out) X.
Proof.
  intros Hholds Hmodel. unfold CmpNetCoreLearner._predict_scores_fixed.
  destruct X as [| x X]; [reflexivity |].
  now rewrite Hmodel, (cmpnet_holds_network Hholds).
Qed.

(** The first [fit] of a learner fresh from [__init__]. *)
Lemma cmp_first_fit (n_hidden n_units : nat) (X : batch) (Y : labels)
    (data : pairwise_data) (hidden : list layer) (out : Dense1)
    (r : result unit) :
  convert_instances X Y = Ok data ->
  keras_fit data (map (initial_hidden n_units) (seq 0 n_hidden))
            (initial_output n_hidden n_units)
  = ((hidden, out), r) ->
  length hidden = n_hidden ->
  exists fitted,
    fit X Y (__init__ n_hidden n_units) = (r, fitted)
    /\ cmpnet_holds fitted hidden out
    /\ CmpNetCoreLearner.model fitted
       = Some (CmpNetCoreLearner.construct_model fitted)
    /\ CmpNetCoreLearner.n_units fitted = n_units.
Proof.
  intros Hconv Hfit Hlen.
  destruct (cmp_init_holds n_hidden n_units) as [Hholds _].
  destruct (@cmp_fit_holds labels pairwise_data convert_instances keras_fit
              X Y _ data _ hidden _ out r Hholds Hconv Hfit)
    as (fitted & Hfitted & Hholds' & Hmodel & Hunits).
  { now rewrite length_map, length_seq. }
  exists fitted. split; [trivial | split; [trivial | split; trivial]].
Qed.

(** [set_tunable_parameters] constructs new layers and leaves the model
    with the layers it was built from. *)
Lemma cmp_set_tunable_parameters_holds (self : CmpNetCoreLearner.t)
    (hidden : list layer) (out : Dense1) (n_hidden n_units : nat) :
  cmpnet_holds self hidden out ->
  CmpNetCoreLearner.model self
  = Some (CmpNetCoreLearner.construct_model self) ->
  cmpnet_holds (set_tunable_parameters n_hidden n_units self)
    (map (initial_hidden n_units) (seq 0 n_hidden))
    (initial_output n_hidden n_units)
  /\ CmpNetCoreLearner.n_units (set_tunable_parameters n_hidden n_units self)
     = n_units
  /\ exists m,
      CmpNetCoreLearner.model (set_tunable_parameters n_hidden n_units self)
      = Some m
      /\ length (CmpNetCoreLearner.model_hidden m) = length hidden
      /\ CmpNetCoreLearner.network
           (CmpNetCoreLearner.heap
              (set_tunable_parameters n_hidden n_units self)) m
         = CmpNetCore.mk hidden out.
Proof.
  intros Hholds Hmodel.
  unfold set_tunable_parameters, CmpNetCoreLearner.set_tunable_parameters.
  split; [| split; [reflexivity |]].
  - apply (cmp_construct_layers_holds initial_hidden initial_output
             (CmpNetCoreLearner.mk n_hidden n_units
                (CmpNetCoreLearner.heap self)
                (CmpNetCoreLearner.hidden_layers self)
                (CmpNetCoreLearner.output_node self)
                (CmpNetCoreLearner.model self)
                (CmpNetCoreLearner.hash_file self))).
  - exists (CmpNetCoreLearner.construct_model self).
    split; [exact Hmodel |].
    pose proof Hholds as (_ & Hrefs & Hbound & _ & _).
    split.
    { unfold CmpNetCoreLearner.construct_model.
      cbn [CmpNetCoreLearner.model_hidden]. now rewrite Hrefs, length_seq. }
    rewrite <- (cmpnet_holds_network Hholds).
    apply (cmp_construct_layers_frame initial_hidden initial_output
             (CmpNetCoreLearner.mk n_hidden n_units
                (CmpNetCoreLearner.heap self)
                (CmpNetCoreLearner.hidden_layers self)
                (CmpNetCoreLearner.output_node self)
                (CmpNetCoreLearner.model self)
                (CmpNetCoreLearner.hash_file self))).
    + intros r Hr. unfold CmpNetCoreLearner.construct_model in Hr.
      cbn [CmpNetCoreLearner.model_hidden CmpNetCoreLearner.heap] in *.
      rewrite Hrefs in Hr. apply in_seq in Hr. lia.
    + unfold CmpNetCoreLearner.construct_model.
      cbn [CmpNetCoreLearner.model_output CmpNetCoreLearner.heap]. lia.
Qed.

(** X22.  [fit] creates no layer: it trains the layers the learner
    holds since its construction, so a second [fit] continues from the
    weights the first one left; after each [fit] the scores are those
    of the network with the weights that training left. *)
Theorem cmpnet_fit_continues_training :
  forall (n_hidden n_units : nat) (X1 X2 : batch) (Y1 Y2 : labels)
         (data1 data2 : pairwise_data) (hidden1 hidden2 : list layer)
         (out1 out2 : Dense1) (r1 r2 : result unit),
    convert_instances X1 Y1 = Ok data1 ->
    keras_fit data1 (map (initial_hidden n_units) (seq 0 n_hidden))
              (initial_output n_hidden n_units)
    = ((hidden1, out1), r1) ->
    length hidden1 = n_hidden ->
    convert_instances X2 Y2 = Ok data2 ->
    keras_fit data2 hidden1 out1 = ((hidden2, out2), r2) ->
    length hidden2 = n_hidden ->
    exists fitted1 fitted2,
      fit X1 Y1 (__init__ n_hidden n_units) = (r1, fitted1)
      /\ (forall X,
             CmpNetCoreLearner._predict_scores_fixed X fitted1
             = CmpNetCore._predict_scores_fixed
                 (CmpNetCore.mk hidden1 out1) X)
      /\ fit X2 Y2 fitted1 = (r2, fitted2)
      /\ (forall X,
             CmpNetCoreLearner._predict_scores_fixed X fitted2
             = CmpNetCore._predict_scores_fixed
                 (CmpNetCore.mk hidden2 out2) X).
Proof.
  intros n_hidden n_units X1 X2 Y1 Y2 data1 data2 hidden1 hidden2 out1 out2
         r1 r2 Hconv1 Hfit1 Hlen1 Hconv2 Hfit2 Hlen2.
  destruct (@cmp_first_fit n_hidden n_units X1 Y1 data1 hidden1 out1 r1
              Hconv1 Hfit1 Hlen1)
    as (fitted1 & Hfitted1 & Hholds1 & Hmodel1 & _).
  destruct (@cmp_fit_holds labels pairwise_data convert_instances keras_fit
              X2 Y2 fitted1 data2 hidden1 hidden2 out1 out2 r2 Hholds1
              Hconv2 Hfit2)
    as (fitted2 & Hfitted2 & Hholds2 & Hmodel2 & _); [congruence |].
  exists fitted1, fitted2.
  split; [trivial | split; [| split; [trivial |]]].
  - intros X. now apply cmp_predicts.
  - intros X. now apply cmp_predicts.
Qed.

(** X23.  [set_tunable_parameters] does not touch the model: a fitted
    learner goes on predicting with the network of its last [fit],
    whatever the new [n_hidden] and [n_units]; the next [fit] trains
    freshly initialised layers of the new shape. *)
Theorem cmpnet_set_tunable_parameters_keeps_model :
  forall (n_hidden n_units n_hidden' n_units' : nat) (X1 X2 : batch)
         (Y1 Y2 : labels) (data1 data2 : pairwise_data)
         (hidden1 hidden2 : list layer) (out1 out2 : Dense1)
         (r1 r2 : result unit),
    convert_instances X1 Y1 = Ok data1 ->
    keras_fit data1 (map (initial_hidden n_units) (seq 0 n_hidden))
              (initial_output n_hidden n_units)
    = ((hidden1, out1), r1) ->
    length hidden1 = n_hidden ->
    convert_instances X2 Y2 = Ok data2 ->
    keras_fit data2 (map (initial_hidden n_units') (seq 0 n_hidden'))
              (initial_output n_hidden' n_units')
    = ((hidden2, out2), r2) ->
    length hidden2 = n_hidden' ->
    let tuned :=
      set_tunable_parameters
        n_hidden' n_units' (snd (fit X1 Y1 (__init__ n_hidden n_units))) in
    (forall X,
        CmpNetCoreLearner._predict_scores_fixed X tuned
        = CmpNetCore._predict_scores_fixed (CmpNetCore.mk hidden1 out1) X)
    /\ exists fitted2,
        fit X2 Y2 tuned = (r2, fitted2)
        /\ forall X,
            CmpNetCoreLearner._predict_scores_fixed X fitted2
            = CmpNetCore._predict_scores_fixed
                (CmpNetCore.mk hidden2 out2) X.
Proof.
  intros n_hidden n_units n_hidden' n_units' X1 X2 Y1 Y2 data1 data2
         hidden1 hidden2 out1 out2 r1 r2 Hconv1 Hfit1 Hlen1 Hconv2 Hfit2
         Hlen2 tuned.
  destruct (@cmp_first_fit n_hidden n_units X1 Y1 data1 hidden1 out1 r1
              Hconv1 Hfit1 Hlen1)
    as (fitted1 & Hfitted1 & Hholds1 & Hmodel1 & _).
  unfold tuned. rewrite Hfitted1. cbn [snd].
  destruct (@cmp_set_tunable_parameters_holds fitted1 hidden1 out1
              n_hidden' n_units' Hholds1 Hmodel1)
    as (Hholds & Hunits & m & Hm & _ & Hnet).
  split.
  - intros X. unfold CmpNetCoreLearner._predict_scores_fixed.
    destruct X as [| x X]; [reflexivity |].
    fold set_tunable_parameters. now rewrite Hm, Hnet.
  - destruct (@cmp_fit_holds labels pairwise_data convert_instances keras_fit
                X2 Y2 _ data2 _ hidden2 _ out2 r2 Hholds Hconv2 Hfit2)
      as (fitted2 & Hfitted2 & Hholds2 & Hmodel2 & _).
    { now rewrite length_map, length_seq. }
    exists fitted2. split; trivial.
    intros X. now apply cmp_predicts.
Qed.

Lemma cmp_saved_weights (self : CmpNetCoreLearner.t) (hidden : list layer)
    (out : Dense1) :
  cmpnet_holds self hidden out ->
  map (CmpNetCoreLearner.deref_hidden (CmpNetCoreLearner.heap self))
      (CmpNetCoreLearner.hidden_layers self)
  = map (pair (CmpNetCoreLearner.n_units self)) hidden
  /\ CmpNetCoreLearner.deref_output (CmpNetCoreLearner.heap self)
                                    (CmpNetCoreLearner.output_node self)
     = out.
Proof.
  intros (_ & Hrefs & _ & Hhid & Hout). split.
  - rewrite Hrefs.
    rewrite <- (length_map (pair (CmpNetCoreLearner.n_units self)) hidden).
    apply cmp_map_seq. intros i w Hi. rewrite nth_error_map in Hi.
    destruct (nth_error hidden i) as [f |] eqn:Ef; [| discriminate].
    simpl in Hi. inversion Hi; subst.
    unfold CmpNetCoreLearner.deref_hidden. now rewrite (Hhid i f Ef).
  - unfold CmpNetCoreLearner.deref_output. now rewrite Hout.
Qed.

(** Loading weights of the shape of the layers the learner holds. *)
Lemma cmp_load_weights (self : CmpNetCoreLearner.t)
    (fresh hidden : list layer) (fresh_out out : Dense1) :
  cmpnet_holds self fresh fresh_out ->
  length hidden = length fresh ->
  exists h,
    CmpNetCoreLearner.load_weights
      (CmpNetCoreLearner.heap self) (CmpNetCoreLearner.construct_model self)
      (CmpNetCoreLearner.mkWeights
         (map (pair (CmpNetCoreLearner.n_units self)) hidden) out)
    = Ok h
    /\ cmpnet_holds
         (CmpNetCoreLearner.set_model
            self (CmpNetCoreLearner.construct_model self) h)
         hidden out.
Proof.
  intros (Hn & Hrefs & Hbound & Hhid & Hout) Hlen.
  unfold CmpNetCoreLearner.load_weights, CmpNetCoreLearner.construct_model.
  cbn [CmpNetCoreLearner.model_hidden CmpNetCoreLearner.model_output
       CmpNetCoreLearner.saved_hidden CmpNetCoreLearner.saved_output].
  rewrite Hrefs, length_map, length_seq, Hlen, Nat.eqb_refl.
  cbn [negb].
  match goal with
  | |- context [forallb ?f ?l] => assert (Hunits : forallb f l = true)
  end.
  { apply forallb_forall. intros [r w] Hin.
    rewrite <- Hlen in Hin.
    rewrite <- (length_map (pair (CmpNetCoreLearner.n_units self)) hidden)
      in Hin.
    apply combine_seq_In in Hin as (i & -> & Hi).
    rewrite nth_error_map in Hi.
    destruct (nth_error hidden i) as [f |] eqn:Ef; [| discriminate].
    simpl in Hi. inversion Hi; subst. cbn [fst snd].
    assert (Hi' : i < length fresh).
    { rewrite <- Hlen. apply nth_error_Some. congruence. }
    destruct (nth_error fresh i) as [g |] eqn:Eg.
    2:{ apply nth_error_None in Eg. lia. }
    unfold CmpNetCoreLearner.deref_hidden. rewrite (Hhid i g Eg).
    apply Nat.eqb_refl. }
  rewrite Hunits. cbn [negb].
  eexists. split; [reflexivity |].
  unfold cmpnet_holds.
  cbn [CmpNetCoreLearner.set_model CmpNetCoreLearner.n_hidden
       CmpNetCoreLearner.n_units CmpNetCoreLearner.heap
       CmpNetCoreLearner.hidden_layers CmpNetCoreLearner.output_node].
  rewrite cmp_store_length, cmp_store_loaded_length, Hlen.
  split; [trivial |]. split; [trivial |]. split; [trivial |]. split.
  - intros i f Hi. rewrite cmp_store_other by lia.
    rewrite <- Hlen.
    rewrite <- (length_map (pair (CmpNetCoreLearner.n_units self)) hidden).
    apply cmp_store_loaded_seq.
    + rewrite length_map. lia.
    + now rewrite nth_error_map, Hi.
  - apply cmp_store_same. rewrite cmp_store_loaded_length. lia.
Qed.

(** X24.  [clear_memory] on a fitted learner whose [n_hidden] and
    [n_units] are those of its model saves the weights, constructs new
    layers and a new model, and loads the weights: the scores
    afterwards are the scores before.  On a learner that was never
    fitted it raises [AttributeError] and changes nothing. *)
Theorem cmpnet_clear_memory_keeps_scores :
  forall (n_hidden n_units : nat) (X1 : batch) (Y1 : labels)
         (data1 : pairwise_data) (hidden1 : list layer) (out1 : Dense1)
         (r1 : result unit),
    convert_instances X1 Y1 = Ok data1 ->
    keras_fit data1 (map (initial_hidden n_units) (seq 0 n_hidden))
              (initial_output n_hidden n_units)
    = ((hidden1, out1), r1) ->
    length hidden1 = n_hidden ->
    let fitted := snd (fit X1 Y1 (__init__ n_hidden n_units)) in
    (exists cleared,
        clear_memory fitted = (Ok tt, cleared)
        /\ forall X,
            CmpNetCoreLearner._predict_scores_fixed X cleared
            = CmpNetCoreLearner._predict_scores_fixed X fitted)
    /\ clear_memory (__init__ n_hidden n_units)
       = (Raise (AttributeError "save_weights"), __init__ n_hidden n_units).
Proof.
  intros n_hidden n_units X1 Y1 data1 hidden1 out1 r1 Hconv1 Hfit1 Hlen1
         fitted.
  split; [| reflexivity].
  destruct (@cmp_first_fit n_hidden n_units X1 Y1 data1 hidden1 out1 r1
              Hconv1 Hfit1 Hlen1)
    as (fitted1 & Hfitted1 & Hholds1 & Hmodel1 & Hunits1).
  unfold fitted. rewrite Hfitted1. cbn [snd].
  unfold clear_memory, CmpNetCoreLearner.clear_memory.
  rewrite Hmodel1.
  destruct (cmp_saved_weights Hholds1) as [Hsaved Hsaved_out].
  cbn [CmpNetCoreLearner.model_hidden CmpNetCoreLearner.model_output
       CmpNetCoreLearner.construct_model].
  rewrite Hsaved, Hsaved_out.
  match goal with
  | |- context [CmpNetCoreLearner._construct_layers _ _ ?s] =>
      set (saving := s)
  end.
  pose proof (cmp_construct_layers_holds initial_hidden initial_output saving)
    as Hfresh.
  destruct (@cmp_load_weights _ _ hidden1 _ out1 Hfresh)
    as (h & Hload & Hholds).
  { rewrite length_map, length_seq. unfold saving.
    cbn [CmpNetCoreLearner.n_hidden].
    destruct Hholds1 as (Hn & _). congruence. }
  match goal with
  | |- context [CmpNetCoreLearner.load_weights ?h0 ?m ?f] =>
      replace (CmpNetCoreLearner.load_weights h0 m f) with (Ok h)
        by (symmetry; exact Hload)
  end.
  eexists. split; [reflexivity |].
  intros X. rewrite (@cmp_predicts fitted1 hidden1 out1 X Hholds1 Hmodel1).
  apply cmp_predicts; [exact Hholds | reflexivity].
Qed.

(** X25.  [clear_memory] after [set_tunable_parameters] has changed
    [n_hidden]: the weights of the old model do not fit the new
    layers, [load_weights] raises [ValueError], and the learner is left
    with a model of freshly initialised layers. *)
Theorem cmpnet_clear_memory_after_retuning :
  forall (n_hidden n_units n_hidden' n_units' : nat) (X1 : batch)
         (Y1 : labels) (data1 : pairwise_data) (hidden1 : list layer)
         (out1 : Dense1) (r1 : result unit),
    convert_instances X1 Y1 = Ok data1 ->
    keras_fit data1 (map (initial_hidden n_units) (seq 0 n_hidden))
              (initial_output n_hidden n_units)
    = ((hidden1, out1), r1) ->
    length hidden1 = n_hidden ->
    n_hidden' <> n_hidden ->
    let tuned :=
      set_tunable_parameters
        n_hidden' n_units' (snd (fit X1 Y1 (__init__ n_hidden n_units))) in
    exists msg cleared,
      clear_memory tuned = (Raise (ValueError msg), cleared)
      /\ forall X,
          CmpNetCoreLearner._predict_scores_fixed X cleared
          = CmpNetCore._predict_scores_fixed
              (CmpNetCore.mk
                 (map (initial_hidden n_units') (seq 0 n_hidden'))
                 (initial_output n_hidden' n_units'))
              X.
Proof.
  intros n_hidden n_units n_hidden' n_units' X1 Y1 data1 hidden1 out1 r1
         Hconv1 Hfit1 Hlen1 Hne tuned.
  destruct (@cmp_first_fit n_hidden n_units X1 Y1 data1 hidden1 out1 r1
              Hconv1 Hfit1 Hlen1)
    as (fitted1 & Hfitted1 & Hholds1 & Hmodel1 & _).
  unfold tuned. rewrite Hfitted1. cbn [snd].
  destruct (@cmp_set_tunable_parameters_holds fitted1 hidden1 out1
              n_hidden' n_units' Hholds1 Hmodel1)
    as (Hholds & Hunits & m & Hm & Hmlen & Hnet).
  unfold clear_memory, CmpNetCoreLearner.clear_memory.
  fold set_tunable_parameters. rewrite Hm.
  set (saving :=
         CmpNetCoreLearner.mk
           (CmpNetCoreLearner.n_hidden
              (set_tunable_parameters n_hidden' n_units' fitted1))
           (CmpNetCoreLearner.n_units
              (set_tunable_parameters n_hidden' n_units' fitted1))
           (CmpNetCoreLearner.heap
              (set_tunable_parameters n_hidden' n_units' fitted1))
           (CmpNetCoreLearner.hidden_layers
              (set_tunable_parameters n_hidden' n_units' fitted1))
           (CmpNetCoreLearner.output_node
              (set_tunable_parameters n_hidden' n_units' fitted1))
           (Some m)
           (Some (CmpNetCoreLearner.mkWeights
                    (map (CmpNetCoreLearner.deref_hidden
                            (CmpNetCoreLearner.heap
                               (set_tunable_parameters n_hidden' n_units'
                                                       fitted1)))
                         (CmpNetCoreLearner.model_hidden m))
                    (CmpNetCoreLearner.deref_output
                       (CmpNetCoreLearner.heap
                          (set_tunable_parameters n_hidden' n_units'
                                                  fitted1))
                       (CmpNetCoreLearner.model_output m))))).
  pose proof (cmp_construct_layers_holds initial_hidden initial_output saving)
    as Hfresh.
  unfold CmpNetCoreLearner.load_weights.
  cbn [CmpNetCoreLearner.saved_hidden CmpNetCoreLearner.model_hidden
       CmpNetCoreLearner.construct_model
       CmpNetCoreLearner.hidden_layers
       CmpNetCoreLearner._construct_layers].
  rewrite length_map, Hmlen, length_seq.
  change (CmpNetCoreLearner.n_hidden saving) with n_hidden'.
  destruct (Nat.eqb_spec (length hidden1) n_hidden') as [He | He];
    [congruence |].
  cbn [negb].
  do 2 eexists. split; [reflexivity |].
  intros X. apply cmp_predicts; [exact Hfresh | reflexivity].
Qed.

(** X26.  With the [convert_instances] of [CmpNetCore] itself, which
    raises [NotImplemented], [fit] raises [TypeError] and changes
    nothing: a learner fresh from [__init__] still has no model, and a
    prediction on a batch that is not empty raises [AttributeError]. *)
Theorem cmpnet_base_class_cannot_fit :
  forall (n_hidden n_units : nat) (X : batch) (Y : labels)
         (x : list vec) (X' : batch),
    CmpNetCoreLearner.fit
      (@CmpNetCoreLearner.convert_instances labels pairwise_data)
      keras_fit X Y (__init__ n_hidden n_units)
    = (Raise (TypeError "exceptions must derive from BaseException"),
       __init__ n_hidden n_units)
    /\ CmpNetCoreLearner._predict_scores_fixed
         (x :: X') (__init__ n_hidden n_units)
       = Raise (AttributeError "predict")
    /\ CmpNetCoreLearner._predict_scores_fixed [] (__init__ n_hidden n_units)
       = Ok [].
Proof.
  intros. repeat split.
Qed.

End CmpNetLearnerProperties.

(** X22 on a learner with one hidden layer, fitted with the labels 3
    and 5. *)
Lemma cmpnet_fit_continues_training_witness :
  (toy_convert one_object 3%R = Ok 3%R
   /\ toy_training 3%R (map (cmp_initial_hidden 1) (seq 0 1))
                   (cmp_initial_output 1 1)
      = (([cmp_initial_hidden 1 0], mkDense1 [1%R] 3%R), Ok tt)
   /\ length [cmp_initial_hidden 1 0] = 1
   /\ toy_convert one_object 5%R = Ok 5%R
   /\ toy_training 5%R [cmp_initial_hidden 1 0] (mkDense1 [1%R] 3%R)
      = (([cmp_initial_hidden 1 0], mkDense1 [1%R] 5%R), Ok tt))
  /\ exists fitted1 fitted2,
      CmpNetCoreLearner.fit toy_convert toy_training one_object 3%R
        (CmpNetCoreLearner.__init__ cmp_initial_hidden cmp_initial_output 1 1)
      = (Ok tt, fitted1)
      /\ CmpNetCoreLearner.fit toy_convert toy_training one_object 5%R
           fitted1
         = (Ok tt, fitted2)
      /\ forall X,
          CmpNetCoreLearner._predict_scores_fixed X fitted2
          = CmpNetCore._predict_scores_fixed
              (CmpNetCore.mk [cmp_initial_hidden 1 0] (mkDense1 [1%R] 5%R))
              X.
Proof.
  assert (H1 : toy_convert one_object 3%R = Ok 3%R) by reflexivity.
  assert (H2 : toy_training 3%R (map (cmp_initial_hidden 1) (seq 0 1))
                            (cmp_initial_output 1 1)
               = (([cmp_initial_hidden 1 0], mkDense1 [1%R] 3%R), Ok tt))
    by reflexivity.
  assert (H3 : length [cmp_initial_hidden 1 0] = 1) by reflexivity.
  assert (H4 : toy_convert one_object 5%R = Ok 5%R) by reflexivity.
  assert (H5 : toy_training 5%R [cmp_initial_hidden 1 0] (mkDense1 [1%R] 3%R)
               = (([cmp_initial_hidden 1 0], mkDense1 [1%R] 5%R), Ok tt))
    by reflexivity.
  split; [repeat split; assumption |].
  destruct (@cmpnet_fit_continues_training R R cmp_initial_hidden
              cmp_initial_output toy_convert toy_training 1 1 one_object
              one_object 3%R 5%R 3%R 5%R _ _ _ _ (Ok tt) (Ok tt)
              H1 H2 H3 H4 H5 H3)
    as (fitted1 & fitted2 & Hf1 & _ & Hf2 & Hp2).
  exists fitted1, fitted2. split; [exact Hf1 | split; [exact Hf2 | exact Hp2]].
Defined.

(** X23 on the same learner, retuned to two hidden layers of three
    units after its first fit. *)
Lemma cmpnet_set_tunable_parameters_keeps_model_witness :
  (toy_convert one_object 3%R = Ok 3%R
   /\ toy_training 3%R (map (cmp_initial_hidden 1) (seq 0 1))
                   (cmp_initial_output 1 1)
      = (([cmp_initial_hidden 1 0], mkDense1 [1%R] 3%R), Ok tt)
   /\ length [cmp_initial_hidden 1 0] = 1
   /\ toy_convert one_object 5%R = Ok 5%R
   /\ toy_training 5%R (map (cmp_initial_hidden 3) (seq 0 2))
                   (cmp_initial_output 2 3)
      = (([cmp_initial_hidden 3 0; cmp_initial_hidden 3 1],
          mkDense1 [1%R] 5%R), Ok tt)
   /\ length [cmp_initial_hidden 3 0; cmp_initial_hidden 3 1] = 2)
  /\ forall X,
      CmpNetCoreLearner._predict_scores_fixed X
        (CmpNetCoreLearner.set_tunable_parameters
           cmp_initial_hidden cmp_initial_output 2 3
           (snd (CmpNetCoreLearner.fit toy_convert toy_training
                   one_object 3%R
                   (CmpNetCoreLearner.__init__
                      cmp_initial_hidden cmp_initial_output 1 1))))
      = CmpNetCore._predict_scores_fixed
          (CmpNetCore.mk [cmp_initial_hidden 1 0] (mkDense1 [1%R] 3%R)) X.
Proof.
  assert (H1 : toy_convert one_object 3%R = Ok 3%R) by reflexivity.
  assert (H2 : toy_training 3%R (map (cmp_initial_hidden 1) (seq 0 1))
                            (cmp_initial_output 1 1)
               = (([cmp_initial_hidden 1 0], mkDense1 [1%R] 3%R), Ok tt))
    by reflexivity.
  assert (H3 : length [cmp_initial_hidden 1 0] = 1) by reflexivity.
  assert (H4 : toy_convert one_object 5%R = Ok 5%R) by reflexivity.
  assert (H5 : toy_training 5%R (map (cmp_initial_hidden 3) (seq 0 2))
                            (cmp_initial_output 2 3)
               = (([cmp_initial_hidden 3 0; cmp_initial_hidden 3 1],
                   mkDense1 [1%R] 5%R), Ok tt))
    by reflexivity.
  assert (H6 : length [cmp_initial_hidden 3 0; cmp_initial_hidden 3 1] = 2)
    by reflexivity.
  split; [repeat split; assumption |].
  exact (proj1 (@cmpnet_set_tunable_parameters_keeps_model R R
                  cmp_initial_hidden cmp_initial_output toy_convert
                  toy_training 1 1 2 3 one_object one_object 3%R 5%R
                  3%R 5%R _ _ _ _ (Ok tt) (Ok tt) H1 H2 H3 H4 H5 H6)).
Defined.

(** X24 on the same learner after its first fit. *)
Lemma cmpnet_clear_memory_keeps_scores_witness :
  (toy_convert one_object 3%R = Ok 3%R
   /\ toy_training 3%R (map (cmp_initial_hidden 1) (seq 0 1))
                   (cmp_initial_output 1 1)
      = (([cmp_initial_hidden 1 0], mkDense1 [1%R] 3%R), Ok tt)
   /\ length [cmp_initial_hidden 1 0] = 1)
  /\ exists cleared,
      CmpNetCoreLearner.clear_memory cmp_initial_hidden cmp_initial_output
        (snd (CmpNetCoreLearner.fit toy_convert toy_training one_object 3%R
                (CmpNetCoreLearner.__init__
                   cmp_initial_hidden cmp_initial_output 1 1)))
      = (Ok tt, cleared)
      /\ forall X,
          CmpNetCoreLearner._predict_scores_fixed X cleared
          = CmpNetCoreLearner._predict_scores_fixed X
              (snd (CmpNetCoreLearner.fit toy_convert toy_training
                      one_object 3%R
                      (CmpNetCoreLearner.__init__
                         cmp_initial_hidden cmp_initial_output 1 1))).
Proof.
  assert (H1 : toy_convert one_object 3%R = Ok 3%R) by reflexivity.
  assert (H2 : toy_training 3%R (map (cmp_initial_hidden 1) (seq 0 1))
                            (cmp_initial_output 1 1)
               = (([cmp_initial_hidden 1 0], mkDense1 [1%R] 3%R), Ok tt))
    by reflexivity.
  assert (H3 : length [cmp_initial_hidden 1 0] = 1) by reflexivity.
  split; [repeat split; assumption |].
  exact (proj1 (@cmpnet_clear_memory_keeps_scores R R cmp_initial_hidden
                  cmp_initial_output toy_convert toy_training 1 1
                  one_object 3%R 3%R _ _ (Ok tt) H1 H2 H3)).
Defined.

(** X25 on the same learner, retuned to two hidden layers. *)
Lemma cmpnet_clear_memory_after_retuning_witness :
  (toy_convert one_object 3%R = Ok 3%R
   /\ toy_training 3%R (map (cmp_initial_hidden 1) (seq 0 1))
                   (cmp_initial_output 1 1)
      = (([cmp_initial_hidden 1 0], mkDense1 [1%R] 3%R), Ok tt)
   /\ length [cmp_initial_hidden 1 0] = 1
   /\ 2 <> 1)
  /\ exists msg cleared,
      CmpNetCoreLearner.clear_memory cmp_initial_hidden cmp_initial_output
        (CmpNetCoreLearner.set_tunable_parameters
           cmp_initial_hidden cmp_initial_output 2 3
           (snd (CmpNetCoreLearner.fit toy_convert toy_training
                   one_object 3%R
                   (CmpNetCoreLearner.__init__
                      cmp_initial_hidden cmp_initial_output 1 1))))
      = (Raise (ValueError msg), cleared).
Proof.
  assert (H1 : toy_convert one_object 3%R = Ok 3%R) by reflexivity.
  assert (H2 : toy_training 3%R (map (cmp_initial_hidden 1) (seq 0 1))
                            (cmp_initial_output 1 1)
               = (([cmp_initial_hidden 1 0], mkDense1 [1%R] 3%R), Ok tt))
    by reflexivity.
  assert (H3 : length [cmp_initial_hidden 1 0] = 1) by reflexivity.
  assert (H4 : 2 <> 1) by lia.
  split; [repeat split; assumption |].
  destruct (@cmpnet_clear_memory_after_retuning R R cmp_initial_hidden
              cmp_initial_output toy_convert toy_training 1 1 2 3
              one_object 3%R 3%R _ _ (Ok tt) H1 H2 H3 H4)
    as (msg & cleared & Hclear & _).
  exists msg, cleared. exact Hclear.
Defined.

(** ** [fit] and then [predict] of the FETA choice function *)

Lemma Rltb_false (a b : R) : ~ (a < b)%R -> ChoiceFunction.Rltb a b = false.
Proof.
  intros H. destruct (ChoiceFunction.Rltb a b) eqn:E; trivial.
  apply Rltb_true in E. contradiction.
Qed.

Ltac eval_Rltb :=
  repeat match goal with
  | |- context [ChoiceFunction.Rltb ?a ?b] =>
      first [ replace (ChoiceFunction.Rltb a b) with true
                by (symmetry; apply Rltb_true; lra)
            | replace (ChoiceFunction.Rltb a b) with false
                by (symmetry; apply Rltb_false; lra) ]
  end.

Lemma predict_scores_keeps_threshold (net : Type)
    (_predict_scores_fixed : batch -> net -> result (list (list R)) * net)
    (X : batch) (s s' : ChoiceFunction.t net) (r : result Learner.scores) :
  ChoiceFunction.predict_scores _predict_scores_fixed (Learner.Array X) s
  = (r, s') ->
  ChoiceFunction.threshold s' = ChoiceFunction.threshold s.
Proof.
  unfold ChoiceFunction.predict_scores, Learner.predict_scores,
    ChoiceFunction.lifted_predict_scores_fixed.
  destruct (_predict_scores_fixed X (ChoiceFunction.core s)) as [[sc | e] c];
    intros H; inversion H; reflexivity.
Qed.

Ltac eval_Qgtb :=
  repeat match goal with
  | |- context [ThresholdTuner.Qgtb ?a ?b] =>
      let v := eval vm_compute in (ThresholdTuner.Qgtb a b) in
      change (ThresholdTuner.Qgtb a b) with v; cbv iota
  end.

(** X27.  After a [fit] with a tuning split whose tuner returned the
    threshold [p], also when the fit of the core raised,
    [FETAChoiceFunction.predict] on an array chooses exactly the
    objects whose score exceeds [p]. *)
Theorem feta_choice_fit_then_predict :
  forall (net labels : Type)
         (_predict_scores_fixed
          : batch -> net -> result (list (list R)) * net)
         (super_fit : batch -> labels -> net -> result unit * net)
         (train_test_split
          : batch -> labels -> Q -> result (batch * batch * labels * labels))
         (f1_score : labels -> list (list bool) -> Q)
         (X X' : batch) (Y : labels) (tune_size : Q) (thin_thresholds : nat)
         (s s' s'' : ChoiceFunction.t net) (X_train X_val : batch)
         (Y_train Y_val : labels) (r : result unit) (c : net) (p : R)
         (scores : list (list R)),
    (0 < tune_size)%Q ->
    train_test_split X Y tune_size = Ok (X_train, X_val, Y_train, Y_val) ->
    super_fit X_train Y_train (ChoiceFunction.core s) = (r, c) ->
    ChoiceFunction._tune_threshold _predict_scores_fixed f1_score
      X_val Y_val thin_thresholds
      (ChoiceFunction.mk c (ChoiceFunction.threshold s)
         (ChoiceFunction.calls s
          ++ [ChoiceFunction.TrainTestSplit; ChoiceFunction.SuperFit;
              ChoiceFunction.TuneThreshold]))
    = (Ok p, s') ->
    ChoiceFunction.predict_scores _predict_scores_fixed (Learner.Array X')
      (ChoiceFunction.set_threshold s' p)
    = (Ok (Learner.ScoresArray scores), s'') ->
    FETAChoiceFunction.fit _predict_scores_fixed super_fit train_test_split
                           f1_score X Y tune_size thin_thresholds s
    = (r, ChoiceFunction.set_threshold s' p)
    /\ FETAChoiceFunction.predict _predict_scores_fixed (Learner.Array X')
         (ChoiceFunction.set_threshold s' p)
       = (Ok (ChoiceFunction.ChoicesArray
                (map (map (fun v => ChoiceFunction.Rltb p v)) scores)),
          s'').
Proof.
  intros net labels fixed super_fit split f1 X X' Y tune_size thin s s' s''
         X_train X_val Y_train Y_val r c p scores Htune Hsplit Hfit Htuner
         Hscores.
  apply Qgtb_true in Htune. split.
  - unfold FETAChoiceFunction.fit.
    rewrite (@fit_finally net labels fixed super_fit split f1 X Y tune_size
               thin s X_train X_val Y_train Y_val r c Htune Hsplit Hfit).
    now rewrite Htuner.
  - unfold FETAChoiceFunction.predict, ChoiceFunction.predict.
    rewrite Hscores.
    now rewrite (predict_scores_keeps_threshold _ _ _ Hscores).
Qed.

(** X27 on a core whose fit fails. *)
Lemma feta_choice_fit_then_predict_witness :
  ((0 < 1 # 10)%Q
   /\ hold_out_last ten_queries ten_choices (1 # 10)
      = Ok (removelast ten_queries, [three_objects],
            removelast ten_choices, [[true; false; false]])
   /\ fit_fails (removelast ten_queries) (removelast ten_choices)
                (ChoiceFunction.core fresh_feta_choice)
      = (Raise (ValueError "training failed"), tt)
   /\ ChoiceFunction._tune_threshold first_feature_scores Sklearn.f1_score
        [three_objects] [[true; false; false]] 1
        (ChoiceFunction.mk tt (ChoiceFunction.threshold fresh_feta_choice)
           (ChoiceFunction.calls fresh_feta_choice
            ++ [ChoiceFunction.TrainTestSplit; ChoiceFunction.SuperFit;
                ChoiceFunction.TuneThreshold]))
      = (Ok 1%R,
         ChoiceFunction.mk tt (Some (1 / 2)%R)
           [ChoiceFunction.TrainTestSplit; ChoiceFunction.SuperFit;
            ChoiceFunction.TuneThreshold])
   /\ ChoiceFunction.predict_scores first_feature_scores
        (Learner.Array [two_objects])
        (ChoiceFunction.set_threshold
           (ChoiceFunction.mk tt (Some (1 / 2)%R)
              [ChoiceFunction.TrainTestSplit; ChoiceFunction.SuperFit;
               ChoiceFunction.TuneThreshold]) 1%R)
      = (Ok (Learner.ScoresArray [[2%R; 1%R]]),
         ChoiceFunction.mk tt (Some 1%R)
           [ChoiceFunction.TrainTestSplit; ChoiceFunction.SuperFit;
            ChoiceFunction.TuneThreshold]))
  /\ FETAChoiceFunction.predict first_feature_scores
       (Learner.Array [two_objects])
       (ChoiceFunction.set_threshold
          (ChoiceFunction.mk tt (Some (1 / 2)%R)
             [ChoiceFunction.TrainTestSplit; ChoiceFunction.SuperFit;
              ChoiceFunction.TuneThreshold]) 1%R)
     = (Ok (ChoiceFunction.ChoicesArray
              (map (map (fun v => ChoiceFunction.Rltb 1%R v))
                   [[2%R; 1%R]])),
        ChoiceFunction.mk tt (Some 1%R)
          [ChoiceFunction.TrainTestSplit; ChoiceFunction.SuperFit;
           ChoiceFunction.TuneThreshold]).
Proof.
  assert (H1 : (0 < 1 # 10)%Q) by reflexivity.
  assert (H2 : hold_out_last ten_queries ten_choices (1 # 10)
               = Ok (removelast ten_queries, [three_objects],
                     removelast ten_choices, [[true; false; false]]))
    by reflexivity.
  assert (H3 : fit_fails (removelast ten_queries) (removelast ten_choices)
                         (ChoiceFunction.core fresh_feta_choice)
               = (Raise (ValueError "training failed"), tt))
    by reflexivity.
  assert (H5 : ChoiceFunction.predict_scores first_feature_scores
                 (Learner.Array [two_objects])
                 (ChoiceFunction.set_threshold
                    (ChoiceFunction.mk tt (Some (1 / 2)%R)
                       [ChoiceFunction.TrainTestSplit;
                        ChoiceFunction.SuperFit;
                        ChoiceFunction.TuneThreshold]) 1%R)
               = (Ok (Learner.ScoresArray [[2%R; 1%R]]),
                  ChoiceFunction.mk tt (Some 1%R)
                    [ChoiceFunction.TrainTestSplit; ChoiceFunction.SuperFit;
                     ChoiceFunction.TuneThreshold]))
    by reflexivity.
  assert (H4 : ChoiceFunction._tune_threshold first_feature_scores
                 Sklearn.f1_score [three_objects] [[true; false; false]] 1
                 (ChoiceFunction.mk tt
                    (ChoiceFunction.threshold fresh_feta_choice)
                    (ChoiceFunction.calls fresh_feta_choice
                     ++ [ChoiceFunction.TrainTestSplit;
                         ChoiceFunction.SuperFit;
                         ChoiceFunction.TuneThreshold]))
               = (Ok 1%R,
                  ChoiceFunction.mk tt (Some (1 / 2)%R)
                    [ChoiceFunction.TrainTestSplit; ChoiceFunction.SuperFit;
                     ChoiceFunction.TuneThreshold])).
  { unfold ChoiceFunction._tune_threshold.
    change (ChoiceFunction.predict_scores first_feature_scores
              (Learner.Array [three_objects])
              (ChoiceFunction.mk tt
                 (ChoiceFunction.threshold fresh_feta_choice)
                 (ChoiceFunction.calls fresh_feta_choice
                  ++ [ChoiceFunction.TrainTestSplit;
                      ChoiceFunction.SuperFit;
                      ChoiceFunction.TuneThreshold])))
      with (Ok (Learner.ScoresArray [[2%R; 1%R; 0%R]]),
            ChoiceFunction.mk tt (Some (1 / 2)%R)
              [ChoiceFunction.TrainTestSplit; ChoiceFunction.SuperFit;
               ChoiceFunction.TuneThreshold]).
    cbv beta iota.
    unfold ThresholdTuner.tune, ThresholdTuner.unique.
    repeat (progress
              (cbn [concat app fold_right ThresholdTuner.insert_unique
                    ThresholdTuner.slice_step ThresholdTuner.every bind
                    fold_left ThresholdTuner.tune_step
                    ThresholdTuner.greater map Nat.sub fst snd];
               eval_Rltb; eval_Qgtb)).
    reflexivity. }
  split; [repeat split; assumption |].
  exact (proj2 (@feta_choice_fit_then_predict unit (list (list bool))
                  first_feature_scores fit_fails hold_out_last
                  Sklearn.f1_score ten_queries [two_objects] ten_choices
                  (1 # 10) 1 fresh_feta_choice _ _ _ _ _ _ _ _ _ _
                  H1 H2 H3 H4 H5)).
Defined.
